(** * A shallow embedding of the relay's API service (services/api/service.go)

    The development follows the Go source handler by handler.  Every handler
    is a function of the in-memory [RelayAPI] fields it reads, of the two
    external stores (the shared key/value cache and the durable database) and
    of an explicit record of oracle answers for the calls that leave the
    process (block simulator, BLS verification, JSON decoding, transport
    failures of the stores).  [go f(...)] statements are recorded as spawned
    goroutines; a goroutine body is a function of its own that the slot
    machine of Section [Pipeline] runs as a separate event.

    Unsigned 64-bit values are integers of [Z]; every place where the source
    does arithmetic or a conversion on them has the wrap-around written out
    with [u64]. *)

From Stdlib Require Import ZArith String Ascii List Bool Lia DecimalString DecimalN.
From stdpp Require Import gmap strings list.

Open Scope Z_scope.

(** ** Machine integers *)

Definition u64 (z : Z) : Z := z mod 2 ^ 64.

(** ** strconv: decimal numerals

    [strconv.ParseUint(s, 10, bitSize)], [strconv.ParseInt(s, 10, bitSize)]
    and the decimal rendering of an unsigned integer (which is how the cache
    client serialises a [uint64] field value).  [None] stands for a non-nil
    error: empty input, a byte that is not a digit, or a value out of
    range. *)
Module Strconv.

Definition parseDigits (s : string) : option Z :=
  if decide (s = EmptyString) then None
  else match NilEmpty.uint_of_string s with
       | Some d => Some (Z.of_N (N.of_uint d))
       | None => None
       end.

Definition ParseUint (s : string) (bitSize : Z) : option Z :=
  match parseDigits s with
  | Some n => if n <? 2 ^ bitSize then Some n else None
  | None => None
  end.

Definition ParseInt (s : string) (bitSize : Z) : option Z :=
  match s with
  | EmptyString => None
  | String c rest =>
      let neg := Ascii.eqb c "-"%char in
      let digits := if Ascii.eqb c "+"%char || neg then rest else s in
      match parseDigits digits with
      | None => None
      | Some un =>
          let cutoff := 2 ^ (bitSize - 1) in
          if neg then (if cutoff <? un then None else Some (- un))
          else (if cutoff <=? un then None else Some un)
      end
  end.

Definition FormatUint (n : Z) : string :=
  NilEmpty.string_of_uint (N.to_uint (Z.to_N n)).

End Strconv.

(** ** Wire types

    The records of go-boost-utils/types and of package common, restricted to
    the fields service.go reads.  Public keys, hashes and addresses are kept
    in the hexadecimal string form the service uses for every comparison and
    every store key ([.String()]).  A Go pointer that the service tests
    against [nil] is an [option]. *)

(** [types.U256Str]: an unsigned 256-bit integer, compared with [Cmp]. *)
Definition ZeroU256 : Z := 0.

Definition Cmp (a b : Z) : Z :=
  match a ?= b with Lt => -1 | Eq => 0 | Gt => 1 end.

Module BuilderStatus.
(** common.BuilderStatus *)
Record t := mk { IsHighPrio : bool; IsBlacklisted : bool; IsDemoted : bool }.
End BuilderStatus.

Module BidTrace.
Record t := mk {
  Slot : Z;
  ParentHash : string;
  BlockHash : string;
  BuilderPubkey : string;
  ProposerPubkey : string;
  ProposerFeeRecipient : string;
  GasLimit : Z;
  GasUsed : Z;
  Value : Z
}.
End BidTrace.

Module ExecutionPayload.
Record t := mk {
  Timestamp : Z;
  Random : string;
  BlockNumber : Z;
  BlockHash : string;
  Transactions : list string
}.
End ExecutionPayload.

Module BuilderSubmitBlockRequest.
Record t := mk {
  Signature : string;
  Message : option BidTrace.t;
  ExecutionPayload : option ExecutionPayload.t
}.
End BuilderSubmitBlockRequest.

Module BidTraceV2.
(** common.BidTraceV2 *)
Record t := mk { BidTrace : BidTrace.t; BlockNumber : Z; NumTx : Z }.
End BidTraceV2.

Module BuilderBid.
Record t := mk { Value : Z; HeaderBlockHash : string; Pubkey : string }.
End BuilderBid.

Module SignedBuilderBid.
Record t := mk { Message : option BuilderBid.t; Signature : string }.
End SignedBuilderBid.

Module GetHeaderResponse.
Record t := mk { Version : string; Data : option SignedBuilderBid.t }.
End GetHeaderResponse.

Module GetPayloadResponse.
Record t := mk { Version : string; Data : option ExecutionPayload.t }.
End GetPayloadResponse.

Module RegisterValidatorRequestMessage.
Record t := mk { FeeRecipient : string; GasLimit : Z; Timestamp : Z; Pubkey : string }.
End RegisterValidatorRequestMessage.

Module SignedValidatorRegistration.
Record t := mk { Message : RegisterValidatorRequestMessage.t; Signature : string }.
End SignedValidatorRegistration.

Module SignedBlindedBeaconBlock.
Record t := mk {
  Slot : Z;
  ProposerIndex : Z;
  HeaderBlockHash : string;
  HeaderBlockNumber : Z;
  Signature : string
}.
End SignedBlindedBeaconBlock.

Definition VersionBellatrix : string := "bellatrix".

(** ** The shared key/value cache (datastore.RedisCache) *)
Module Redis.

(** A failed call: [redis.Nil] (the key or field does not exist) or any
    other error of the client. *)
Inductive Error := Nil | Transport (msg : string).

Definition ErrorString (e : Error) : string :=
  match e with Nil => "redis: nil" | Transport m => m end.

Record t := mk {
  stats : gmap string string;
  bidTraces : gmap (Z * string * string) BidTraceV2.t;
  executionPayloads : gmap (Z * string * string) GetPayloadResponse.t;
  latestBuilderBids : gmap (Z * string * string) (gmap string (Z * GetHeaderResponse.t));
  bestBids : gmap (Z * string * string) GetHeaderResponse.t;
  validatorRegistrationTimestamps : gmap string Z
}.

Definition empty : t := mk ∅ ∅ ∅ ∅ ∅ ∅.

(** Modelled from the spec: the cache client of datastore/redis.go is not
    among the sources; the spec names the stats field
    ["slot_last_payload_delivered"]. *)
Definition RedisStatsFieldSlotLastPayloadDelivered : string :=
  "slot_last_payload_delivered".

(** Modelled from the spec: [get_stats]; a hash-field read that answers the
    stored string, [redis.Nil] when the field was never written, and an
    error when the transport fails ([fail]). *)
Definition GetStats (r : t) (field : string) (fail : option string)
  : string * option Error :=
  match fail with
  | Some e => (EmptyString, Some (Transport e))
  | None =>
      match stats r !! field with
      | Some v => (v, None)
      | None => (EmptyString, Some Nil)
      end
  end.

(** Modelled from the spec: [set_stats]; the client writes a [uint64] value
    in decimal.  A failed call leaves the cache as it was. *)
Definition SetStats (r : t) (field : string) (value : Z) (fail : option string)
  : t * option string :=
  match fail with
  | Some e => (r, Some e)
  | None =>
      (mk (<[field := Strconv.FormatUint value]> (stats r)) (bidTraces r)
          (executionPayloads r) (latestBuilderBids r) (bestBids r)
          (validatorRegistrationTimestamps r), None)
  end.

(** Modelled from the spec: [save_bid_trace], an idempotent put keyed by
    (slot, proposer, block hash). *)
Definition SaveBidTrace (r : t) (trace : BidTraceV2.t) (fail : option string)
  : t * option string :=
  match fail with
  | Some e => (r, Some e)
  | None =>
      let b := BidTraceV2.BidTrace trace in
      let k := (BidTrace.Slot b, BidTrace.ProposerPubkey b, BidTrace.BlockHash b) in
      (mk (stats r) (<[k := trace]> (bidTraces r)) (executionPayloads r)
          (latestBuilderBids r) (bestBids r) (validatorRegistrationTimestamps r), None)
  end.

(** Modelled from the spec: [get_bid_trace]. *)
Definition GetBidTrace (r : t) (slot : Z) (proposer blockHash : string)
    (fail : option string) : option BidTraceV2.t * option string :=
  match fail with
  | Some e => (None, Some e)
  | None => (bidTraces r !! (slot, proposer, blockHash), None)
  end.

(** Modelled from the spec: [save_execution_payload], an idempotent put. *)
Definition SaveExecutionPayload (r : t) (slot : Z) (proposer blockHash : string)
    (resp : GetPayloadResponse.t) (fail : option string) : t * option string :=
  match fail with
  | Some e => (r, Some e)
  | None =>
      (mk (stats r) (bidTraces r)
          (<[(slot, proposer, blockHash) := resp]> (executionPayloads r))
          (latestBuilderBids r) (bestBids r) (validatorRegistrationTimestamps r), None)
  end.

(** Modelled from the spec: [get_execution_payload]; empty, not an error,
    when nothing is stored. *)
Definition GetExecutionPayload (r : t) (slot : Z) (proposer blockHash : string)
    (fail : option string) : option GetPayloadResponse.t * option string :=
  match fail with
  | Some e => (None, Some e)
  | None => (executionPayloads r !! (slot, proposer, blockHash), None)
  end.

(** Modelled from the spec: [save_latest_builder_bid] overwrites this
    builder's current bid in the per-(slot, parent, proposer) set and
    records its arrival time. *)
Definition SaveLatestBuilderBid (r : t) (slot : Z) (builder parent proposer : string)
    (receivedAt : Z) (bid : GetHeaderResponse.t) (fail : option string)
  : t * option string :=
  match fail with
  | Some e => (r, Some e)
  | None =>
      let k := (slot, parent, proposer) in
      let bids := default ∅ (latestBuilderBids r !! k) in
      (mk (stats r) (bidTraces r) (executionPayloads r)
          (<[k := <[builder := (receivedAt, bid)]> bids]> (latestBuilderBids r))
          (bestBids r) (validatorRegistrationTimestamps r), None)
  end.

(** Modelled from the spec: [get_builder_latest_received_at]; zero when the
    builder has no bid for the tuple. *)
Definition GetBuilderLatestPayloadReceivedAt (r : t) (slot : Z)
    (builder parent proposer : string) (fail : option string) : Z * option string :=
  match fail with
  | Some e => (0, Some e)
  | None =>
      match latestBuilderBids r !! (slot, parent, proposer) with
      | Some bids =>
          match bids !! builder with
          | Some (at_, _) => (at_, None)
          | None => (0, None)
          end
      | None => (0, None)
      end
  end.

Definition bidValue (b : GetHeaderResponse.t) : Z :=
  match GetHeaderResponse.Data b with
  | Some sb =>
      match SignedBuilderBid.Message sb with
      | Some m => BuilderBid.Value m
      | None => 0
      end
  | None => 0
  end.

Definition bidBlockHash (b : GetHeaderResponse.t) : string :=
  match GetHeaderResponse.Data b with
  | Some sb =>
      match SignedBuilderBid.Message sb with
      | Some m => BuilderBid.HeaderBlockHash m
      | None => EmptyString
      end
  | None => EmptyString
  end.

(** Modelled from the spec: the order [update_top_bid] selects by; larger
    value first, then the earlier arrival, then the smaller block hash. *)
Definition betterBid (x y : Z * GetHeaderResponse.t) : bool :=
  let '(ax, bx) := x in
  let '(ay, by_) := y in
  (bidValue by_ <? bidValue bx)
  || ((bidValue bx =? bidValue by_)
      && ((ax <? ay)
          || ((ax =? ay) && String.ltb (bidBlockHash bx) (bidBlockHash by_)))).

Definition pickTopBid (bids : list (Z * GetHeaderResponse.t))
  : option (Z * GetHeaderResponse.t) :=
  fold_left (fun best x =>
               match best with
               | None => Some x
               | Some b => if betterBid x b then Some x else Some b
               end) bids None.

(** Modelled from the spec: [update_top_bid] scans all builder bids of the
    tuple and publishes the selected one as the tuple's best bid. *)
Definition UpdateTopBid (r : t) (slot : Z) (parent proposer : string)
    (fail : option string) : t * option string :=
  match fail with
  | Some e => (r, Some e)
  | None =>
      let k := (slot, parent, proposer) in
      let bids := default ∅ (latestBuilderBids r !! k) in
      match pickTopBid (snd <$> map_to_list bids) with
      | Some (_, top) =>
          (mk (stats r) (bidTraces r) (executionPayloads r) (latestBuilderBids r)
              (<[k := top]> (bestBids r)) (validatorRegistrationTimestamps r), None)
      | None => (r, None)
      end
  end.

(** Modelled from the spec: [get_best_bid]; empty, not an error, when the
    tuple has no best bid. *)
Definition GetBestBid (r : t) (slot : Z) (parent proposer : string)
    (fail : option string) : option GetHeaderResponse.t * option string :=
  match fail with
  | Some e => (None, Some e)
  | None => (bestBids r !! (slot, parent, proposer), None)
  end.

(** Modelled from the spec: the stored registration timestamp of a
    validator; zero when none is stored. *)
Definition GetValidatorRegistrationTimestamp (r : t) (pk : string)
    (fail : option string) : Z * option string :=
  match fail with
  | Some e => (0, Some e)
  | None => (default 0 (validatorRegistrationTimestamps r !! pk), None)
  end.

End Redis.

(** ** The durable store (database.IDatabaseService) *)
Module Database.

(** database.BlockBuilderEntry (types file of package database) *)
Module BlockBuilderEntry.
Record t := mk {
  BuilderPubkey : string;
  IsHighPrio : bool;
  IsBlacklisted : bool;
  IsDemoted : bool;
  CollateralValue : string;
  CollateralID : string;
  LastSubmissionSlot : Z;
  NumSubmissionsTotal : Z;
  NumSubmissionsSimError : Z;
  NumSentGetPayload : Z
}.

Definition withStatus (e : t) (s : BuilderStatus.t) : t :=
  mk (BuilderPubkey e) (BuilderStatus.IsHighPrio s) (BuilderStatus.IsBlacklisted s)
     (BuilderStatus.IsDemoted s) (CollateralValue e) (CollateralID e)
     (LastSubmissionSlot e) (NumSubmissionsTotal e) (NumSubmissionsSimError e)
     (NumSentGetPayload e).

Definition withPubkey (e : t) (pubkey : string) : t :=
  mk pubkey (IsHighPrio e) (IsBlacklisted e) (IsDemoted e) (CollateralValue e)
     (CollateralID e) (LastSubmissionSlot e) (NumSubmissionsTotal e)
     (NumSubmissionsSimError e) (NumSentGetPayload e).
End BlockBuilderEntry.

(** database.BuilderDemotionEntry; the two refund columns are nullable. *)
Module BuilderDemotionEntry.
Record t := mk {
  SubmitBlockRequest : BuilderSubmitBlockRequest.t;
  SubmitBlockSimError : string;
  SignedBeaconBlock : option (SignedBlindedBeaconBlock.t * option ExecutionPayload.t);
  SignedValidatorRegistration : option SignedValidatorRegistration.t
}.
End BuilderDemotionEntry.

(** database.BuilderBlockSubmissionEntry, the audit row of a submission. *)
Module BuilderBlockSubmissionEntry.
Record t := mk {
  Payload : BuilderSubmitBlockRequest.t;
  SimError : option string;
  ReceivedAt : Z;
  EligibleAt : option Z;
  OptimisticSubmission : bool
}.
End BuilderBlockSubmissionEntry.

Record t := mk {
  blockBuilders : gmap string BlockBuilderEntry.t;
  demotions : gmap (Z * string * string) BuilderDemotionEntry.t;
  submissions : list BuilderBlockSubmissionEntry.t;
  deliveredPayloads : list (Z * option BidTraceV2.t * SignedBlindedBeaconBlock.t);
  validatorRegistrations : gmap string SignedValidatorRegistration.t
}.

Definition empty : t := mk ∅ ∅ [] [] ∅.

(** [sql.ErrNoRows] or any other failure of a query. *)
Inductive Error := ErrNoRows | Failure (msg : string).

(** Modelled from the spec: the block-builders table read by the builder
registry refresh.  The table is keyed by the builder's public key, and the
[BuilderPubkey] of a row read back is its key. *)
Definition GetBlockBuilders (d : t) (fail : option string)
  : list BlockBuilderEntry.t * option string :=
  match fail with
  | Some e => ([], Some e)
  | None =>
      ((fun kv => BlockBuilderEntry.withPubkey kv.2 kv.1) <$> map_to_list (blockBuilders d),
       None)
  end.

(** Modelled from the spec: the status bits of the builder row are
overwritten; as TestSetBlockBuilderStatus of the database tests has it,
every builder sharing the row's non-empty collateral id is updated
with it, and a builder with an empty collateral id alone.  A pubkey
without a row is an error. *)
Definition SetBlockBuilderStatus (d : t) (pubkey : string) (s : BuilderStatus.t)
    (fail : option string) : t * option string :=
  match fail with
  | Some e => (d, Some e)
  | None =>
      match blockBuilders d !! pubkey with
      | None => (d, Some "sql: no rows in result set"%string)
      | Some target =>
          let updated :=
            if decide (BlockBuilderEntry.CollateralID target = EmptyString)
            then alter (fun e => BlockBuilderEntry.withStatus e s) pubkey (blockBuilders d)
            else (fun e => if decide (BlockBuilderEntry.CollateralID e
                                      = BlockBuilderEntry.CollateralID target)
                           then BlockBuilderEntry.withStatus e s else e)
                   <$> blockBuilders d in
          (mk updated (demotions d) (submissions d) (deliveredPayloads d)
              (validatorRegistrations d), None)
      end
  end.

(** Modelled from the spec: a row of the demotions log keyed by
    (slot, builder pubkey, block hash) carrying the submission and the
    simulation error. *)
Definition InsertBuilderDemotion (d : t) (req : BuilderSubmitBlockRequest.t)
    (simError : string) (fail : option string) : t * option string :=
  match fail, BuilderSubmitBlockRequest.Message req with
  | Some e, _ => (d, Some e)
  | None, None => (d, Some "nil message"%string)
  | None, Some m =>
      let k := (BidTrace.Slot m, BidTrace.BuilderPubkey m, BidTrace.BlockHash m) in
      (mk (blockBuilders d)
          (<[k := BuilderDemotionEntry.mk req simError None None]> (demotions d))
          (submissions d) (deliveredPayloads d) (validatorRegistrations d), None)
  end.

(** Modelled from the spec: lookup in the demotions log. *)
Definition GetBuilderDemotion (d : t) (trace : BidTrace.t) (fail : option string)
  : option BuilderDemotionEntry.t * option Error :=
  match fail with
  | Some e => (None, Some (Failure e))
  | None =>
      match demotions d !! (BidTrace.Slot trace, BidTrace.BuilderPubkey trace,
                            BidTrace.BlockHash trace) with
      | Some e => (Some e, None)
      | None => (None, Some ErrNoRows)
      end
  end.

(** Modelled from the spec: the log row is updated with the refund
    justification. *)
Definition UpdateBuilderDemotion (d : t) (trace : BidTrace.t)
    (block : SignedBlindedBeaconBlock.t * option ExecutionPayload.t)
    (reg : option SignedValidatorRegistration.t) (fail : option string)
  : t * option string :=
  match fail with
  | Some e => (d, Some e)
  | None =>
      let k := (BidTrace.Slot trace, BidTrace.BuilderPubkey trace,
                BidTrace.BlockHash trace) in
      (mk (blockBuilders d)
          (alter (fun e => BuilderDemotionEntry.mk
                             (BuilderDemotionEntry.SubmitBlockRequest e)
                             (BuilderDemotionEntry.SubmitBlockSimError e)
                             (Some block) reg) k (demotions d))
          (submissions d) (deliveredPayloads d) (validatorRegistrations d), None)
  end.

(** Modelled from the spec: one audit row per submission. *)
Definition SaveBuilderBlockSubmission (d : t) (payload : BuilderSubmitBlockRequest.t)
    (simErr : option string) (receivedAt : Z) (eligibleAt : option Z)
    (optimisticSubmission : bool) (fail : option string)
  : t * (string + BuilderBlockSubmissionEntry.t) :=
  match fail with
  | Some e => (d, inl e)
  | None =>
      let entry := BuilderBlockSubmissionEntry.mk payload simErr receivedAt eligibleAt
                     optimisticSubmission in
      (mk (blockBuilders d) (demotions d) (submissions d ++ [entry])
          (deliveredPayloads d) (validatorRegistrations d), inr entry)
  end.

(** Modelled from the spec: the builder row is created on the first
    submission (status bits cleared, collateral ["0"], as
    TestSetBlockBuilderStatus and TestSetBlockBuilderCollateral observe it)
    and afterwards only its counters and last-submission slot change. *)
Definition UpsertBlockBuilderEntryAfterSubmission (d : t)
    (entry : BuilderBlockSubmissionEntry.t) (isError : bool) (fail : option string)
  : t * option string :=
  match fail, BuilderSubmitBlockRequest.Message (BuilderBlockSubmissionEntry.Payload entry) with
  | Some e, _ => (d, Some e)
  | None, None => (d, Some "nil message"%string)
  | None, Some m =>
      let pk := BidTrace.BuilderPubkey m in
      let simerr := if isError then 1 else 0 in
      let row :=
        match blockBuilders d !! pk with
        | None =>
            BlockBuilderEntry.mk pk false false false "0" EmptyString (BidTrace.Slot m) 1 simerr 0
        | Some e =>
            BlockBuilderEntry.mk pk (BlockBuilderEntry.IsHighPrio e)
              (BlockBuilderEntry.IsBlacklisted e) (BlockBuilderEntry.IsDemoted e)
              (BlockBuilderEntry.CollateralValue e) (BlockBuilderEntry.CollateralID e)
              (BidTrace.Slot m)
              (u64 (BlockBuilderEntry.NumSubmissionsTotal e + 1))
              (u64 (BlockBuilderEntry.NumSubmissionsSimError e + simerr))
              (BlockBuilderEntry.NumSentGetPayload e)
        end in
      (mk (<[pk := row]> (blockBuilders d)) (demotions d) (submissions d)
          (deliveredPayloads d) (validatorRegistrations d), None)
  end.

(** Modelled from the spec: one row per successful getPayload. *)
Definition SaveDeliveredPayload (d : t) (bidTrace : option BidTraceV2.t)
    (payload : SignedBlindedBeaconBlock.t) (fail : option string) : t * option string :=
  match fail with
  | Some e => (d, Some e)
  | None =>
      (mk (blockBuilders d) (demotions d) (submissions d)
          (deliveredPayloads d ++ [(SignedBlindedBeaconBlock.Slot payload, bidTrace, payload)])
          (validatorRegistrations d), None)
  end.

(** Modelled from the spec: the getPayload counter of the builder row. *)
Definition IncBlockBuilderStatsAfterGetPayload (d : t) (pubkey : string)
    (fail : option string) : t * option string :=
  match fail with
  | Some e => (d, Some e)
  | None =>
      (mk (alter (fun e =>
                    BlockBuilderEntry.mk (BlockBuilderEntry.BuilderPubkey e)
                      (BlockBuilderEntry.IsHighPrio e) (BlockBuilderEntry.IsBlacklisted e)
                      (BlockBuilderEntry.IsDemoted e) (BlockBuilderEntry.CollateralValue e)
                      (BlockBuilderEntry.CollateralID e) (BlockBuilderEntry.LastSubmissionSlot e)
                      (BlockBuilderEntry.NumSubmissionsTotal e)
                      (BlockBuilderEntry.NumSubmissionsSimError e)
                      (u64 (BlockBuilderEntry.NumSentGetPayload e + 1)))
             pubkey (blockBuilders d))
          (demotions d) (submissions d) (deliveredPayloads d)
          (validatorRegistrations d), None)
  end.

(** Modelled from the spec: the stored registration of a validator. *)
Definition GetValidatorRegistration (d : t) (pubkey : string) (fail : option string)
  : option SignedValidatorRegistration.t * option Error :=
  match fail with
  | Some e => (None, Some (Failure e))
  | None =>
      match validatorRegistrations d !! pubkey with
      | Some r => (Some r, None)
      | None => (None, Some ErrNoRows)
      end
  end.

End Database.

(** ** Package api: state of a relay instance *)

Definition ErrBlockAlreadyKnown : string := "simulation failed: block already known".

Definition StatusOK : Z := 200.
Definition StatusNoContent : Z := 204.
Definition StatusBadRequest : Z := 400.
Definition StatusInternalServerError : Z := 500.

Module randaoHelper.
Record t := mk { slot : Z; prevRandao : string }.
End randaoHelper.

Module blockBuilderCacheEntry.
Record t := mk { status : BuilderStatus.t; collateral : Z }.
End blockBuilderCacheEntry.

Module BuilderBlockValidationRequest.
Record t := mk {
  BuilderSubmitBlockRequest : BuilderSubmitBlockRequest.t;
  RegisteredGasLimit : Z
}.
End BuilderBlockValidationRequest.

(** Data needed to issue a block validation request (the request context and
    the logger are not modelled). *)
Module blockSimOptions.
Record t := mk { isHighPrio : bool; req : BuilderBlockValidationRequest.t }.
End blockSimOptions.

(** The in-memory fields of [RelayAPI] that the handlers read or write.
    [knownValidators] and [knownValidatorsByIndex] are the memory-resident
    sets of the datastore; the two channels are the buffered queues feeding
    the persistence workers. *)
Module RelayAPI.
Record t := mk {
  publicKey : string;
  optsBlockBuilderAPI : bool;
  headSlot : Z;
  genesisTime : Z;
  proposerDutiesMap : gmap Z RegisterValidatorRequestMessage.t;
  proposerDutiesSlot : Z;
  knownValidators : gset string;
  knownValidatorsByIndex : gmap Z string;
  activeValidatorC : list string;
  validatorRegC : list SignedValidatorRegistration.t;
  ffForceGetHeader204 : bool;
  ffDisableBlockPublishing : bool;
  ffDisableLowPrioBuilders : bool;
  expectedPrevRandao : randaoHelper.t;
  expectedPrevRandaoUpdating : Z;
  optimisticSlot : Z;
  blockBuildersCache : gmap string blockBuilderCacheEntry.t
}.

Definition withHeadSlot (a : t) (s : Z) : t :=
  mk (publicKey a) (optsBlockBuilderAPI a) s (genesisTime a) (proposerDutiesMap a)
     (proposerDutiesSlot a) (knownValidators a) (knownValidatorsByIndex a)
     (activeValidatorC a) (validatorRegC a) (ffForceGetHeader204 a)
     (ffDisableBlockPublishing a) (ffDisableLowPrioBuilders a) (expectedPrevRandao a)
     (expectedPrevRandaoUpdating a) (optimisticSlot a) (blockBuildersCache a).

Definition withOptimisticSlot (a : t) (s : Z) : t :=
  mk (publicKey a) (optsBlockBuilderAPI a) (headSlot a) (genesisTime a)
     (proposerDutiesMap a) (proposerDutiesSlot a) (knownValidators a)
     (knownValidatorsByIndex a) (activeValidatorC a) (validatorRegC a)
     (ffForceGetHeader204 a) (ffDisableBlockPublishing a) (ffDisableLowPrioBuilders a)
     (expectedPrevRandao a) (expectedPrevRandaoUpdating a) s (blockBuildersCache a).

Definition withBlockBuildersCache (a : t) (c : gmap string blockBuilderCacheEntry.t) : t :=
  mk (publicKey a) (optsBlockBuilderAPI a) (headSlot a) (genesisTime a)
     (proposerDutiesMap a) (proposerDutiesSlot a) (knownValidators a)
     (knownValidatorsByIndex a) (activeValidatorC a) (validatorRegC a)
     (ffForceGetHeader204 a) (ffDisableBlockPublishing a) (ffDisableLowPrioBuilders a)
     (expectedPrevRandao a) (expectedPrevRandaoUpdating a) (optimisticSlot a) c.

Definition withRandao (a : t) (h : randaoHelper.t) (updating : Z) : t :=
  mk (publicKey a) (optsBlockBuilderAPI a) (headSlot a) (genesisTime a)
     (proposerDutiesMap a) (proposerDutiesSlot a) (knownValidators a)
     (knownValidatorsByIndex a) (activeValidatorC a) (validatorRegC a)
     (ffForceGetHeader204 a) (ffDisableBlockPublishing a) (ffDisableLowPrioBuilders a)
     h updating (optimisticSlot a) (blockBuildersCache a).

Definition withProposerDuties (a : t) (m : gmap Z RegisterValidatorRequestMessage.t)
    (s : Z) : t :=
  mk (publicKey a) (optsBlockBuilderAPI a) (headSlot a) (genesisTime a) m s
     (knownValidators a) (knownValidatorsByIndex a) (activeValidatorC a) (validatorRegC a)
     (ffForceGetHeader204 a) (ffDisableBlockPublishing a) (ffDisableLowPrioBuilders a)
     (expectedPrevRandao a) (expectedPrevRandaoUpdating a) (optimisticSlot a)
     (blockBuildersCache a).

Definition withChannels (a : t) (act : list string)
    (reg : list SignedValidatorRegistration.t) : t :=
  mk (publicKey a) (optsBlockBuilderAPI a) (headSlot a) (genesisTime a)
     (proposerDutiesMap a) (proposerDutiesSlot a) (knownValidators a)
     (knownValidatorsByIndex a) act reg
     (ffForceGetHeader204 a) (ffDisableBlockPublishing a) (ffDisableLowPrioBuilders a)
     (expectedPrevRandao a) (expectedPrevRandaoUpdating a) (optimisticSlot a)
     (blockBuildersCache a).
End RelayAPI.

(** ** What a handler does to the outside *)

Inductive ResponseBody :=
| BodyGetHeader (b : GetHeaderResponse.t)
| BodyGetPayload (p : GetPayloadResponse.t)
| BodyBuilderStatus (s : BuilderStatus.t).

(** A write to the [http.ResponseWriter]: [api.RespondError], [api.RespondOK]
    or a bare [w.WriteHeader]. *)
Inductive HTTPWrite :=
| RespondError (code : Z) (message : string)
| RespondOK (response : ResponseBody)
| WriteHeader (code : Z).

Definition statusOf (w : HTTPWrite) : Z :=
  match w with
  | RespondError code _ => code
  | RespondOK _ => StatusOK
  | WriteHeader code => code
  end.

(** The functions started with a [go] statement. *)
Inductive Goroutine :=
| GoUpdatedExpectedRandao (slot : Z)
| GoUpdateProposerDuties (headSlot : Z)
| GoUpdateOptimisticSlot (headSlot : Z)
| GoProcessOptimisticBlock (opts : blockSimOptions.t)
| GoSaveDeliveredPayload (payload : SignedBlindedBeaconBlock.t) (proposerPubkey : string)
    (resp : GetPayloadResponse.t)
| GoPublishBlock (payload : SignedBlindedBeaconBlock.t) (resp : GetPayloadResponse.t).

(** The calls that leave the handler, in the order the handler makes them. *)
Inductive Effect :=
| Go (g : Goroutine)
| Sleep (ms : Z)
| BlockSimSend (opts : blockSimOptions.t)
| SaveBidTrace (err : option string)
| SaveExecutionPayload (err : option string)
| SaveLatestBuilderBid (err : option string)
| UpdateTopBid (err : option string)
| SetStats (err : option string)
| SetBlockBuilderStatus (pubkey : string) (s : BuilderStatus.t) (err : option string)
| InsertBuilderDemotion (err : option string)
| UpdateBuilderDemotion (err : option string)
| SaveBuilderBlockSubmission (optimisticSubmission : bool) (err : option string)
| UpsertBlockBuilderEntryAfterSubmission (isError : bool) (err : option string)
| SaveDeliveredPayload (err : option string)
| IncBlockBuilderStatsAfterGetPayload (err : option string).

(** The two stores with the trace of the calls one handler or goroutine
    has made so far. *)
Module Stores.
Record t := mk { redis : Redis.t; db : Database.t; effects : list Effect }.

Definition emit (s : t) (e : Effect) : t := mk (redis s) (db s) (effects s ++ [e]).
Definition withRedis (s : t) (r : Redis.t) : t := mk r (db s) (effects s).
Definition withDB (s : t) (d : Database.t) : t := mk (redis s) d (effects s).
End Stores.

(** ** Handlers with early return

    A handler body threads a state and either goes on with a value or has
    executed a [return] after writing its response. *)
Section HandlerMonad.
Context {S : Type}.

Inductive Outcome (A : Type) : Type :=
| Continue (a : A)
| Return (w : HTTPWrite).

Definition Handler (A : Type) : Type := S -> S * Outcome A.

Definition ret {A} (a : A) : Handler A := fun s => (s, Continue A a).

Definition bind {A B} (m : Handler A) (k : A -> Handler B) : Handler B :=
  fun s =>
    match m s with
    | (s', Continue _ a) => k a s'
    | (s', Return _ w) => (s', Return B w)
    end.

(** [w.Write...; return] *)
Definition respond {A} (w : HTTPWrite) : Handler A := fun s => (s, Return A w).

Definition get : Handler S := fun s => (s, Continue S s).

Definition modify (f : S -> S) : Handler unit := fun s => (f s, Continue unit tt).

(** [defer d()] in front of the rest [m] of a function body: [d] runs when
    [m] is left, whichever way, and sees the state as [m] left it. *)
Definition withDefer {A} (d : S -> S) (m : Handler A) : Handler A :=
  fun s => let '(s', o) := m s in (d s', o).

End HandlerMonad.

Arguments Continue {A} a.
Arguments Return {A} w.

Notation "'do' x <- m ; k" := (bind m (fun x => k))
  (at level 10, x binder, m at level 100, k at level 200).

(** ** Block simulation and demotion *)

(** [simulateBlock] sends a request for a block simulation to the rate
    limiter; [simErr] is what [blockSimRateLimiter.send] answers. *)
Definition simulateBlock (opts : blockSimOptions.t) (simErr : option string)
    (s : Stores.t) : Stores.t * option string :=
  let s := Stores.emit s (BlockSimSend opts) in
  match simErr with
  | Some e =>
      if decide (e <> ErrBlockAlreadyKnown) then (s, Some e) else (s, None)
  | None => (s, None)
  end.

Module DemoteEnv.
Record t := mk { setStatusFail : option string; insertDemotionFail : option string }.
End DemoteEnv.

Definition demoteBuilder (api : RelayAPI.t) (pubkey : string)
    (req : BuilderSubmitBlockRequest.t) (simError : string) (env : DemoteEnv.t)
    (s : Stores.t) : Stores.t :=
  let builderEntry :=
    match RelayAPI.blockBuildersCache api !! pubkey with
    | Some e => e
    | None => blockBuilderCacheEntry.mk (BuilderStatus.mk false false false) ZeroU256
    end in
  let newStatus :=
    BuilderStatus.mk
      (BuilderStatus.IsHighPrio (blockBuilderCacheEntry.status builderEntry))
      (BuilderStatus.IsBlacklisted (blockBuilderCacheEntry.status builderEntry))
      true in
  let '(d1, err1) :=
    Database.SetBlockBuilderStatus (Stores.db s) pubkey newStatus (DemoteEnv.setStatusFail env) in
  let s := Stores.emit (Stores.withDB s d1) (SetBlockBuilderStatus pubkey newStatus err1) in
  (* Write to demotions table. *)
  let '(d2, err2) :=
    Database.InsertBuilderDemotion (Stores.db s) req simError (DemoteEnv.insertDemotionFail env) in
  Stores.emit (Stores.withDB s d2) (InsertBuilderDemotion err2).

Module OptimisticEnv.
Record t := mk { blockSim : option string; demote : DemoteEnv.t }.
End OptimisticEnv.

(** [processOptimisticBlock] is called on a new goroutine when an optimistic
    block needs to be simulated.  (The in-flight counter and the wait group
    only order goroutines; they are left to the event machine below.  The
    request of a spawned goroutine always has its message: the handler
    checked it.) *)
Definition processOptimisticBlock (api : RelayAPI.t) (opts : blockSimOptions.t)
    (env : OptimisticEnv.t) (s : Stores.t) : Stores.t :=
  let req := BuilderBlockValidationRequest.BuilderSubmitBlockRequest (blockSimOptions.req opts) in
  match BuilderSubmitBlockRequest.Message req with
  | None => s
  | Some m =>
      let builderPubkey := BidTrace.BuilderPubkey m in
      match simulateBlock opts (OptimisticEnv.blockSim env) s with
      | (s, Some simErr) =>
          (* Demote the builder. *)
          demoteBuilder api builderPubkey req simErr (OptimisticEnv.demote env) s
      | (s, None) => s
      end
  end.

(** ** The slot clock *)

Definition processNewSlot (api : RelayAPI.t) (headSlot : Z) : RelayAPI.t * list Goroutine :=
  let _apiHeadSlot := RelayAPI.headSlot api in
  if headSlot <=? _apiHeadSlot then (api, [])
  else
    (* store the head slot *)
    let api := RelayAPI.withHeadSlot api headSlot in
    (* only for builder-api *)
    if RelayAPI.optsBlockBuilderAPI api
    then (api, [GoUpdatedExpectedRandao headSlot; GoUpdateProposerDuties headSlot;
                GoUpdateOptimisticSlot headSlot])
    else (api, []).

(** [types.U256Str.UnmarshalText] on the collateral column: a decimal
    numeral below 2^256, [None] for a parse error. *)
Definition U256Str_UnmarshalText (s : string) : option Z := Strconv.ParseUint s 256.

Definition cacheEntryOf (v : Database.BlockBuilderEntry.t) : blockBuilderCacheEntry.t :=
  let builderCollateral :=
    match U256Str_UnmarshalText (Database.BlockBuilderEntry.CollateralValue v) with
    | Some c => c
    | None => ZeroU256
    end in
  blockBuilderCacheEntry.mk
    (BuilderStatus.mk (Database.BlockBuilderEntry.IsHighPrio v)
       (Database.BlockBuilderEntry.IsBlacklisted v)
       (Database.BlockBuilderEntry.IsDemoted v))
    builderCollateral.

(** [updateOptimisticSlot], after its wait on the optimistic-blocks wait
    group has returned. *)
Definition updateOptimisticSlot (api : RelayAPI.t) (headSlot : Z) (d : Database.t)
    (getBuildersFail : option string) : RelayAPI.t :=
  let api := RelayAPI.withOptimisticSlot api (u64 (headSlot + 1)) in
  match Database.GetBlockBuilders d getBuildersFail with
  | (_, Some _) => api
  | (builders, None) =>
      RelayAPI.withBlockBuildersCache api
        (foldl (fun cache v =>
                  <[Database.BlockBuilderEntry.BuilderPubkey v := cacheEntryOf v]> cache)
           (RelayAPI.blockBuildersCache api) builders)
  end.

(** ** handleSubmitNewBlock *)

(** The request body as the handler sees it through the gzip reader and the
    JSON decoders. *)
Inductive SubmitBody :=
| GzipError (err : string)
| TokenError (err : string)
| DecodeError (err : string)
| Decoded (payload : BuilderSubmitBlockRequest.t).

(** Answers of the calls the handler makes outside the process. *)
Module SubmitEnv.
Record t := mk {
  receivedAt : Z;                        (* time.Now() on entry, in milliseconds *)
  getStatsFail : option string;
  sanityCheck : option string;           (* SanityCheckBuilderBlockSubmission *)
  verifySignature : bool * option string;
  blockSim : option string;              (* blockSimRateLimiter.send *)
  getLatestReceivedAtFail : option string;
  signBuilderBid : string + string;      (* signing error, or the relay's signature *)
  saveBidTraceFail : option string;
  saveExecutionPayloadFail : option string;
  saveLatestBuilderBidFail : option string;
  updateTopBidFail : option string;
  eligibleTime : Z;                      (* time.Now() after the cache writes *)
  saveSubmissionFail : option string;
  upsertBuilderFail : option string
}.

Definition withBlockSim (e : t) (sim : option string) : t :=
  mk (receivedAt e) (getStatsFail e) (sanityCheck e) (verifySignature e) sim
     (getLatestReceivedAtFail e) (signBuilderBid e) (saveBidTraceFail e)
     (saveExecutionPayloadFail e) (saveLatestBuilderBidFail e) (updateTopBidFail e)
     (eligibleTime e) (saveSubmissionFail e) (upsertBuilderFail e).
End SubmitEnv.

(** The stores together with the local variables that the deferred audit
    write of the handler captures. *)
Module Frame.
Record t := mk {
  stores : Stores.t;
  simErr : option string;
  optimisticSubmission : bool;
  eligibleAt : option Z
}.

Definition init (s : Stores.t) : t := mk s None false None.
Definition withStores (f : t) (s : Stores.t) : t :=
  mk s (simErr f) (optimisticSubmission f) (eligibleAt f).
Definition withSimErr (f : t) (e : option string) : t :=
  mk (stores f) e (optimisticSubmission f) (eligibleAt f).
Definition withOptimisticSubmission (f : t) (b : bool) : t :=
  mk (stores f) (simErr f) b (eligibleAt f).
Definition withEligibleAt (f : t) (e : option Z) : t :=
  mk (stores f) (simErr f) (optimisticSubmission f) e.
Definition emit (e : Effect) (f : t) : t := withStores f (Stores.emit (stores f) e).
Definition redis (f : t) : Redis.t := Stores.redis (stores f).
Definition db (f : t) : Database.t := Stores.db (stores f).
End Frame.

(** What the checks hand on to the simulation and the cache writes. *)
Module Submission.
Record t := mk {
  payload : BuilderSubmitBlockRequest.t;
  message : BidTrace.t;
  executionPayload : ExecutionPayload.t;
  builderEntry : blockBuilderCacheEntry.t;
  slotDuty : RegisterValidatorRequestMessage.t
}.
End Submission.

Definition lengthZ {A} (l : list A) : Z := Z.of_nat (length l).

(** Lines 1098-1164: read and decode the request. *)
Definition decodeSubmission (body : SubmitBody)
  : @Handler Frame.t (BuilderSubmitBlockRequest.t * BidTrace.t * ExecutionPayload.t) :=
  match body with
  | GzipError err => respond (RespondError StatusBadRequest err)
  | TokenError err => respond (RespondError StatusBadRequest err)
  | DecodeError err => respond (RespondError StatusBadRequest err)
  | Decoded payload =>
      match BuilderSubmitBlockRequest.Message payload,
            BuilderSubmitBlockRequest.ExecutionPayload payload with
      | Some message, Some executionPayload => ret (payload, message, executionPayload)
      | _, _ => respond (RespondError StatusBadRequest "missing parts of the payload")
      end
  end.

(** Lines 1176-1189: reject new submissions once the payload for this slot
    was delivered. *)
Definition rejectDeliveredSlot (message : BidTrace.t) (env : SubmitEnv.t)
  : @Handler Frame.t unit :=
  do f <- get ;
  let '(slotStr, err) :=
    Redis.GetStats (Frame.redis f) Redis.RedisStatsFieldSlotLastPayloadDelivered
      (SubmitEnv.getStatsFail env) in
  match err with
  | Some (Redis.Transport _) =>
      (* failed to get delivered payload slot from redis *)
      ret tt
  | _ =>
      match Strconv.ParseUint slotStr 64 with
      | None =>
          (* failed to parse delivered payload slot from redis *)
          ret tt
      | Some slotLastPayloadDelivered =>
          if BidTrace.Slot message <=? slotLastPayloadDelivered
          then respond (RespondError StatusBadRequest
                          "payload for this slot was already delivered")
          else ret tt
      end
  end.

Definition lookupBuilderEntry (api : RelayAPI.t) (builderPubkey : string)
  : blockBuilderCacheEntry.t :=
  match RelayAPI.blockBuildersCache api !! builderPubkey with
  | Some e => e
  | None =>
      (* using low-prio and no collateral *)
      blockBuilderCacheEntry.mk (BuilderStatus.mk false false false) ZeroU256
  end.

(** Lines 1191-1290: builder lookup, timestamp, first randao check, duty,
    status gates, past slot, empty block, sanity check. *)
Definition checkSubmission (api : RelayAPI.t) (payload : BuilderSubmitBlockRequest.t)
    (message : BidTrace.t) (executionPayload : ExecutionPayload.t) (env : SubmitEnv.t)
  : @Handler Frame.t Submission.t :=
  let builderPubkey := BidTrace.BuilderPubkey message in
  let builderEntry := lookupBuilderEntry api builderPubkey in
  (* Timestamp check *)
  let expectedTimestamp :=
    u64 (RelayAPI.genesisTime api + u64 (BidTrace.Slot message * 12)) in
  if negb (ExecutionPayload.Timestamp executionPayload =? expectedTimestamp)
  then respond (RespondError StatusBadRequest
                  ("incorrect timestamp. got "
                   +:+ Strconv.FormatUint (ExecutionPayload.Timestamp executionPayload)
                   +:+ ", expected " +:+ Strconv.FormatUint expectedTimestamp))
  else
  (* randao check 1: query the randao if the payload has a newer slot *)
  do _ <- (if randaoHelper.slot (RelayAPI.expectedPrevRandao api) <? BidTrace.Slot message
           then modify (Frame.emit (Go (GoUpdatedExpectedRandao (u64 (BidTrace.Slot message - 1)))))
           else ret tt) ;
  (* ensure correct feeRecipient is used *)
  match RelayAPI.proposerDutiesMap api !! BidTrace.Slot message with
  | None => respond (RespondError StatusBadRequest "could not find slot duty")
  | Some slotDuty =>
      if negb (String.eqb (RegisterValidatorRequestMessage.FeeRecipient slotDuty)
                 (BidTrace.ProposerFeeRecipient message))
      then respond (RespondError StatusBadRequest "fee recipient does not match")
      else
      if BuilderStatus.IsBlacklisted (blockBuilderCacheEntry.status builderEntry)
      then (do _ <- modify (Frame.emit (Sleep 200)) ; respond (WriteHeader StatusOK))
      else
      (* In case only high-prio requests are accepted, fail others *)
      if RelayAPI.ffDisableLowPrioBuilders api
         && negb (BuilderStatus.IsHighPrio (blockBuilderCacheEntry.status builderEntry))
      then (do _ <- modify (Frame.emit (Sleep 200)) ; respond (WriteHeader StatusOK))
      else
      if BidTrace.Slot message <=? RelayAPI.headSlot api
      then respond (RespondError StatusBadRequest "submission for past slot")
      else
      (* Don't accept blocks with 0 value *)
      if (Cmp (BidTrace.Value message) ZeroU256 =? 0)
         || (lengthZ (ExecutionPayload.Transactions executionPayload) =? 0)
      then respond (WriteHeader StatusOK)
      else
      (* Sanity check the submission *)
      match SubmitEnv.sanityCheck env with
      | Some err => respond (RespondError StatusBadRequest err)
      | None => ret (Submission.mk payload message executionPayload builderEntry slotDuty)
      end
  end.

(** Lines 1296-1309: get the latest randao and check again. *)
Definition confirmRandao (api : RelayAPI.t) (sub : Submission.t) : @Handler Frame.t unit :=
  let expectedRandao := RelayAPI.expectedPrevRandao api in
  let random := ExecutionPayload.Random (Submission.executionPayload sub) in
  if negb (randaoHelper.slot expectedRandao =? BidTrace.Slot (Submission.message sub))
  then (* we still don't have the prevrandao yet *)
    respond (RespondError StatusInternalServerError "prev_randao is not known yet")
  else if negb (String.eqb (randaoHelper.prevRandao expectedRandao) random)
  then respond (RespondError StatusBadRequest
                  ("incorrect prev_randao - got: " +:+ random +:+ ", expected: "
                   +:+ randaoHelper.prevRandao expectedRandao))
  else ret tt.

(** Lines 1311-1317: verify the builder's signature. *)
Definition verifyBuilderSignature (env : SubmitEnv.t) : @Handler Frame.t unit :=
  let '(ok, err) := SubmitEnv.verifySignature env in
  if negb ok || bool_decide (err <> None)
  then respond (RespondError StatusBadRequest "invalid signature")
  else ret tt.

(** Lines 1327-1339: at the end of the function, save the builder
    submission to the database. *)
Definition saveSubmission (sub : Submission.t) (env : SubmitEnv.t) (f : Frame.t) : Frame.t :=
  let '(d, res) :=
    Database.SaveBuilderBlockSubmission (Frame.db f) (Submission.payload sub)
      (Frame.simErr f) (SubmitEnv.receivedAt env) (Frame.eligibleAt f)
      (Frame.optimisticSubmission f) (SubmitEnv.saveSubmissionFail env) in
  match res with
  | inl err =>
      Frame.emit (SaveBuilderBlockSubmission (Frame.optimisticSubmission f) (Some err))
        (Frame.withStores f (Stores.withDB (Frame.stores f) d))
  | inr submissionEntry =>
      let f := Frame.emit (SaveBuilderBlockSubmission (Frame.optimisticSubmission f) None)
                 (Frame.withStores f (Stores.withDB (Frame.stores f) d)) in
      let isError := bool_decide (Frame.simErr f <> None) in
      let '(d, err) :=
        Database.UpsertBlockBuilderEntryAfterSubmission (Frame.db f) submissionEntry isError
          (SubmitEnv.upsertBuilderFail env) in
      Frame.emit (UpsertBlockBuilderEntryAfterSubmission isError err)
        (Frame.withStores f (Stores.withDB (Frame.stores f) d))
  end.

Definition simulationRequest (sub : Submission.t) : blockSimOptions.t :=
  blockSimOptions.mk
    (BuilderStatus.IsHighPrio (blockBuilderCacheEntry.status (Submission.builderEntry sub)))
    (BuilderBlockValidationRequest.mk (Submission.payload sub)
       (RegisterValidatorRequestMessage.GasLimit (Submission.slotDuty sub))).

(** The condition of line 1353-1355. *)
Definition sufficientCollateral (api : RelayAPI.t) (sub : Submission.t) : bool :=
  (0 <? Cmp (blockBuilderCacheEntry.collateral (Submission.builderEntry sub))
          (BidTrace.Value (Submission.message sub)))
  && negb (BuilderStatus.IsDemoted (blockBuilderCacheEntry.status (Submission.builderEntry sub)))
  && (BidTrace.Slot (Submission.message sub) =? RelayAPI.optimisticSlot api).

(** Lines 1341-1365: with sufficient collateral, process the block
    optimistically; otherwise simulate it before going on. *)
Definition simulateSubmission (api : RelayAPI.t) (sub : Submission.t) (env : SubmitEnv.t)
  : @Handler Frame.t unit :=
  let opts := simulationRequest sub in
  if sufficientCollateral api sub
  then
    do _ <- modify (fun f => Frame.withOptimisticSubmission f true) ;
    modify (Frame.emit (Go (GoProcessOptimisticBlock opts)))
  else
    (* Simulate block (synchronously). *)
    do f <- get ;
    let '(s, simErr) := simulateBlock opts (SubmitEnv.blockSim env) (Frame.stores f) in
    do _ <- modify (fun f => Frame.withSimErr (Frame.withStores f s) simErr) ;
    match simErr with
    | Some err => respond (RespondError StatusBadRequest err)
    | None => ret tt
    end.

(** Lines 1371-1379: ensure this request is still the latest one. *)
Definition ensureLatest (sub : Submission.t) (env : SubmitEnv.t) : @Handler Frame.t unit :=
  let message := Submission.message sub in
  do f <- get ;
  let '(latestPayloadReceivedAt, err) :=
    Redis.GetBuilderLatestPayloadReceivedAt (Frame.redis f) (BidTrace.Slot message)
      (BidTrace.BuilderPubkey message) (BidTrace.ParentHash message)
      (BidTrace.ProposerPubkey message) (SubmitEnv.getLatestReceivedAtFail env) in
  match err with
  | Some _ => ret tt
  | None =>
      if SubmitEnv.receivedAt env <? latestPayloadReceivedAt
      then respond (RespondError StatusBadRequest "already using a newer payload")
      else ret tt
  end.

(** Modelled from the spec: [BuilderSubmitBlockRequestToSignedBuilderBid] of
    the service's utilities is not among the sources; the bid is the relay's
    signature over the header derived from the execution payload, the value
    and the relay's public key. *)
Definition BuilderSubmitBlockRequestToSignedBuilderBid (api : RelayAPI.t)
    (sub : Submission.t) (signature : string + string) : string + SignedBuilderBid.t :=
  match signature with
  | inl err => inl err
  | inr sig =>
      inr (SignedBuilderBid.mk
             (Some (BuilderBid.mk (BidTrace.Value (Submission.message sub))
                      (ExecutionPayload.BlockHash (Submission.executionPayload sub))
                      (RelayAPI.publicKey api)))
             sig)
  end.

(** Lines 1381-1403: prepare the response data. *)
Definition prepareResponses (api : RelayAPI.t) (sub : Submission.t) (env : SubmitEnv.t)
  : @Handler Frame.t (GetHeaderResponse.t * GetPayloadResponse.t * BidTraceV2.t) :=
  match BuilderSubmitBlockRequestToSignedBuilderBid api sub (SubmitEnv.signBuilderBid env) with
  | inl err => respond (RespondError StatusBadRequest err)
  | inr signedBuilderBid =>
      let executionPayload := Submission.executionPayload sub in
      ret (GetHeaderResponse.mk VersionBellatrix (Some signedBuilderBid),
           GetPayloadResponse.mk VersionBellatrix (Some executionPayload),
           BidTraceV2.mk (Submission.message sub)
             (ExecutionPayload.BlockNumber executionPayload)
             (u64 (lengthZ (ExecutionPayload.Transactions executionPayload))))
  end.

(** One cache write of the handler: the call, its trace entry, and the
    early return with status 500 when it fails. *)
Definition redisWrite (op : Redis.t -> Redis.t * option string)
    (event : option string -> Effect) : @Handler Frame.t unit :=
  do f <- get ;
  let '(r, err) := op (Frame.redis f) in
  do _ <- modify (fun f => Frame.emit (event err)
                             (Frame.withStores f (Stores.withRedis (Frame.stores f) r))) ;
  match err with
  | Some e => respond (RespondError StatusInternalServerError e)
  | None => ret tt
  end.

(** Lines 1405-1438: save to Redis. *)
Definition saveToRedis (sub : Submission.t) (env : SubmitEnv.t)
    (getHeaderResponse : GetHeaderResponse.t) (getPayloadResponse : GetPayloadResponse.t)
    (bidTrace : BidTraceV2.t) : @Handler Frame.t unit :=
  let message := Submission.message sub in
  (* first the trace *)
  do _ <- redisWrite (fun r => Redis.SaveBidTrace r bidTrace (SubmitEnv.saveBidTraceFail env))
            SaveBidTrace ;
  (* save execution payload (getPayload response) *)
  do _ <- redisWrite (fun r => Redis.SaveExecutionPayload r (BidTrace.Slot message)
                                 (BidTrace.ProposerPubkey message) (BidTrace.BlockHash message)
                                 getPayloadResponse (SubmitEnv.saveExecutionPayloadFail env))
            SaveExecutionPayload ;
  (* save this builder's latest bid *)
  do _ <- redisWrite (fun r => Redis.SaveLatestBuilderBid r (BidTrace.Slot message)
                                 (BidTrace.BuilderPubkey message) (BidTrace.ParentHash message)
                                 (BidTrace.ProposerPubkey message) (SubmitEnv.receivedAt env)
                                 getHeaderResponse (SubmitEnv.saveLatestBuilderBidFail env))
            SaveLatestBuilderBid ;
  (* recalculate top bid *)
  redisWrite (fun r => Redis.UpdateTopBid r (BidTrace.Slot message)
                         (BidTrace.ParentHash message) (BidTrace.ProposerPubkey message)
                         (SubmitEnv.updateTopBidFail env))
    UpdateTopBid.

(** Lines 1367-1456: the staleness check, the response data, the cache
    writes and the answer. *)
Definition storeSubmission (api : RelayAPI.t) (sub : Submission.t) (env : SubmitEnv.t)
  : @Handler Frame.t unit :=
  do _ <- ensureLatest sub env ;
  do '(getHeaderResponse, getPayloadResponse, bidTrace) <- prepareResponses api sub env ;
  do _ <- saveToRedis sub env getHeaderResponse getPayloadResponse bidTrace ;
  (* this bid is now eligible to win the auction *)
  do _ <- modify (fun f => Frame.withEligibleAt f (Some (SubmitEnv.eligibleTime env))) ;
  respond (WriteHeader StatusOK).

(** Lines 1319-1456: everything after the signature check, under the
    deferred audit write. *)
Definition processSubmission (api : RelayAPI.t) (sub : Submission.t) (env : SubmitEnv.t)
  : @Handler Frame.t unit :=
  withDefer (saveSubmission sub env)
    (do _ <- simulateSubmission api sub env ;
     storeSubmission api sub env).

(** The checks in front of the final randao check. *)
Definition checksBeforeRandao (api : RelayAPI.t) (body : SubmitBody) (env : SubmitEnv.t)
  : @Handler Frame.t Submission.t :=
  do '(payload, message, executionPayload) <- decodeSubmission body ;
  do _ <- rejectDeliveredSlot message env ;
  checkSubmission api payload message executionPayload env.

(** The checks in front of the simulation. *)
Definition checksBeforeSimulation (api : RelayAPI.t) (body : SubmitBody) (env : SubmitEnv.t)
  : @Handler Frame.t Submission.t :=
  do sub <- checksBeforeRandao api body env ;
  do _ <- confirmRandao api sub ;
  do _ <- verifyBuilderSignature env ;
  ret sub.

Definition submitNewBlock (api : RelayAPI.t) (body : SubmitBody) (env : SubmitEnv.t)
  : @Handler Frame.t unit :=
  do sub <- checksBeforeSimulation api body env ;
  processSubmission api sub env.

(** What the client gets: the response the body wrote before it returned;
    a body that ends without a write is answered with status 200. *)
Definition answer (x : Frame.t * Outcome unit) : Frame.t * HTTPWrite :=
  match x with
  | (f, Return w) => (f, w)
  | (f, Continue _) => (f, WriteHeader StatusOK)
  end.

(** The handler from the stores it finds to the frame it leaves (stores,
    trace of its own calls, final local variables) and the response it
    wrote. *)
Definition handleSubmitNewBlock (api : RelayAPI.t) (body : SubmitBody) (env : SubmitEnv.t)
    (r : Redis.t) (d : Database.t) : Frame.t * HTTPWrite :=
  answer (submitNewBlock api body env (Frame.init (Stores.mk r d []))).

(** ** handleGetHeader *)

Section GetHeader.

(** The texts of [common.ErrInvalidSlot], [common.ErrInvalidPubkey] and
    [common.ErrInvalidHash]; their declarations are not among the
    sources. *)
Variables ErrInvalidSlot ErrInvalidPubkey ErrInvalidHash : string.

Definition handleGetHeader (api : RelayAPI.t) (slotStr parentHashHex proposerPubkeyHex : string)
    (r : Redis.t) (getBestBidFail : option string) : HTTPWrite :=
  match Strconv.ParseUint slotStr 64 with
  | None => RespondError StatusBadRequest ErrInvalidSlot
  | Some slot =>
      if negb (Z.of_nat (String.length proposerPubkeyHex) =? 98)
      then RespondError StatusBadRequest ErrInvalidPubkey
      else if negb (Z.of_nat (String.length parentHashHex) =? 66)
      then RespondError StatusBadRequest ErrInvalidHash
      else if slot <? RelayAPI.headSlot api
      then RespondError StatusBadRequest "slot is too old"
      else if RelayAPI.ffForceGetHeader204 api
      then WriteHeader StatusNoContent
      else
        match Redis.GetBestBid r slot parentHashHex proposerPubkeyHex getBestBidFail with
        | (_, Some err) => RespondError StatusBadRequest err
        | (None, None) => WriteHeader StatusNoContent
        | (Some bid, None) =>
            match GetHeaderResponse.Data bid with
            | None => WriteHeader StatusNoContent
            | Some data =>
                match SignedBuilderBid.Message data with
                | None => WriteHeader StatusNoContent
                | Some message =>
                    (* Error on bid without value *)
                    if Cmp (BuilderBid.Value message) ZeroU256 =? 0
                    then WriteHeader StatusNoContent
                    else RespondOK (BodyGetHeader bid)
                end
            end
        end
  end.

End GetHeader.

(** ** handleGetPayload *)

Module GetPayloadEnv.
Record t := mk {
  hexToPubkey : option string;             (* types.HexToPubkey *)
  verifySignature : bool * option string;
  getPayloadFail1 : option string;
  getPayloadFail2 : option string
}.
End GetPayloadEnv.

(** Modelled from the spec: [datastore.GetGetPayloadResponse] looks the
    payload up by (slot, proposer, block hash) in the bid store. *)
Definition GetGetPayloadResponse (r : Redis.t) (slot : Z) (proposerPubkey blockHash : string)
    (fail : option string) : option GetPayloadResponse.t * option string :=
  Redis.GetExecutionPayload r slot proposerPubkey blockHash fail.

(** The request body as the JSON decoder leaves it: the decoder's error; a
    block whose message, body or execution-payload header is nil, which the
    decoder accepts (an empty JSON object is one); or a block with all its
    parts. *)
Inductive GetPayloadBody :=
| GetPayloadDecodeError (err : string)
| GetPayloadNilParts
| GetPayloadDecoded (payload : SignedBlindedBeaconBlock.t).

(** How a run of the handler ends: the response it wrote, if any; the calls
    it made, goroutines included; and whether it ended in a panic, on a nil
    pointer. *)
Module GetPayloadResult.
Record t := mk { written : option HTTPWrite; effects : list Effect; panicked : bool }.
End GetPayloadResult.

(** [handleGetPayload]; the two closures it starts are returned as
    goroutines. *)
Definition handleGetPayload (api : RelayAPI.t) (body : GetPayloadBody)
    (env : GetPayloadEnv.t) (r : Redis.t) : GetPayloadResult.t :=
  let answered w effects := GetPayloadResult.mk (Some w) effects false in
  match body with
  | GetPayloadDecodeError err => answered (RespondError StatusBadRequest err) []
  | GetPayloadNilParts =>
      (* payload.Message.Slot, payload.Message.Body.ExecutionPayloadHeader.BlockHash *)
      GetPayloadResult.mk None [] true
  | GetPayloadDecoded payload =>
      let slot := SignedBlindedBeaconBlock.Slot payload in
      let blockHash := SignedBlindedBeaconBlock.HeaderBlockHash payload in
      match RelayAPI.knownValidatorsByIndex api !! SignedBlindedBeaconBlock.ProposerIndex payload with
      | None =>
          answered (RespondError StatusBadRequest "could not match proposer index to pubkey") []
      | Some proposerPubkey =>
          match GetPayloadEnv.hexToPubkey env with
          | Some _ =>
              answered
                (RespondError StatusBadRequest "could not convert pubkey to types.PublicKey") []
          | None =>
              let '(ok, err) := GetPayloadEnv.verifySignature env in
              if negb ok || bool_decide (err <> None)
              then answered (RespondError StatusBadRequest "could not verify payload signature") []
              else
                let deliver before resp :=
                  match GetPayloadResponse.Data resp with
                  | None =>
                      (* the response is written; len(getPayloadResp.Data.Transactions) *)
                      GetPayloadResult.mk (Some (RespondOK (BodyGetPayload resp))) before true
                  | Some _ =>
                      answered (RespondOK (BodyGetPayload resp))
                        (before ++ [Go (GoSaveDeliveredPayload payload proposerPubkey resp);
                                    Go (GoPublishBlock payload resp)])
                  end in
                match GetGetPayloadResponse r slot proposerPubkey blockHash
                        (GetPayloadEnv.getPayloadFail1 env) with
                | (Some resp, None) => deliver [] resp
                | _ =>
                    (* Try again *)
                    match GetGetPayloadResponse r slot proposerPubkey blockHash
                            (GetPayloadEnv.getPayloadFail2 env) with
                    | (_, Some err) =>
                        answered (RespondError StatusBadRequest err) [Sleep 100]
                    | (None, None) =>
                        answered
                          (RespondError StatusBadRequest "no execution payload for this request")
                          [Sleep 100]
                    | (Some resp, None) => deliver [Sleep 100] resp
                    end
                end
          end
      end
  end.

Module DeliveredEnv.
Record t := mk {
  setStatsFail : option string;
  getBidTraceFail : option string;
  saveDeliveredPayloadFail : option string;
  incStatsFail : option string;
  getDemotionFail : option string;
  getRegistrationFail : option string;
  updateDemotionFail : option string
}.
End DeliveredEnv.

(** Lines 947-1024: save information about the delivered payload.  The
    second component is [true] when the closure stops on the nil bid trace
    that a failed or empty [GetBidTrace] leaves behind. *)
Definition saveDeliveredPayload (payload : SignedBlindedBeaconBlock.t) (proposerPubkey : string)
    (resp : GetPayloadResponse.t) (env : DeliveredEnv.t) (s : Stores.t) : Stores.t * bool :=
  let slot := SignedBlindedBeaconBlock.Slot payload in
  let blockHash := SignedBlindedBeaconBlock.HeaderBlockHash payload in
  let '(r, err) :=
    Redis.SetStats (Stores.redis s) Redis.RedisStatsFieldSlotLastPayloadDelivered slot
      (DeliveredEnv.setStatsFail env) in
  let s := Stores.emit (Stores.withRedis s r) (SetStats err) in
  let '(bidTrace, _) :=
    Redis.GetBidTrace (Stores.redis s) slot proposerPubkey blockHash
      (DeliveredEnv.getBidTraceFail env) in
  let '(d, err) :=
    Database.SaveDeliveredPayload (Stores.db s) bidTrace payload
      (DeliveredEnv.saveDeliveredPayloadFail env) in
  let s := Stores.emit (Stores.withDB s d) (SaveDeliveredPayload err) in
  match bidTrace with
  | None => (s, true)
  | Some bidTrace =>
      let trace := BidTraceV2.BidTrace bidTrace in
      (* Increment builder stats *)
      let '(d, err) :=
        Database.IncBlockBuilderStatsAfterGetPayload (Stores.db s)
          (BidTrace.BuilderPubkey trace) (DeliveredEnv.incStatsFail env) in
      let s := Stores.emit (Stores.withDB s d) (IncBlockBuilderStatsAfterGetPayload err) in
      (* Check if there is a demotion for the winning block. *)
      match Database.GetBuilderDemotion (Stores.db s) trace (DeliveredEnv.getDemotionFail env) with
      | (_, Some _) => (s, false)
      | (_, None) =>
          (* Demotion found, update the demotion table with refund data. *)
          let signedBeaconBlock := (payload, GetPayloadResponse.Data resp) in
          let '(signedRegistration, _) :=
            Database.GetValidatorRegistration (Stores.db s) proposerPubkey
              (DeliveredEnv.getRegistrationFail env) in
          let '(d, err) :=
            Database.UpdateBuilderDemotion (Stores.db s) trace signedBeaconBlock
              signedRegistration (DeliveredEnv.updateDemotionFail env) in
          (Stores.emit (Stores.withDB s d) (UpdateBuilderDemotion err), false)
      end
  end.

(** ** handleRegisterValidator *)

(** One element of the request array as the callback of the array iterator
    sees it: what the two field look-ups and the full decoder answer on its
    bytes, and the answers of the calls made for it. *)
Module Registration.
Record t := mk {
  pubkey : string + string;        (* GetUnsafeString(value, "message", "pubkey") *)
  timestamp : string + string;     (* GetUnsafeString(value, "message", "timestamp") *)
  unmarshal : string + SignedValidatorRegistration.t;   (* json.Unmarshal *)
  getTimestampFail : option string;
  verifySignature : bool * option string
}.
End Registration.

Inductive RegisterBody :=
| EmptyRequest                                   (* req.ContentLength == 0 *)
| ReadError (err : string)                       (* io.ReadAll failed *)
| RegistrationArray (elements : list Registration.t) (traverseErr : option string).

(** The variables the handler's closures share. *)
Module RegisterState.
Record t := mk {
  api : RelayAPI.t;
  written : list HTTPWrite;
  numRegTotal : Z;
  numRegProcessed : Z;
  numRegActive : Z;
  numRegNew : Z;
  processingStoppedByError : bool
}.

Definition init (a : RelayAPI.t) : t := mk a [] 0 0 0 0 false.
End RegisterState.

(** [api.RespondError(w, code, msg)] *)
Definition apiRespondError (code : Z) (msg : string) (st : RegisterState.t) : RegisterState.t :=
  RegisterState.mk (RegisterState.api st) (RegisterState.written st ++ [RespondError code msg])
    (RegisterState.numRegTotal st) (RegisterState.numRegProcessed st)
    (RegisterState.numRegActive st) (RegisterState.numRegNew st)
    (RegisterState.processingStoppedByError st).

(** The closure [respondError] of the handler. *)
Definition respondError (code : Z) (msg : string) (st : RegisterState.t) : RegisterState.t :=
  apiRespondError code msg
    (RegisterState.mk (RegisterState.api st) (RegisterState.written st)
       (RegisterState.numRegTotal st) (RegisterState.numRegProcessed st)
       (RegisterState.numRegActive st) (RegisterState.numRegNew st) true).

(** The closure [parseRegistration].  The text of a strconv error is
    abbreviated to the input it rejects. *)
Definition parseRegistration (value : Registration.t) : string + (string * Z) :=
  match Registration.pubkey value with
  | inl err => inl ("registration message error (pubkey): " +:+ err)
  | inr pubkey =>
      match Registration.timestamp value with
      | inl err => inl ("registration message error (timestamp): " +:+ err)
      | inr timestamp =>
          match Strconv.ParseInt timestamp 64 with
          | None => inl ("invalid timestamp: " +:+ timestamp)
          | Some timestampInt => inr (pubkey, timestampInt)
          end
      end
  end.

(** A send that does not block: [select { case c <- x: default: }] on a
    channel of capacity 450 000. *)
Definition trySend {A} (c : list A) (x : A) : list A :=
  if lengthZ c <? 450000 then c ++ [x] else c.

(** Go's [time.Time], as the handler uses it: the wall clock in seconds since
    January 1 of year 1, an int64, and the nanoseconds within the second. *)
Module Time.
Record t := mk { sec : Z; nsec : Z }.

Definition unixToInternal : Z := 62135596800.

Definition maxInt64 : Z := 2 ^ 63 - 1.

(** The int64 a sum wraps to. *)
Definition int64 (z : Z) : Z := (z + 2 ^ 63) mod 2 ^ 64 - 2 ^ 63.

(** [time.Unix(sec, 0)]: the offset to year 1 is added in int64. *)
Definition Unix (s : Z) : t := mk (int64 (s + unixToInternal)) 0.

(** [t.Add(d)] for a positive duration of [d] whole seconds; the seconds
    saturate at the end of the range. *)
Definition AddSeconds (x : t) (d : Z) : t :=
  mk (if sec x + d <=? maxInt64 then sec x + d else maxInt64) (nsec x).

(** [t.After(u)], on wall-clock readings. *)
Definition After (x u : t) : bool :=
  (sec u <? sec x) || ((sec x =? sec u) && (nsec u <? nsec x)).
End Time.

(** The callback of [jsonparser.ArrayEach]; [start] is the time the handler
    started, [time.Now()]. *)
Definition registerValidator (r : Redis.t) (start : Time.t) (st : RegisterState.t)
    (value : Registration.t) : RegisterState.t :=
  let registrationTimeUpperBound := Time.AddSeconds start 10 in
  let st := RegisterState.mk (RegisterState.api st) (RegisterState.written st)
              (RegisterState.numRegTotal st + 1) (RegisterState.numRegProcessed st)
              (RegisterState.numRegActive st) (RegisterState.numRegNew st)
              (RegisterState.processingStoppedByError st) in
  if RegisterState.processingStoppedByError st then st
  else
    let st := RegisterState.mk (RegisterState.api st) (RegisterState.written st)
                (RegisterState.numRegTotal st) (RegisterState.numRegProcessed st + 1)
                (RegisterState.numRegActive st) (RegisterState.numRegNew st)
                (RegisterState.processingStoppedByError st) in
    (* Extract immediately necessary registration fields *)
    match parseRegistration value with
    | inl err => respondError StatusBadRequest err st
    | inr (pkHex, timestampInt) =>
        (* Ensure registration is not too far in the future *)
        let registrationTime := Time.Unix timestampInt in
        if Time.After registrationTime registrationTimeUpperBound
        then respondError StatusBadRequest "timestamp too far in the future" st
        else
        (* Check if a real validator *)
        if negb (bool_decide (pkHex ∈ RelayAPI.knownValidators (RegisterState.api st)))
        then respondError StatusBadRequest ("not a known validator: " +:+ pkHex) st
        else
        (* Track active validators here *)
        let api := RegisterState.api st in
        let st := RegisterState.mk
                    (RelayAPI.withChannels api (trySend (RelayAPI.activeValidatorC api) pkHex)
                       (RelayAPI.validatorRegC api))
                    (RegisterState.written st) (RegisterState.numRegTotal st)
                    (RegisterState.numRegProcessed st) (RegisterState.numRegActive st + 1)
                    (RegisterState.numRegNew st) (RegisterState.processingStoppedByError st) in
        (* Check for a previous registration timestamp *)
        let '(prevTimestamp, err) :=
          Redis.GetValidatorRegistrationTimestamp r pkHex (Registration.getTimestampFail value) in
        if match err with
           | Some _ => false    (* error getting last registration timestamp *)
           | None => u64 timestampInt <=? prevTimestamp
           end
        then (* abort if the registration timestamp is older or equal to the last known one *)
          st
        else
        (* Now we have a new registration to process *)
        let st := RegisterState.mk (RegisterState.api st) (RegisterState.written st)
                    (RegisterState.numRegTotal st) (RegisterState.numRegProcessed st)
                    (RegisterState.numRegActive st) (RegisterState.numRegNew st + 1)
                    (RegisterState.processingStoppedByError st) in
        (* JSON-decode the registration now (needed for signature verification) *)
        match Registration.unmarshal value with
        | inl err =>
            respondError StatusBadRequest
              ("error unmarshalling signed validator registration: " +:+ err) st
        | inr signedValidatorRegistration =>
            (* Verify the signature *)
            match Registration.verifySignature value with
            | (_, Some err) =>
                respondError StatusBadRequest
                  ("error verifying registerValidator signature: " +:+ err) st
            | (false, None) =>
                apiRespondError StatusBadRequest
                  ("failed to verify validator signature for "
                   +:+ RegisterValidatorRequestMessage.Pubkey
                         (SignedValidatorRegistration.Message signedValidatorRegistration)) st
            | (true, None) =>
                (* Save to database *)
                let api := RegisterState.api st in
                RegisterState.mk
                  (RelayAPI.withChannels api (RelayAPI.activeValidatorC api)
                     (trySend (RelayAPI.validatorRegC api) signedValidatorRegistration))
                  (RegisterState.written st) (RegisterState.numRegTotal st)
                  (RegisterState.numRegProcessed st) (RegisterState.numRegActive st)
                  (RegisterState.numRegNew st) (RegisterState.processingStoppedByError st)
            end
        end
    end.

Definition handleRegisterValidator (api : RelayAPI.t) (body : RegisterBody) (r : Redis.t)
    (start : Time.t) : RegisterState.t :=
  let st := RegisterState.init api in
  match body with
  | EmptyRequest => respondError StatusBadRequest "empty request" st
  | ReadError _ => apiRespondError StatusBadRequest "failed to read request body" st
  | RegistrationArray elements traverseErr =>
      (* Iterate over the registrations *)
      let st := foldl (registerValidator r start) st elements in
      match traverseErr with
      | Some _ => respondError StatusBadRequest "error in traversing json" st
      | None =>
          RegisterState.mk (RegisterState.api st)
            (RegisterState.written st ++ [WriteHeader StatusOK])
            (RegisterState.numRegTotal st) (RegisterState.numRegProcessed st)
            (RegisterState.numRegActive st) (RegisterState.numRegNew st)
            (RegisterState.processingStoppedByError st)
      end
  end.

(** ** The remaining writers of the in-memory state *)

(** [updatedExpectedRandao] updates the prev_randao field expected from
    builder block submissions.  It has two critical sections, with the query
    to the beacon node between them; other goroutines may run in between.

    Lines 1044-1052, the first critical section: [false] when the slot is
    already known or currently being updated. *)
Definition updatedExpectedRandaoGuard (api : RelayAPI.t) (slot : Z) : RelayAPI.t * bool :=
  let latestKnownSlot := randaoHelper.slot (RelayAPI.expectedPrevRandao api) in
  if (slot <? latestKnownSlot) || (slot <=? RelayAPI.expectedPrevRandaoUpdating api)
  then (api, false)
  else (RelayAPI.withRandao api (RelayAPI.expectedPrevRandao api) slot, true).

(** Lines 1054-1078, on the state the function finds when the beacon node
    has answered; [randao] is the answer for [slot]. *)
Definition updatedExpectedRandaoAnswer (api : RelayAPI.t) (slot : Z)
    (randao : string + string) : RelayAPI.t :=
  match randao with
  | inl _ => RelayAPI.withRandao api (RelayAPI.expectedPrevRandao api) 0
  | inr value =>
      (* after request, check if still the latest, then update *)
      let targetSlot := u64 (slot + 1) in
      if randaoHelper.slot (RelayAPI.expectedPrevRandao api) <=? targetSlot
      then RelayAPI.withRandao api (randaoHelper.mk targetSlot value)
             (RelayAPI.expectedPrevRandaoUpdating api)
      else api
  end.

(** The function run without another goroutine between its two critical
    sections. *)
Definition updatedExpectedRandao (api : RelayAPI.t) (slot : Z) (randao : string + string)
  : RelayAPI.t :=
  let '(api, proceed) := updatedExpectedRandaoGuard api slot in
  if proceed then updatedExpectedRandaoAnswer api slot randao else api.

(** [updateProposerDuties]; [duties] is what [redis.GetProposerDuties]
    answers, as (slot, registration message) pairs. *)
Definition updateProposerDuties (api : RelayAPI.t) (headSlot : Z)
    (duties : string + list (Z * RegisterValidatorRequestMessage.t)) : RelayAPI.t :=
  (* Update once every 8 slots (or more, if a slot was missed) *)
  if negb (headSlot mod 8 =? 0) && (u64 (headSlot - RelayAPI.proposerDutiesSlot api) <? 8)
  then api
  else
    match duties with
    | inl _ => api
    | inr duties =>
        RelayAPI.withProposerDuties api
          (foldl (fun m duty => <[duty.1 := duty.2]> m) ∅ duties) headSlot
    end.

(** [handleInternalBuilderStatus] for POST and PUT: the operator's way to set
    or clear the status bits; it is not part of the submission pipeline. *)
Definition handleInternalBuilderStatus (builderPubkey : string)
    (high_prio blacklisted demoted : string) (fail : option string) (d : Database.t)
  : Database.t * HTTPWrite :=
  let newStatus :=
    BuilderStatus.mk (String.eqb high_prio "true") (String.eqb blacklisted "true")
      (String.eqb demoted "true") in
  match Database.SetBlockBuilderStatus d builderPubkey newStatus fail with
  | (d, Some err) =>
      (d, RespondError StatusInternalServerError
            ("error setting builder: " +:+ builderPubkey +:+ " status: " +:+ err))
  | (d, None) => (d, RespondOK (BodyBuilderStatus newStatus))
  end.

(** ** The relay as a machine

    A state is the in-memory part of one instance with the two stores.  An
    event is one run of a handler of the pipeline or of one of the
    goroutines the pipeline starts, with the answers of its outside calls.
    Events may come in any order: the wait group [optimisticBlocks] only
    rules some orders out.  The randao update is an event as a whole, when
    nothing runs between its two critical sections, and each critical
    section is an event of its own. *)
Module Relay.
Record t := mk { api : RelayAPI.t; redis : Redis.t; db : Database.t }.
End Relay.

Inductive Event :=
| EvSubmitNewBlock (body : SubmitBody) (env : SubmitEnv.t)
| EvProcessOptimisticBlock (opts : blockSimOptions.t) (env : OptimisticEnv.t)
| EvProcessNewSlot (headSlot : Z)
| EvUpdateOptimisticSlot (headSlot : Z) (getBuildersFail : option string)
| EvUpdatedExpectedRandao (slot : Z) (randao : string + string)
| EvUpdateProposerDuties (headSlot : Z)
    (duties : string + list (Z * RegisterValidatorRequestMessage.t))
| EvRegisterValidator (body : RegisterBody) (start : Time.t)
| EvSaveDeliveredPayload (payload : SignedBlindedBeaconBlock.t) (proposerPubkey : string)
    (resp : GetPayloadResponse.t) (env : DeliveredEnv.t)
| EvUpdatedExpectedRandaoGuard (slot : Z)
| EvUpdatedExpectedRandaoAnswer (slot : Z) (randao : string + string).

Definition step (s : Relay.t) (e : Event) : Relay.t :=
  match e with
  | EvSubmitNewBlock body env =>
      let f := (handleSubmitNewBlock (Relay.api s) body env (Relay.redis s) (Relay.db s)).1 in
      Relay.mk (Relay.api s) (Frame.redis f) (Frame.db f)
  | EvProcessOptimisticBlock opts env =>
      let st := processOptimisticBlock (Relay.api s) opts env
                  (Stores.mk (Relay.redis s) (Relay.db s) []) in
      Relay.mk (Relay.api s) (Stores.redis st) (Stores.db st)
  | EvProcessNewSlot headSlot =>
      Relay.mk (processNewSlot (Relay.api s) headSlot).1 (Relay.redis s) (Relay.db s)
  | EvUpdateOptimisticSlot headSlot fail =>
      Relay.mk (updateOptimisticSlot (Relay.api s) headSlot (Relay.db s) fail)
        (Relay.redis s) (Relay.db s)
  | EvUpdatedExpectedRandao slot randao =>
      Relay.mk (updatedExpectedRandao (Relay.api s) slot randao) (Relay.redis s) (Relay.db s)
  | EvUpdateProposerDuties headSlot duties =>
      Relay.mk (updateProposerDuties (Relay.api s) headSlot duties) (Relay.redis s) (Relay.db s)
  | EvRegisterValidator body start =>
      Relay.mk (RegisterState.api (handleRegisterValidator (Relay.api s) body (Relay.redis s) start))
        (Relay.redis s) (Relay.db s)
  | EvSaveDeliveredPayload payload proposerPubkey resp env =>
      let st := (saveDeliveredPayload payload proposerPubkey resp env
                   (Stores.mk (Relay.redis s) (Relay.db s) [])).1 in
      Relay.mk (Relay.api s) (Stores.redis st) (Stores.db st)
  | EvUpdatedExpectedRandaoGuard slot =>
      Relay.mk (updatedExpectedRandaoGuard (Relay.api s) slot).1 (Relay.redis s) (Relay.db s)
  | EvUpdatedExpectedRandaoAnswer slot randao =>
      Relay.mk (updatedExpectedRandaoAnswer (Relay.api s) slot randao)
        (Relay.redis s) (Relay.db s)
  end.

Definition runEvents (s : Relay.t) (evs : list Event) : Relay.t := foldl step s evs.

(** ** A concrete relay, used to exercise the model *)
Module Scenario.

Definition duty : RegisterValidatorRequestMessage.t :=
  RegisterValidatorRequestMessage.mk "0xF" 30000000 1600000000 "0xA".

(** Head at slot 100, duties known for slots 101 and 102, randao known for
    slot 101, one high-prio builder ["0xB"] in the builder cache. *)
Definition api (collateral : Z) (demoted : bool) : RelayAPI.t :=
  RelayAPI.mk "0xrelay" true 100 0 (<[102 := duty]> (<[101 := duty]> ∅)) 96
    {["0xA"%string]} (<[7 := "0xA"%string]> ∅) [] [] false false false
    (randaoHelper.mk 101 "0xrandao") 0 101
    (<["0xB"%string :=
         blockBuilderCacheEntry.mk (BuilderStatus.mk true false demoted) collateral]> ∅).

Definition message (slot value : Z) : BidTrace.t :=
  BidTrace.mk slot "0xaa" "0xbb" "0xB" "0xA" "0xF" 30000000 21000 value.

Definition executionPayload (slot : Z) : ExecutionPayload.t :=
  ExecutionPayload.mk (slot * 12) "0xrandao" 17 "0xbb" ["tx1"; "tx2"]%string.

Definition payload (slot value : Z) : BuilderSubmitBlockRequest.t :=
  BuilderSubmitBlockRequest.mk "0xsig" (Some (message slot value))
    (Some (executionPayload slot)).

(** Every outside call succeeds, except that the simulator answers [sim]
    and the read of the delivered-slot marker fails with [stats]. *)
Definition env (sim stats : option string) : SubmitEnv.t :=
  SubmitEnv.mk 1000 stats None (true, None) sim None (inr "0xrelaysig"%string)
    None None None None 1005 None None.

Definition builderRow (collateral : string) (demoted : bool) : Database.BlockBuilderEntry.t :=
  Database.BlockBuilderEntry.mk "0xB" true false demoted collateral EmptyString 0 0 0 0.

Definition database (collateral : string) (demoted : bool) : Database.t :=
  Database.mk (<["0xB"%string := builderRow collateral demoted]> ∅) ∅ [] [] ∅.

Definition blinded (slot : Z) : SignedBlindedBeaconBlock.t :=
  SignedBlindedBeaconBlock.mk slot 7 "0xbb" 17 "0xproposersig".

Definition delivered : DeliveredEnv.t :=
  DeliveredEnv.mk None None None None None None None.


(** The relay after builder ["0xB"] had a bid of value 5 accepted for slot
101 and the payload of that slot was delivered to the proposer. *)
Definition deliveredRelay : Relay.t :=
  runEvents (Relay.mk (api 0 false) Redis.empty Database.empty)
    [EvSubmitNewBlock (Decoded (payload 101 5)) (env None None);
     EvSaveDeliveredPayload (blinded 101) "0xA"
       (GetPayloadResponse.mk VersionBellatrix (Some (executionPayload 101)))
       delivered].


(** Well-formed path parameters of getHeader: a parent hash of 66 and a
public key of 98 characters. *)
Definition parentHashHex : string :=
  "0xaaaaaaaaaaaaaaaaaaaaaaaaaaaaaaaaaaaaaaaaaaaaaaaaaaaaaaaaaaaaaaaa".

Definition proposerPubkeyHex : string :=
  "0x8996515293fcd87ca09b5c6ffe5c17f043c6a1a3639cc9494a82ec8eb50a9b55c34b47675e573be40d9be308b1ca2908".

(** A cache whose best bid for slot 101 has value [value]. *)
Definition cacheWithBestBid (value : Z) : Redis.t :=
  Redis.mk ∅ ∅ ∅ ∅
    (<[(101, parentHashHex, proposerPubkeyHex) :=
         GetHeaderResponse.mk VersionBellatrix
           (Some (SignedBuilderBid.mk (Some (BuilderBid.mk value "0xbb" "0xrelay"))
                    "0xrelaysig"))]> ∅)
    ∅.

(** A signed registration of validator ["0xA"], the time a registration
    request starts to be handled, 1 600 000 000.5 s after the Unix epoch,
    and a cache that holds the registration timestamp 1 600 000 000 of
    ["0xA"]. *)
Definition registration : SignedValidatorRegistration.t :=
  SignedValidatorRegistration.mk duty "0xsig".

Definition now : Time.t := Time.mk (1600000000 + Time.unixToInternal) 500000000.

Definition cacheWithRegistration : Redis.t :=
  Redis.mk ∅ ∅ ∅ ∅ ∅ (<["0xA"%string := 1600000000]> ∅).

End Scenario.

(** ** Vocabulary of the statements *)

(** The effects a handler can have before it reaches the simulation. *)
Definition isCheckEffect (e : Effect) : bool :=
  match e with
  | Go (GoUpdatedExpectedRandao _) => true
  | Sleep _ => true
  | _ => false
  end.

(** Writes to the shared cache (the bid store and the stats hash). *)
Definition isCacheWrite (e : Effect) : bool :=
  match e with
  | SaveBidTrace _ | SaveExecutionPayload _ | SaveLatestBuilderBid _
  | UpdateTopBid _ | SetStats _ => true
  | _ => false
  end.

(** The two audit writes of the deferred function. *)
Definition isAuditWrite (e : Effect) : bool :=
  match e with
  | SaveBuilderBlockSubmission _ _ | UpsertBlockBuilderEntryAfterSubmission _ _ => true
  | _ => false
  end.

Definition isSimulation (e : Effect) : bool :=
  match e with
  | BlockSimSend _ => true
  | _ => false
  end.

Definition isOptimisticStart (e : Effect) : bool :=
  match e with
  | Go (GoProcessOptimisticBlock _) => true
  | _ => false
  end.

(** [f1] is [f0] with some more entries [extra] in its trace, all of the
    kind [kind]; stores and local variables are the same. *)
Definition tracedFrom (kind : Effect -> bool) (f0 f1 : Frame.t) : Prop :=
  exists extra,
    f1 = Frame.mk (Stores.mk (Frame.redis f0) (Frame.db f0)
                     (Stores.effects (Frame.stores f0) ++ extra))
           (Frame.simErr f0) (Frame.optimisticSubmission f0) (Frame.eligibleAt f0)
    /\ Forall (fun e => kind e = true) extra.

Definition effectsOf (f : Frame.t) : list Effect := Stores.effects (Frame.stores f).

(** What a submission that passed the checks is made of. *)
Definition passedChecks (api : RelayAPI.t) (body : SubmitBody) (sub : Submission.t) : Prop :=
  body = Decoded (Submission.payload sub)
  /\ BuilderSubmitBlockRequest.Message (Submission.payload sub) = Some (Submission.message sub)
  /\ BuilderSubmitBlockRequest.ExecutionPayload (Submission.payload sub)
     = Some (Submission.executionPayload sub)
  /\ Submission.builderEntry sub
     = lookupBuilderEntry api (BidTrace.BuilderPubkey (Submission.message sub))
  /\ RelayAPI.proposerDutiesMap api !! BidTrace.Slot (Submission.message sub)
     = Some (Submission.slotDuty sub).

Ltac case_handler :=
  repeat match goal with
    | H : (_, _) = (_, _) |- _ => inversion H; subst; clear H
    | H : context [match ?x with _ => _ end] |- _ =>
        lazymatch x with
        | context [match _ with _ => _ end] => fail
        | _ => destruct x eqn:?
        end
    end.

(** [f1] is [f0] after writes to the bid store only: the database, the stats
    hash and the variables [simErr] and [optimisticSubmission] are the same,
    and the trace has grown by cache writes. *)
Definition storedFrom (f0 f1 : Frame.t) : Prop :=
  Frame.db f1 = Frame.db f0
  /\ Redis.stats (Frame.redis f1) = Redis.stats (Frame.redis f0)
  /\ Frame.simErr f1 = Frame.simErr f0
  /\ Frame.optimisticSubmission f1 = Frame.optimisticSubmission f0
  /\ exists writes, effectsOf f1 = effectsOf f0 ++ writes
                    /\ Forall (fun e => isCacheWrite e = true) writes.

(** The condition of the optimistic path, on the builder's cached entry. *)
Definition optimisticCondition (api : RelayAPI.t) (sub : Submission.t) : Prop :=
  let entry := lookupBuilderEntry api (BidTrace.BuilderPubkey (Submission.message sub)) in
  blockBuilderCacheEntry.collateral entry > BidTrace.Value (Submission.message sub)
  /\ BuilderStatus.IsDemoted (blockBuilderCacheEntry.status entry) = false
  /\ BidTrace.Slot (Submission.message sub) = RelayAPI.optimisticSlot api.

(** The stages of handleSubmitNewBlock behind the delivered-slot gate. *)
Definition afterDeliveredSlotGate (api : RelayAPI.t) (payload : BuilderSubmitBlockRequest.t)
    (message : BidTrace.t) (executionPayload : ExecutionPayload.t) (env : SubmitEnv.t)
  : @Handler Frame.t unit :=
  do sub <- checkSubmission api payload message executionPayload env ;
  do _ <- confirmRandao api sub ;
  do _ <- verifyBuilderSignature env ;
  processSubmission api sub env.

(** The read of the delivered-slot marker gives nothing to compare with: the
    client reports an error other than [redis.Nil], or what it returns is
    not an unsigned decimal numeral. *)
Definition markerUnreadable (r : Redis.t) (env : SubmitEnv.t) : Prop :=
  let read := Redis.GetStats r Redis.RedisStatsFieldSlotLastPayloadDelivered
                (SubmitEnv.getStatsFail env) in
  (exists e, read.2 = Some (Redis.Transport e)) \/ Strconv.ParseUint read.1 64 = None.

(** The stored delivered-slot marker is some slot [m] not before [s]. *)
Definition markerAtLeast (s : Z) (r : Redis.t) : Prop :=
  exists m, 0 <= m < 2 ^ 64 /\ s <= m
            /\ Redis.stats r !! Redis.RedisStatsFieldSlotLastPayloadDelivered
               = Some (Strconv.FormatUint m).

(** No delivery for a slot before [s] (which would move the marker back);
    the slot of a delivered block is a [uint64]. *)
Definition noEarlierDelivery (s : Z) (e : Event) : Prop :=
  match e with
  | EvSaveDeliveredPayload payload _ _ _ =>
      0 <= SignedBlindedBeaconBlock.Slot payload < 2 ^ 64
      /\ s <= SignedBlindedBeaconBlock.Slot payload
  | _ => True
  end.

Definition alreadyDelivered : HTTPWrite :=
  RespondError StatusBadRequest "payload for this slot was already delivered".

(** The demoted bit of builder [b] is set in the builder cache. *)
Definition cacheDemoted (api : RelayAPI.t) (b : string) : Prop :=
  exists e, RelayAPI.blockBuildersCache api !! b = Some e
            /\ BuilderStatus.IsDemoted (blockBuilderCacheEntry.status e) = true.

(** The demoted bit of builder [b] is set in the durable store. *)
Definition dbDemoted (d : Database.t) (b : string) : Prop :=
  exists e, Database.blockBuilders d !! b = Some e
            /\ Database.BlockBuilderEntry.IsDemoted e = true.

(** The request is a submission of builder [b]. *)
Definition submittedBy (b : string) (body : SubmitBody) : Prop :=
  exists payload message,
    body = Decoded payload
    /\ BuilderSubmitBlockRequest.Message payload = Some message
    /\ BidTrace.BuilderPubkey message = b.

(** The stages of handleSubmitNewBlock in front of the cache writes. *)
Definition stagesBeforeCacheWrites (api : RelayAPI.t) (body : SubmitBody) (env : SubmitEnv.t)
  : @Handler Frame.t
      (Submission.t * (GetHeaderResponse.t * GetPayloadResponse.t * BidTraceV2.t)) :=
  do sub <- checksBeforeSimulation api body env ;
  do _ <- simulateSubmission api sub env ;
  do _ <- ensureLatest sub env ;
  do responses <- prepareResponses api sub env ;
  ret (sub, responses).

(** The four cache writes of a submission in the order the spec gives them,
    each with the error its call returns. *)
Definition cacheWritesInOrder (env : SubmitEnv.t) : list Effect :=
  [SaveBidTrace (SubmitEnv.saveBidTraceFail env);
   SaveExecutionPayload (SubmitEnv.saveExecutionPayloadFail env);
   SaveLatestBuilderBid (SubmitEnv.saveLatestBuilderBidFail env);
   UpdateTopBid (SubmitEnv.updateTopBidFail env)].

Definition writeError (e : Effect) : option string :=
  match e with
  | SaveBidTrace err | SaveExecutionPayload err | SaveLatestBuilderBid err
  | UpdateTopBid err | SetStats err => err
  | _ => None
  end.

(** The writes up to and including the first one that fails. *)
Fixpoint upToFirstError (l : list Effect) : list Effect :=
  match l with
  | [] => []
  | e :: l' =>
      match writeError e with
      | Some _ => [e]
      | None => e :: upToFirstError l'
      end
  end.

Fixpoint firstError (l : list Effect) : option string :=
  match l with
  | [] => None
  | e :: l' =>
      match writeError e with
      | Some err => Some err
      | None => firstError l'
      end
  end.

(** The two calls of a demotion. *)
Definition isDemotion (e : Effect) : bool :=
  match e with
  | SetBlockBuilderStatus _ _ _ | InsertBuilderDemotion _ => true
  | _ => false
  end.

(** The stored registration timestamp of [pk], as the handler reads it for
    the element [value]: [None] when the read fails. *)
Definition storedTimestamp (r : Redis.t) (value : Registration.t) (pk : string) : option Z :=
  match Redis.GetValidatorRegistrationTimestamp r pk (Registration.getTimestampFail value) with
  | (_, Some _) => None
  | (prevTimestamp, None) => Some prevTimestamp
  end.

(** The element is taken up to the check against the stored timestamp: its
    two fields parse, it is not too far in the future and its public key is a
    known validator. *)
Definition reachesTimestampCheck (api : RelayAPI.t) (start : Time.t) (value : Registration.t)
    (pk : string) (timestamp : Z) : Prop :=
  parseRegistration value = inr (pk, timestamp)
  /\ Time.After (Time.Unix timestamp) (Time.AddSeconds start 10) = false
  /\ pk ∈ RelayAPI.knownValidators api.

(** The element is taken up to the signature check: moreover it is not
    older than the stored registration, and it decodes. *)
Definition reachesVerification (api : RelayAPI.t) (r : Redis.t) (start : Time.t)
    (value : Registration.t) (pk : string) (timestamp : Z)
    (reg : SignedValidatorRegistration.t) : Prop :=
  reachesTimestampCheck api start value pk timestamp
  /\ match storedTimestamp r value pk with
     | Some prevTimestamp => prevTimestamp < u64 timestamp
     | None => True
     end
  /\ Registration.unmarshal value = inr reg.

(** The state a processed element leaves when it got past the known-validator
    check: counted, and its public key sent to the active-validator channel. *)
Definition trackedActive (st : RegisterState.t) (pk : string) : RegisterState.t :=
  RegisterState.mk
    (RelayAPI.withChannels (RegisterState.api st)
       (trySend (RelayAPI.activeValidatorC (RegisterState.api st)) pk)
       (RelayAPI.validatorRegC (RegisterState.api st)))
    (RegisterState.written st) (RegisterState.numRegTotal st + 1)
    (RegisterState.numRegProcessed st + 1) (RegisterState.numRegActive st + 1)
    (RegisterState.numRegNew st) (RegisterState.processingStoppedByError st).

(** ... and when it was moreover found to be new. *)
Definition trackedNew (st : RegisterState.t) (pk : string) : RegisterState.t :=
  let st := trackedActive st pk in
  RegisterState.mk (RegisterState.api st) (RegisterState.written st)
    (RegisterState.numRegTotal st) (RegisterState.numRegProcessed st)
    (RegisterState.numRegActive st) (RegisterState.numRegNew st + 1)
    (RegisterState.processingStoppedByError st).

(** An element that passes every check, with the registration it decodes to. *)
Definition acceptedAs (api : RelayAPI.t) (r : Redis.t) (start : Time.t)
    (value : Registration.t) (reg : SignedValidatorRegistration.t) : Prop :=
  exists pk timestamp,
    reachesVerification api r start value pk timestamp reg
    /\ Registration.verifySignature value = (true, None).

(** The timestamp, in whole seconds since the Unix epoch, lies more than ten
    seconds after [start]. *)
Definition tooFarInFuture (start : Time.t) (timestamp : Z) : Prop :=
  Time.sec start + 10 < timestamp + Time.unixToInternal.

(** [time.Unix] holds the timestamp without wrapping. *)
Definition representable (timestamp : Z) : Prop :=
  Time.int64 (timestamp + Time.unixToInternal) = timestamp + Time.unixToInternal.

(** The registrations the element added to the queue of the persistence
    worker. *)
Definition enqueuedBy (r : Redis.t) (start : Time.t) (st : RegisterState.t)
    (value : Registration.t) : Prop :=
  RelayAPI.validatorRegC (RegisterState.api (registerValidator r start st value))
  <> RelayAPI.validatorRegC (RegisterState.api st).

(** The simulation of the submitted block is started: by the handler itself,
    or as a goroutine on the optimistic path. *)
Definition simulationStarted (e : Effect) : bool := isSimulation e || isOptimisticStart e.

(** The builder's submissions are dropped by the status gates: it is
    blacklisted, or it is low-prio while low-prio builders are disabled. *)
Definition refusedByStatus (api : RelayAPI.t) (builderPubkey : string) : Prop :=
  let status := blockBuilderCacheEntry.status (lookupBuilderEntry api builderPubkey) in
  BuilderStatus.IsBlacklisted status = true
  \/ (RelayAPI.ffDisableLowPrioBuilders api = true /\ BuilderStatus.IsHighPrio status = false).

(** The effect is the start of a goroutine. *)
Definition isGoroutine (e : Effect) : bool :=
  match e with
  | Go _ => true
  | _ => false
  end.

(** ** The data API

    [url.Values], the arguments of the query string: [Get] gives the first
    value of a key, the empty string when there is none. *)
Module Values.
Definition t := gmap string (list string).

Definition Get (v : t) (key : string) : string :=
  match v !! key with
  | Some (x :: _) => x
  | _ => EmptyString
  end.
End Values.

(** [args.Get(key) != ""] *)
Definition given (args : Values.t) (key : string) : bool :=
  negb (String.eqb (Values.Get args key) EmptyString).

(** database.GetPayloadsFilters (types file of package database) *)
Module GetPayloadsFilters.
Record t := mk {
  Slot : Z;
  Cursor : Z;
  Limit : Z;
  BlockHash : string;
  BlockNumber : Z;
  ProposerPubkey : string;
  BuilderPubkey : string;
  OrderByValue : Z
}.

Definition withSlot (f : t) (v : Z) : t :=
  mk v (Cursor f) (Limit f) (BlockHash f) (BlockNumber f) (ProposerPubkey f)
     (BuilderPubkey f) (OrderByValue f).
Definition withCursor (f : t) (v : Z) : t :=
  mk (Slot f) v (Limit f) (BlockHash f) (BlockNumber f) (ProposerPubkey f)
     (BuilderPubkey f) (OrderByValue f).
Definition withLimit (f : t) (v : Z) : t :=
  mk (Slot f) (Cursor f) v (BlockHash f) (BlockNumber f) (ProposerPubkey f)
     (BuilderPubkey f) (OrderByValue f).
Definition withBlockHash (f : t) (v : string) : t :=
  mk (Slot f) (Cursor f) (Limit f) v (BlockNumber f) (ProposerPubkey f)
     (BuilderPubkey f) (OrderByValue f).
Definition withBlockNumber (f : t) (v : Z) : t :=
  mk (Slot f) (Cursor f) (Limit f) (BlockHash f) v (ProposerPubkey f)
     (BuilderPubkey f) (OrderByValue f).
Definition withProposerPubkey (f : t) (v : string) : t :=
  mk (Slot f) (Cursor f) (Limit f) (BlockHash f) (BlockNumber f) v
     (BuilderPubkey f) (OrderByValue f).
Definition withBuilderPubkey (f : t) (v : string) : t :=
  mk (Slot f) (Cursor f) (Limit f) (BlockHash f) (BlockNumber f) (ProposerPubkey f)
     v (OrderByValue f).
Definition withOrderByValue (f : t) (v : Z) : t :=
  mk (Slot f) (Cursor f) (Limit f) (BlockHash f) (BlockNumber f) (ProposerPubkey f)
     (BuilderPubkey f) v.
End GetPayloadsFilters.

(** database.GetBuilderSubmissionsFilters *)
Module GetBuilderSubmissionsFilters.
Record t := mk {
  Slot : Z;
  Limit : Z;
  BlockHash : string;
  BlockNumber : Z;
  BuilderPubkey : string
}.

Definition withSlot (f : t) (v : Z) : t :=
  mk v (Limit f) (BlockHash f) (BlockNumber f) (BuilderPubkey f).
Definition withLimit (f : t) (v : Z) : t :=
  mk (Slot f) v (BlockHash f) (BlockNumber f) (BuilderPubkey f).
Definition withBlockHash (f : t) (v : string) : t :=
  mk (Slot f) (Limit f) v (BlockNumber f) (BuilderPubkey f).
Definition withBlockNumber (f : t) (v : Z) : t :=
  mk (Slot f) (Limit f) (BlockHash f) v (BuilderPubkey f).
Definition withBuilderPubkey (f : t) (v : string) : t :=
  mk (Slot f) (Limit f) (BlockHash f) (BlockNumber f) v.
End GetBuilderSubmissionsFilters.

Section DataAPI.

(** The error, if any, of [types.Hash.UnmarshalText] and of
    [checkBLSPublicKeyHex] on a text; the rows of the two tables and their
    JSON forms with the conversions of package database.  Their code is not
    among the sources. *)
Variable Hash_UnmarshalText : string -> option string.
Variable checkBLSPublicKeyHex : string -> option string.
Variables DeliveredPayloadEntry BidTraceV2JSON : Type.
Variable DeliveredPayloadEntryToBidTraceV2JSON : DeliveredPayloadEntry -> BidTraceV2JSON.
Variables BuilderBlockSubmissionRow BidTraceV2WithTimestampJSON : Type.
Variable BuilderSubmissionEntryToBidTraceV2WithTimestampJSON :
  BuilderBlockSubmissionRow -> BidTraceV2WithTimestampJSON.

(** Lines 1540-1608 of handleDataProposerPayloadDelivered: the filters are
    filled in from the query arguments. *)
Definition deliveredPayloadsFilters (args : Values.t) : @Handler GetPayloadsFilters.t unit :=
  do _ <- (if given args "slot" && given args "cursor"
           then respond (RespondError StatusBadRequest "cannot specify both slot and cursor")
           else if given args "slot"
           then match Strconv.ParseUint (Values.Get args "slot") 64 with
                | None => respond (RespondError StatusBadRequest "invalid slot argument")
                | Some v => modify (fun f => GetPayloadsFilters.withSlot f v)
                end
           else if given args "cursor"
           then match Strconv.ParseUint (Values.Get args "cursor") 64 with
                | None => respond (RespondError StatusBadRequest "invalid cursor argument")
                | Some v => modify (fun f => GetPayloadsFilters.withCursor f v)
                end
           else ret tt) ;
  do _ <- (if given args "block_hash"
           then match Hash_UnmarshalText (Values.Get args "block_hash") with
                | Some _ => respond (RespondError StatusBadRequest "invalid block_hash argument")
                | None => modify (fun f => GetPayloadsFilters.withBlockHash f
                                             (Values.Get args "block_hash"))
                end
           else ret tt) ;
  do _ <- (if given args "block_number"
           then match Strconv.ParseUint (Values.Get args "block_number") 64 with
                | None => respond (RespondError StatusBadRequest "invalid block_number argument")
                | Some v => modify (fun f => GetPayloadsFilters.withBlockNumber f v)
                end
           else ret tt) ;
  do _ <- (if given args "proposer_pubkey"
           then match checkBLSPublicKeyHex (Values.Get args "proposer_pubkey") with
                | Some _ =>
                    respond (RespondError StatusBadRequest "invalid proposer_pubkey argument")
                | None => modify (fun f => GetPayloadsFilters.withProposerPubkey f
                                             (Values.Get args "proposer_pubkey"))
                end
           else ret tt) ;
  do _ <- (if given args "builder_pubkey"
           then match checkBLSPublicKeyHex (Values.Get args "builder_pubkey") with
                | Some _ =>
                    respond (RespondError StatusBadRequest "invalid builder_pubkey argument")
                | None => modify (fun f => GetPayloadsFilters.withBuilderPubkey f
                                             (Values.Get args "builder_pubkey"))
                end
           else ret tt) ;
  do _ <- (if given args "limit"
           then match Strconv.ParseUint (Values.Get args "limit") 64 with
                | None => respond (RespondError StatusBadRequest "invalid limit argument")
                | Some _limit =>
                    do filters <- get ;
                    if GetPayloadsFilters.Limit filters <? _limit
                    then respond (RespondError StatusBadRequest
                                    ("maximum limit is "
                                     +:+ Strconv.FormatUint (GetPayloadsFilters.Limit filters)))
                    else modify (fun f => GetPayloadsFilters.withLimit f _limit)
                end
           else ret tt) ;
  if String.eqb (Values.Get args "order_by") "value"
  then modify (fun f => GetPayloadsFilters.withOrderByValue f 1)
  else if String.eqb (Values.Get args "order_by") "-value"
  then modify (fun f => GetPayloadsFilters.withOrderByValue f (-1))
  else ret tt.

(** [handleDataProposerPayloadDelivered]; [GetRecentDeliveredPayloads] is
    what the database answers to a query.  The result is the error written,
    or the response handed to [api.RespondOK]. *)
Definition handleDataProposerPayloadDelivered (args : Values.t)
    (GetRecentDeliveredPayloads : GetPayloadsFilters.t -> string + list DeliveredPayloadEntry)
  : HTTPWrite + list BidTraceV2JSON :=
  let filters := GetPayloadsFilters.mk 0 0 200 EmptyString 0 EmptyString EmptyString 0 in
  match deliveredPayloadsFilters args filters with
  | (_, Return w) => inl w
  | (filters, Continue _) =>
      match GetRecentDeliveredPayloads filters with
      | inl err => inl (RespondError StatusInternalServerError err)
      | inr deliveredPayloads =>
          inr (DeliveredPayloadEntryToBidTraceV2JSON <$> deliveredPayloads)
      end
  end.

(** Lines 1633-1694 of handleDataBuilderBidsReceived. *)
Definition builderSubmissionsFilters (args : Values.t)
  : @Handler GetBuilderSubmissionsFilters.t unit :=
  do _ <- (if given args "cursor"
           then respond (RespondError StatusBadRequest "cursor argument not supported")
           else ret tt) ;
  do _ <- (if given args "slot"
           then match Strconv.ParseUint (Values.Get args "slot") 64 with
                | None => respond (RespondError StatusBadRequest "invalid slot argument")
                | Some v => modify (fun f => GetBuilderSubmissionsFilters.withSlot f v)
                end
           else ret tt) ;
  do _ <- (if given args "block_hash"
           then match Hash_UnmarshalText (Values.Get args "block_hash") with
                | Some _ => respond (RespondError StatusBadRequest "invalid block_hash argument")
                | None => modify (fun f => GetBuilderSubmissionsFilters.withBlockHash f
                                             (Values.Get args "block_hash"))
                end
           else ret tt) ;
  do _ <- (if given args "block_number"
           then match Strconv.ParseUint (Values.Get args "block_number") 64 with
                | None => respond (RespondError StatusBadRequest "invalid block_number argument")
                | Some v => modify (fun f => GetBuilderSubmissionsFilters.withBlockNumber f v)
                end
           else ret tt) ;
  do _ <- (if given args "builder_pubkey"
           then match checkBLSPublicKeyHex (Values.Get args "builder_pubkey") with
                | Some _ =>
                    respond (RespondError StatusBadRequest "invalid builder_pubkey argument")
                | None => modify (fun f => GetBuilderSubmissionsFilters.withBuilderPubkey f
                                             (Values.Get args "builder_pubkey"))
                end
           else ret tt) ;
  (* at least one query arguments is required *)
  do filters <- get ;
  if (GetBuilderSubmissionsFilters.Slot filters =? 0)
     && String.eqb (GetBuilderSubmissionsFilters.BlockHash filters) EmptyString
     && (GetBuilderSubmissionsFilters.BlockNumber filters =? 0)
     && String.eqb (GetBuilderSubmissionsFilters.BuilderPubkey filters) EmptyString
  then respond (RespondError StatusBadRequest
                  "need to query for specific slot or block_hash or block_number or builder_pubkey")
  else
  if given args "limit"
  then match Strconv.ParseUint (Values.Get args "limit") 64 with
       | None => respond (RespondError StatusBadRequest "invalid limit argument")
       | Some _limit =>
           if GetBuilderSubmissionsFilters.Limit filters <? _limit
           then respond (RespondError StatusBadRequest
                           ("maximum limit is "
                            +:+ Strconv.FormatUint (GetBuilderSubmissionsFilters.Limit filters)))
           else modify (fun f => GetBuilderSubmissionsFilters.withLimit f _limit)
       end
  else ret tt.

(** [handleDataBuilderBidsReceived] *)
Definition handleDataBuilderBidsReceived (args : Values.t)
    (GetBuilderSubmissions :
       GetBuilderSubmissionsFilters.t -> string + list BuilderBlockSubmissionRow)
  : HTTPWrite + list BidTraceV2WithTimestampJSON :=
  let filters := GetBuilderSubmissionsFilters.mk 0 500 EmptyString 0 EmptyString in
  match builderSubmissionsFilters args filters with
  | (_, Return w) => inl w
  | (filters, Continue _) =>
      match GetBuilderSubmissions filters with
      | inl err => inl (RespondError StatusInternalServerError err)
      | inr blockSubmissions =>
          inr (BuilderSubmissionEntryToBidTraceV2WithTimestampJSON <$> blockSubmissions)
      end
  end.

End DataAPI.

(** The queries the two handlers may put to the database. *)
Definition deliveredPayloadsQuery (f : GetPayloadsFilters.t) : Prop :=
  0 <= GetPayloadsFilters.Limit f <= 200
  /\ (GetPayloadsFilters.Slot f = 0 \/ GetPayloadsFilters.Cursor f = 0)
  /\ -1 <= GetPayloadsFilters.OrderByValue f <= 1.

Definition builderSubmissionsQuery (f : GetBuilderSubmissionsFilters.t) : Prop :=
  0 <= GetBuilderSubmissionsFilters.Limit f <= 500
  /\ (GetBuilderSubmissionsFilters.Slot f <> 0
      \/ GetBuilderSubmissionsFilters.BlockHash f <> EmptyString
      \/ GetBuilderSubmissionsFilters.BlockNumber f <> 0
      \/ GetBuilderSubmissionsFilters.BuilderPubkey f <> EmptyString).

(** ** Package common: the profile of a submission *)
Module Profile.
Record t := mk {
  Unzip : Z;
  Decode : Z;
  CacheRead : Z;
  RandaoLock1 : Z;
  DutiesLock : Z;
  Checks : Z;
  RandaoLock2 : Z;
  Simulation : Z;
  RedisUpdate : Z;
  Submission : Z
}.

(** [fmt.Sprintf] with ten verbs for the default format, on fields of type
    uint64. *)
Definition String (p : t) : string :=
  Strconv.FormatUint (Unzip p) +:+ "," +:+ Strconv.FormatUint (Decode p) +:+ ","
  +:+ Strconv.FormatUint (CacheRead p) +:+ "," +:+ Strconv.FormatUint (RandaoLock1 p) +:+ ","
  +:+ Strconv.FormatUint (DutiesLock p) +:+ "," +:+ Strconv.FormatUint (Checks p) +:+ ","
  +:+ Strconv.FormatUint (RandaoLock2 p) +:+ "," +:+ Strconv.FormatUint (Simulation p) +:+ ","
  +:+ Strconv.FormatUint (RedisUpdate p) +:+ "," +:+ Strconv.FormatUint (Submission p).

(** The fields are uint64 values. *)
Definition valid (p : t) : Prop :=
  Forall (fun x => 0 <= x < 2 ^ 64)
    [Unzip p; Decode p; CacheRead p; RandaoLock1 p; DutiesLock p; Checks p; RandaoLock2 p;
     Simulation p; RedisUpdate p; Submission p].
End Profile.

(** ** Construction and shutdown of an instance *)

(** RelayAPIOpts, as far as [NewRelayAPI], [StopServer] and the handlers
    read it: whether the three pointers are set (the datastore with the
    validators it knows), the secret key, and the APIs to enable. *)
Module RelayAPIOpts.
Record t := mk {
  Log : bool;
  BeaconClient : bool;
  Datastore : option (gset string * gmap Z string);
  SecretKey : option string;
  ProposerAPI : bool;
  BlockBuilderAPI : bool;
  DataAPI : bool;
  PprofAPI : bool;
  InternalAPI : bool
}.
End RelayAPIOpts.

(** The errors [NewRelayAPI] returns: its own, and those of the calls it
    makes, handed on as they are. *)
Inductive StartupError :=
| ErrMissingLogOpt
| ErrMissingBeaconClientOpt
| ErrMissingDatastoreOpt
| ErrBuilderAPIWithoutSecretKey
| ErrRelayPubkeyMismatch (new old : string)
| ErrOf (msg : string).

(** Answers of the calls [NewRelayAPI] makes: the public key of a secret
    key, the relay public key read from the shared config, the failure of
    the write to it, and the environment variables. *)
Module StartupEnv.
Record t := mk {
  publicKeyOf : string -> string + string;
  getRelayConfig : string * option string;
  setRelayConfigFail : option string;
  Getenv : string -> string
}.
End StartupEnv.

(** The zero value of [types.PublicKey], as text. *)
Definition ZeroPublicKey : string :=
  "0x000000000000000000000000000000000000000000000000000000000000000000000000000000000000000000000000".

(** [NewRelayAPI] creates a new service.  The second component lists the
    values written to the public-key field of the shared relay config.  The
    genesis time and the builder cache are set by [StartServer]. *)
Definition NewRelayAPI (opts : RelayAPIOpts.t) (env : StartupEnv.t)
  : (StartupError + RelayAPI.t) * list string :=
  if negb (RelayAPIOpts.Log opts) then (inl ErrMissingLogOpt, [])
  else if negb (RelayAPIOpts.BeaconClient opts) then (inl ErrMissingBeaconClientOpt, [])
  else
    match RelayAPIOpts.Datastore opts with
    | None => (inl ErrMissingDatastoreOpt, [])
    | Some (knownValidators, knownValidatorsByIndex) =>
        let api publicKey :=
          RelayAPI.mk publicKey (RelayAPIOpts.BlockBuilderAPI opts) 0 0 ∅ 0
            knownValidators knownValidatorsByIndex [] []
            (String.eqb (StartupEnv.Getenv env "FORCE_GET_HEADER_204") "1")
            (String.eqb (StartupEnv.Getenv env "DISABLE_BLOCK_PUBLISHING") "1")
            (String.eqb (StartupEnv.Getenv env "DISABLE_LOWPRIO_BUILDERS") "1")
            (randaoHelper.mk 0 EmptyString) 0 0 ∅ in
        (* If block-builder API is enabled, then ensure secret key is all set *)
        if RelayAPIOpts.BlockBuilderAPI opts
        then
          match RelayAPIOpts.SecretKey opts with
          | None => (inl ErrBuilderAPIWithoutSecretKey, [])
          | Some sk =>
              match StartupEnv.publicKeyOf env sk with
              | inl err => (inl (ErrOf err), [])
              | inr publicKey =>
                  (* ensure pubkey is same across all relay instances *)
                  match StartupEnv.getRelayConfig env with
                  | (_, Some err) => (inl (ErrOf err), [])
                  | (_pubkey, None) =>
                      if String.eqb _pubkey EmptyString
                      then
                        match StartupEnv.setRelayConfigFail env with
                        | Some err => (inl (ErrOf err), [publicKey])
                        | None => (inr (api publicKey), [publicKey])
                        end
                      else if negb (String.eqb _pubkey publicKey)
                      then (inl (ErrRelayPubkeyMismatch publicKey _pubkey), [])
                      else (inr (api publicKey), [])
                  end
              end
          end
        else (inr (api ZeroPublicKey), [])
    end.

(** [StopServer] up to the shutdown of the HTTP server: it disables sending
    any bids on getHeader calls and waits for the getPayload calls in
    flight. *)
Definition StopServer (opts : RelayAPIOpts.t) (api : RelayAPI.t) : RelayAPI.t * list Effect :=
  if RelayAPIOpts.ProposerAPI opts
  then
    (RelayAPI.mk (RelayAPI.publicKey api) (RelayAPI.optsBlockBuilderAPI api)
       (RelayAPI.headSlot api) (RelayAPI.genesisTime api) (RelayAPI.proposerDutiesMap api)
       (RelayAPI.proposerDutiesSlot api) (RelayAPI.knownValidators api)
       (RelayAPI.knownValidatorsByIndex api) (RelayAPI.activeValidatorC api)
       (RelayAPI.validatorRegC api)
       true (* stop sending bids *)
       (RelayAPI.ffDisableBlockPublishing api) (RelayAPI.ffDisableLowPrioBuilders api)
       (RelayAPI.expectedPrevRandao api) (RelayAPI.expectedPrevRandaoUpdating api)
       (RelayAPI.optimisticSlot api) (RelayAPI.blockBuildersCache api),
     [Sleep 5000])
  else (api, []).

(** * Properties *)

(** ** Numerals *)

Lemma u64_small z : 0 <= z < 2 ^ 64 -> u64 z = z.
Proof. intros H. unfold u64. now apply Z.mod_small. Qed.

Lemma u64_range z : 0 <= u64 z < 2 ^ 64.
Proof. unfold u64. apply Z.mod_pos_bound. reflexivity. Qed.

Lemma FormatUint_nonempty n : Strconv.FormatUint n <> EmptyString.
Proof.
  unfold Strconv.FormatUint. intros H.
  assert (Hu := NilEmpty.usu (N.to_uint (Z.to_N n))).
  rewrite H in Hu. simpl in Hu. injection Hu as Hu.
  assert (Hn := Unsigned.of_to (Z.to_N n)). rewrite <- Hu in Hn.
  destruct (Z.to_N n) as [|p] eqn:E; [discriminate|].
  simpl in Hn. discriminate.
Qed.

Lemma parseDigits_FormatUint n : 0 <= n -> Strconv.parseDigits (Strconv.FormatUint n) = Some n.
Proof.
  intros Hn. unfold Strconv.parseDigits.
  destruct (decide (Strconv.FormatUint n = EmptyString)) as [E|_].
  - now apply FormatUint_nonempty in E.
  - unfold Strconv.FormatUint. rewrite NilEmpty.usu, Unsigned.of_to.
    now rewrite Z2N.id.
Qed.

(** What [SetStats] writes for a [uint64] is read back by [ParseUint]. *)
Lemma ParseUint_FormatUint n :
  0 <= n < 2 ^ 64 -> Strconv.ParseUint (Strconv.FormatUint n) 64 = Some n.
Proof.
  intros [H0 H1]. unfold Strconv.ParseUint. rewrite parseDigits_FormatUint by assumption.
  destruct (n <? 2 ^ 64) eqn:E; [reflexivity|].
  apply Z.ltb_ge in E. lia.
Qed.

(** ** The randao update *)

Lemma updatedExpectedRandao_unfold api slot randao :
  updatedExpectedRandao api slot randao
  = let latestKnownSlot := randaoHelper.slot (RelayAPI.expectedPrevRandao api) in
    if (slot <? latestKnownSlot) || (slot <=? RelayAPI.expectedPrevRandaoUpdating api)
    then api
    else
      match randao with
      | inl _ => RelayAPI.withRandao api (RelayAPI.expectedPrevRandao api) 0
      | inr value =>
          let targetSlot := u64 (slot + 1) in
          if latestKnownSlot <=? targetSlot
          then RelayAPI.withRandao api (randaoHelper.mk targetSlot value) slot
          else RelayAPI.withRandao api (RelayAPI.expectedPrevRandao api) slot
      end.
Proof.
  unfold updatedExpectedRandao, updatedExpectedRandaoGuard, updatedExpectedRandaoAnswer.
  cbv zeta. destruct (_ || _); [reflexivity|]. cbv beta iota.
  destruct randao as [err|value]; [reflexivity|].
  cbn [RelayAPI.expectedPrevRandao RelayAPI.withRandao RelayAPI.expectedPrevRandaoUpdating].
  destruct (_ <=? _); reflexivity.
Qed.

(** ** Handler bodies *)

Lemma bind_Continue {S A B} (m : @Handler S A) (k : A -> @Handler S B) s s' a :
  m s = (s', Continue a) -> bind m k s = k a s'.
Proof. intros H. unfold bind. now rewrite H. Qed.

Lemma bind_Return {S A B} (m : @Handler S A) (k : A -> @Handler S B) s s' w :
  m s = (s', Return w) -> bind m k s = (s', Return w).
Proof. intros H. unfold bind. now rewrite H. Qed.


Lemma tracedFrom_refl kind f : tracedFrom kind f f.
Proof.
  exists []. split; [|constructor]. destruct f as [[r d e] a b c]. simpl.
  now rewrite app_nil_r.
Qed.

Lemma tracedFrom_emit kind f0 f1 e :
  tracedFrom kind f0 f1 -> kind e = true -> tracedFrom kind f0 (Frame.emit e f1).
Proof.
  intros (extra & -> & Hall) He. exists (extra ++ [e]). split.
  - unfold Frame.emit, Frame.withStores, Stores.emit. simpl. now rewrite app_assoc.
  - apply Forall_app. split; [assumption|]. now constructor.
Qed.

(** ** The checks of handleSubmitNewBlock *)

Lemma decodeSubmission_inv body f0 f1 o :
  decodeSubmission body f0 = (f1, o) ->
  f1 = f0 /\
  forall payload message executionPayload,
    o = Continue (payload, message, executionPayload) ->
    body = Decoded payload
    /\ BuilderSubmitBlockRequest.Message payload = Some message
    /\ BuilderSubmitBlockRequest.ExecutionPayload payload = Some executionPayload.
Proof.
  unfold decodeSubmission, respond, ret. intros H.
  destruct body; case_handler; split; try reflexivity; intros ? ? ? [=]; subst; auto.
Qed.

Lemma rejectDeliveredSlot_frame message env f0 f1 o :
  rejectDeliveredSlot message env f0 = (f1, o) -> f1 = f0.
Proof.
  unfold rejectDeliveredSlot, bind, get, respond, ret. intros H.
  case_handler; reflexivity.
Qed.

Lemma checkSubmission_frame api payload message executionPayload env f0 f1 o :
  checkSubmission api payload message executionPayload env f0 = (f1, o) ->
  tracedFrom isCheckEffect f0 f1.
Proof.
  unfold checkSubmission, bind, modify, respond, ret. intros H.
  case_handler; auto using tracedFrom_refl, tracedFrom_emit.
Qed.

Lemma checkSubmission_inv api payload message executionPayload env f0 f1 sub :
  checkSubmission api payload message executionPayload env f0 = (f1, Continue sub) ->
  sub = Submission.mk payload message executionPayload
          (lookupBuilderEntry api (BidTrace.BuilderPubkey message)) (Submission.slotDuty sub)
  /\ RelayAPI.proposerDutiesMap api !! BidTrace.Slot message = Some (Submission.slotDuty sub).
Proof.
  unfold checkSubmission, bind, modify, respond, ret. intros H.
  case_handler; auto.
Qed.

Lemma checksBeforeRandao_inv api body env f0 f1 sub :
  checksBeforeRandao api body env f0 = (f1, Continue sub) ->
  tracedFrom isCheckEffect f0 f1 /\ passedChecks api body sub.
Proof.
  unfold checksBeforeRandao, bind. intros H.
  destruct (decodeSubmission body f0) as [fa [[[payload message] ep]|w]] eqn:Hd; [|discriminate].
  apply decodeSubmission_inv in Hd as [-> Hd].
  destruct (Hd _ _ _ eq_refl) as (-> & Hm & He).
  destruct (rejectDeliveredSlot message env f0) as [fb [[]|w]] eqn:Hg; [|discriminate].
  apply rejectDeliveredSlot_frame in Hg as ->.
  split; [eapply checkSubmission_frame; eassumption|].
  apply checkSubmission_inv in H as [-> Hduty].
  unfold passedChecks. simpl. auto.
Qed.

Lemma confirmRandao_frame api sub f0 f1 o : confirmRandao api sub f0 = (f1, o) -> f1 = f0.
Proof. unfold confirmRandao, respond, ret. intros H. case_handler; reflexivity. Qed.

Lemma verifyBuilderSignature_frame env f0 f1 o :
  verifyBuilderSignature env f0 = (f1, o) -> f1 = f0.
Proof. unfold verifyBuilderSignature, respond, ret. intros H. case_handler; reflexivity. Qed.

Lemma checksBeforeSimulation_inv api body env f0 f1 sub :
  checksBeforeSimulation api body env f0 = (f1, Continue sub) ->
  tracedFrom isCheckEffect f0 f1 /\ passedChecks api body sub.
Proof.
  unfold checksBeforeSimulation, bind. intros H.
  destruct (checksBeforeRandao api body env f0) as [fa [sub'|w]] eqn:Hc; [|discriminate].
  destruct (confirmRandao api sub' fa) as [fb [[]|w]] eqn:Hr; [|discriminate].
  destruct (verifyBuilderSignature env fb) as [fc [[]|w]] eqn:Hv; [|discriminate].
  apply confirmRandao_frame in Hr as ->. apply verifyBuilderSignature_frame in Hv as ->.
  unfold ret in H. injection H as -> ->.
  now apply checksBeforeRandao_inv in Hc.
Qed.

(** ** After the checks *)

Lemma ensureLatest_frame sub env f0 f1 o : ensureLatest sub env f0 = (f1, o) -> f1 = f0.
Proof. unfold ensureLatest, bind, get, respond, ret. intros H. case_handler; reflexivity. Qed.

Lemma prepareResponses_frame api sub env f0 f1 o :
  prepareResponses api sub env f0 = (f1, o) -> f1 = f0.
Proof. unfold prepareResponses, respond, ret. intros H. case_handler; reflexivity. Qed.

Lemma redisWrite_inv op event f0 f1 o :
  redisWrite op event f0 = (f1, o) ->
  f1 = Frame.emit (event (op (Frame.redis f0)).2)
         (Frame.withStores f0 (Stores.withRedis (Frame.stores f0) (op (Frame.redis f0)).1))
  /\ o = match (op (Frame.redis f0)).2 with
         | Some e => Return (RespondError StatusInternalServerError e)
         | None => Continue tt
         end.
Proof.
  unfold redisWrite, bind, get, modify, respond, ret. intros H.
  destruct (op (Frame.redis f0)) as [r [e|]] eqn:E; simpl in *; inversion H; subst; auto.
Qed.

Lemma storedFrom_refl f : storedFrom f f.
Proof.
  repeat split. exists []. split; [now rewrite app_nil_r|constructor].
Qed.

Lemma storedFrom_trans f0 f1 f2 : storedFrom f0 f1 -> storedFrom f1 f2 -> storedFrom f0 f2.
Proof.
  intros (Hd & Hst & Hs & Ho & w1 & He1 & Hw1) (Hd' & Hst' & Hs' & Ho' & w2 & He2 & Hw2).
  repeat split; try congruence.
  exists (w1 ++ w2). split.
  - rewrite He2, He1. now rewrite app_assoc.
  - now apply Forall_app.
Qed.

Lemma redisWrite_stored op event f0 f1 o :
  (forall err, isCacheWrite (event err) = true) ->
  (forall r, Redis.stats (op r).1 = Redis.stats r) ->
  redisWrite op event f0 = (f1, o) -> storedFrom f0 f1.
Proof.
  intros Hk Hst H. apply redisWrite_inv in H as [-> _].
  repeat split; [apply Hst|]. exists [event (op (Frame.redis f0)).2]. split; [reflexivity|].
  constructor; [apply Hk|constructor].
Qed.

Ltac bid_store_write :=
  first [ reflexivity
        | let r := fresh "r" in
          intros r;
          unfold Redis.SaveBidTrace, Redis.SaveExecutionPayload, Redis.SaveLatestBuilderBid,
            Redis.UpdateTopBid;
          repeat match goal with
            | |- context [match ?x with _ => _ end] => destruct x
            end; reflexivity ].

Lemma bind_inv {S A B} (m : @Handler S A) (k : A -> @Handler S B) s s2 o :
  bind m k s = (s2, o) ->
  (exists s1 a, m s = (s1, Continue a) /\ k a s1 = (s2, o))
  \/ (exists w, m s = (s2, Return w) /\ o = Return w).
Proof.
  unfold bind. destruct (m s) as [s1 [a|w]]; intros H.
  - left. eauto.
  - right. inversion H; subst. eauto.
Qed.

Tactic Notation "bind_cases" hyp(H) "as" ident(H1) :=
  let s1 := fresh "f" in
  let a := fresh "a" in
  let w := fresh "w" in
  let Ho := fresh "Ho" in
  apply bind_inv in H as [(s1 & a & H1 & H)|(w & H1 & Ho)];
  [|first [discriminate Ho | match type of Ho with ?x = _ => subst x end]].

Lemma saveToRedis_stored sub env h p t f0 f1 o :
  saveToRedis sub env h p t f0 = (f1, o) -> storedFrom f0 f1.
Proof.
  unfold saveToRedis. intros H.
  bind_cases H as H1; apply redisWrite_stored in H1; try bid_store_write; [|assumption].
  bind_cases H as H2; apply redisWrite_stored in H2; try bid_store_write;
    [|eauto using storedFrom_trans].
  bind_cases H as H3; apply redisWrite_stored in H3; try bid_store_write;
    [|eauto using storedFrom_trans].
  apply redisWrite_stored in H; try bid_store_write.
  eauto using storedFrom_trans.
Qed.

Lemma storeSubmission_stored api sub env f0 f1 o :
  storeSubmission api sub env f0 = (f1, o) -> storedFrom f0 f1.
Proof.
  unfold storeSubmission. intros H.
  bind_cases H as H1; apply ensureLatest_frame in H1 as ->; [|apply storedFrom_refl].
  bind_cases H as H2; apply prepareResponses_frame in H2 as ->; [|apply storedFrom_refl].
  destruct a0 as [[h p] t].
  bind_cases H as H3; apply saveToRedis_stored in H3; [|assumption].
  bind_cases H as H4; unfold modify in H4; inversion H4; subst; clear H4.
  unfold respond in H. inversion H; subst; clear H.
  destruct H3 as (Hd & Hst & Hs & Ho & writes & He & Hw).
  repeat split; auto. exists writes. auto.
Qed.

Lemma saveSubmission_frame sub env f :
  Frame.redis (saveSubmission sub env f) = Frame.redis f
  /\ Frame.simErr (saveSubmission sub env f) = Frame.simErr f
  /\ Frame.optimisticSubmission (saveSubmission sub env f) = Frame.optimisticSubmission f
  /\ Frame.eligibleAt (saveSubmission sub env f) = Frame.eligibleAt f
  /\ exists audits, effectsOf (saveSubmission sub env f) = effectsOf f ++ audits
                     /\ Forall (fun e => isAuditWrite e = true) audits.
Proof.
  unfold saveSubmission.
  destruct (Database.SaveBuilderBlockSubmission _ _ _ _ _ _ _) as [d [err|entry]].
  - repeat split. eexists [_]. split; [reflexivity|]. repeat constructor.
  - match goal with
    | |- context [Database.UpsertBlockBuilderEntryAfterSubmission ?a ?b ?c ?d] =>
        destruct (Database.UpsertBlockBuilderEntryAfterSubmission a b c d) as [d' err]
    end.
    repeat split. eexists [_; _]. split.
    + unfold effectsOf. simpl. rewrite <- app_assoc. reflexivity.
    + repeat constructor.
Qed.

(** ** C1: the collateral branch *)

Lemma Cmp_pos a b : (0 <? Cmp a b) = true <-> a > b.
Proof.
  unfold Cmp. destruct (Z.compare_spec a b) as [E|E|E]; split; intros H;
    try discriminate; try lia; reflexivity.
Qed.

Lemma sufficientCollateral_spec api body sub :
  passedChecks api body sub ->
  sufficientCollateral api sub = true <-> optimisticCondition api sub.
Proof.
  intros (_ & _ & _ & Hentry & _).
  unfold sufficientCollateral, optimisticCondition. rewrite Hentry.
  rewrite !andb_true_iff, negb_true_iff, Cmp_pos, Z.eqb_eq. tauto.
Qed.

Lemma processSubmission_optimistic api sub env f0 f o :
  sufficientCollateral api sub = true ->
  processSubmission api sub env f0 = (f, o) ->
  Frame.optimisticSubmission f = true
  /\ exists writes audits,
       effectsOf f = effectsOf f0 ++ [Go (GoProcessOptimisticBlock (simulationRequest sub))]
                       ++ writes ++ audits
       /\ Forall (fun e => isCacheWrite e = true) writes
       /\ Forall (fun e => isAuditWrite e = true) audits.
Proof.
  intros Hc. unfold processSubmission, withDefer, simulateSubmission.
  rewrite Hc. unfold bind, modify. cbv beta iota zeta.
  destruct (storeSubmission _ _ _ _) as [f' o'] eqn:Hs. intros [= <- <-].
  apply storeSubmission_stored in Hs as (_ & _ & _ & Ho & writes & He & Hw).
  destruct (saveSubmission_frame sub env f') as (_ & _ & Ho' & _ & audits & He' & Ha).
  split; [now rewrite Ho', Ho|].
  exists writes, audits. repeat split; auto.
  rewrite He', He. unfold effectsOf. simpl. now rewrite <- !app_assoc.
Qed.

Lemma processSubmission_synchronous api sub env f0 f o :
  sufficientCollateral api sub = false ->
  processSubmission api sub env f0 = (f, o) ->
  Frame.optimisticSubmission f = Frame.optimisticSubmission f0
  /\ (exists writes audits,
        effectsOf f = effectsOf f0 ++ [BlockSimSend (simulationRequest sub)]
                        ++ writes ++ audits
        /\ Forall (fun e => isCacheWrite e = true) writes
        /\ Forall (fun e => isAuditWrite e = true) audits
        /\ forall err, SubmitEnv.blockSim env = Some err -> err <> ErrBlockAlreadyKnown ->
             writes = [])
  /\ forall err, SubmitEnv.blockSim env = Some err -> err <> ErrBlockAlreadyKnown ->
       o = Return (RespondError StatusBadRequest err) /\ Frame.redis f = Frame.redis f0.
Proof.
  intros Hc. unfold processSubmission, withDefer, simulateSubmission.
  rewrite Hc. unfold simulateBlock, bind, get, modify, ret, respond.
  destruct (SubmitEnv.blockSim env) as [e|] eqn:Hsim;
    [destruct (decide (e <> ErrBlockAlreadyKnown)) as [Hne|Heq]|];
    cbv beta iota zeta.
  - (* the simulation failed *)
    intros [= <- <-].
    match goal with
    | |- context [saveSubmission sub env ?g] =>
        destruct (saveSubmission_frame sub env g) as (Hr & _ & Ho & _ & audits & He & Ha)
    end.
    split; [now rewrite Ho|]. split.
    + exists [], audits. repeat split; auto.
      rewrite He. unfold effectsOf. simpl. now rewrite <- !app_assoc.
    + intros err [= <-] _. split; [reflexivity|]. now rewrite Hr.
  - (* block already known *)
    destruct (storeSubmission _ _ _ _) as [f' o'] eqn:Hs. intros [= <- <-].
    apply storeSubmission_stored in Hs as (_ & _ & _ & Ho & writes & He & Hw).
    destruct (saveSubmission_frame sub env f') as (_ & _ & Ho' & _ & audits & He' & Ha).
    split; [now rewrite Ho', Ho|]. split.
    + exists writes, audits. repeat split; auto.
      * rewrite He', He. unfold effectsOf. simpl. now rewrite <- !app_assoc.
      * intros err [= <-] Hne. exfalso. apply Heq. assumption.
    + intros err [= <-] Hne. exfalso. apply Heq. assumption.
  - destruct (storeSubmission _ _ _ _) as [f' o'] eqn:Hs. intros [= <- <-].
    apply storeSubmission_stored in Hs as (_ & _ & _ & Ho & writes & He & Hw).
    destruct (saveSubmission_frame sub env f') as (_ & _ & Ho' & _ & audits & He' & Ha).
    split; [now rewrite Ho', Ho|]. split.
    + exists writes, audits. repeat split; auto.
      * rewrite He', He. unfold effectsOf. simpl. now rewrite <- !app_assoc.
      * intros err [=].
    + intros err [=].
Qed.

Lemma Forall_kind_excludes (k1 k2 : Effect -> bool) l :
  (forall e, k1 e = true -> k2 e = false) ->
  Forall (fun e => k1 e = true) l -> Forall (fun e => k2 e = false) l.
Proof. intros Hk Hl. eapply Forall_impl; [exact Hl|exact Hk]. Qed.

Ltac kinds_disjoint :=
  let e := fresh "e" in
  intros e; destruct e as [[]| | | | | | | | | | | | | |]; simpl; congruence.

Lemma updateOptimisticSlot_slot api headSlot d fail :
  RelayAPI.optimisticSlot (updateOptimisticSlot api headSlot d fail) = u64 (headSlot + 1).
Proof.
  unfold updateOptimisticSlot.
  destruct (Database.GetBlockBuilders d fail) as [builders [err|]]; reflexivity.
Qed.

Lemma checksBeforeSimulation_blockSim api body env sim :
  checksBeforeSimulation api body (SubmitEnv.withBlockSim env sim)
  = checksBeforeSimulation api body env.
Proof. reflexivity. Qed.

Lemma handleSubmitNewBlock_reached api body env r d f1 sub :
  checksBeforeSimulation api body env (Frame.init (Stores.mk r d [])) = (f1, Continue sub) ->
  handleSubmitNewBlock api body env r d = answer (processSubmission api sub env f1).
Proof.
  intros H. unfold handleSubmitNewBlock, submitNewBlock.
  now rewrite (bind_Continue _ _ _ _ _ H).
Qed.

(** C1. A submission that reaches the collateral branch of
    handleSubmitNewBlock is processed optimistically (its simulation is
    started as a goroutine, the handler itself sends nothing to the simulator
    and its result does not depend on the simulator's answer) if and only if
    the builder's cached collateral is strictly greater than the submission's
    value, the cached demoted bit is false and the submission's slot is the
    optimistic slot, which updateOptimisticSlot sets to head slot + 1;
    otherwise the block is simulated by the handler, and a failed simulation
    is answered with 400 without any write to the bid store. *)
Theorem optimistic_iff_collateral_exceeds_value api body env r d f1 sub :
  checksBeforeSimulation api body env (Frame.init (Stores.mk r d [])) = (f1, Continue sub) ->
  let f := (handleSubmitNewBlock api body env r d).1 in
  let w := (handleSubmitNewBlock api body env r d).2 in
  (Frame.optimisticSubmission f = true <-> optimisticCondition api sub)
  /\ (optimisticCondition api sub ->
      In (Go (GoProcessOptimisticBlock (simulationRequest sub))) (effectsOf f)
      /\ Forall (fun e => isSimulation e = false) (effectsOf f)
      /\ forall sim, handleSubmitNewBlock api body (SubmitEnv.withBlockSim env sim) r d
                     = handleSubmitNewBlock api body env r d)
  /\ (~ optimisticCondition api sub ->
      In (BlockSimSend (simulationRequest sub)) (effectsOf f)
      /\ Forall (fun e => isOptimisticStart e = false) (effectsOf f)
      /\ forall err, SubmitEnv.blockSim env = Some err -> err <> ErrBlockAlreadyKnown ->
           w = RespondError StatusBadRequest err
           /\ Frame.redis f = r
           /\ Forall (fun e => isCacheWrite e = false) (effectsOf f))
  /\ (forall headSlot fail,
        RelayAPI.optimisticSlot (updateOptimisticSlot api headSlot d fail) = u64 (headSlot + 1)).
Proof.
  intros H f w.
  destruct (checksBeforeSimulation_inv _ _ _ _ _ _ H) as [(extra & Hf1 & Hextra) Hpassed].
  assert (Hspec := sufficientCollateral_spec _ _ _ Hpassed).
  assert (Hrun := handleSubmitNewBlock_reached _ _ _ _ _ _ _ H).
  assert (He1 : effectsOf f1 = extra) by (rewrite Hf1; reflexivity).
  assert (Ho1 : Frame.optimisticSubmission f1 = false) by (rewrite Hf1; reflexivity).
  assert (Hr1 : Frame.redis f1 = r) by (rewrite Hf1; reflexivity).
  subst f w. rewrite Hrun.
  destruct (processSubmission api sub env f1) as [f o] eqn:Hp.
  assert (Hfst : (answer (f, o)).1 = f) by (destruct o; reflexivity).
  rewrite Hfst.
  destruct (sufficientCollateral api sub) eqn:Hc.
  - (* optimistic *)
    destruct (processSubmission_optimistic _ _ _ _ _ _ Hc Hp)
      as (Ho & writes & audits & He & Hw & Ha).
    rewrite He1 in He.
    split; [|split; [|split]].
    + split; [intros _; now apply Hspec|intros _; exact Ho].
    + intros _. split; [|split].
      * rewrite He. apply in_or_app. right. now left.
      * rewrite He. repeat (apply Forall_app; split).
        -- revert Hextra. apply Forall_kind_excludes. kinds_disjoint.
        -- repeat constructor.
        -- revert Hw. apply Forall_kind_excludes. kinds_disjoint.
        -- revert Ha. apply Forall_kind_excludes. kinds_disjoint.
      * intros sim.
        assert (H' : checksBeforeSimulation api body (SubmitEnv.withBlockSim env sim)
                       (Frame.init (Stores.mk r d [])) = (f1, Continue sub))
          by (rewrite checksBeforeSimulation_blockSim; exact H).
        rewrite (handleSubmitNewBlock_reached _ _ _ _ _ _ _ H').
        replace (processSubmission api sub (SubmitEnv.withBlockSim env sim) f1)
          with (processSubmission api sub env f1);
          [now rewrite Hp|].
        unfold processSubmission, withDefer, simulateSubmission. rewrite Hc. reflexivity.
    + intros Hn. exfalso. apply Hn. now apply Hspec.
    + intros headSlot fail. apply updateOptimisticSlot_slot.
  - (* synchronous *)
    assert (Hnot : ~ optimisticCondition api sub)
      by (intros Hcond; apply Hspec in Hcond; congruence).
    destruct (processSubmission_synchronous _ _ _ _ _ _ Hc Hp)
      as (Ho & (writes & audits & He & Hw & Ha & Hnone) & Hfail).
    rewrite He1 in He.
    split; [|split; [|split]].
    + split; [intros Ht; congruence|intros Hcond; contradiction].
    + intros Hcond. contradiction.
    + intros _. split; [|split].
      * rewrite He. apply in_or_app. right. now left.
      * rewrite He. repeat (apply Forall_app; split).
        -- revert Hextra. apply Forall_kind_excludes. kinds_disjoint.
        -- repeat constructor.
        -- revert Hw. apply Forall_kind_excludes. kinds_disjoint.
        -- revert Ha. apply Forall_kind_excludes. kinds_disjoint.
      * intros err Hsim Hne. destruct (Hfail err Hsim Hne) as [-> Hredis].
        split; [reflexivity|]. split; [now rewrite Hredis|].
        rewrite He, (Hnone err Hsim Hne). repeat (apply Forall_app; split).
        -- revert Hextra. apply Forall_kind_excludes. kinds_disjoint.
        -- repeat constructor.
        -- constructor.
        -- revert Ha. apply Forall_kind_excludes. kinds_disjoint.
    + intros headSlot fail. apply updateOptimisticSlot_slot.
Qed.

Lemma optimistic_iff_collateral_exceeds_value_witness :
  let f := (handleSubmitNewBlock (Scenario.api 100 false) (Decoded (Scenario.payload 101 10))
              (Scenario.env (Some "invalid block"%string) None) Redis.empty Database.empty).1 in
  Frame.optimisticSubmission f = true
  /\ In (Go (GoProcessOptimisticBlock
              (blockSimOptions.mk true
                 (BuilderBlockValidationRequest.mk (Scenario.payload 101 10) 30000000))))
        (effectsOf f)
  /\ Forall (fun e => isSimulation e = false) (effectsOf f).
Proof.
  pose proof (optimistic_iff_collateral_exceeds_value
                (Scenario.api 100 false) (Decoded (Scenario.payload 101 10))
                (Scenario.env (Some "invalid block"%string) None) Redis.empty Database.empty
                (Frame.init (Stores.mk Redis.empty Database.empty []))
                (Submission.mk (Scenario.payload 101 10) (Scenario.message 101 10)
                   (Scenario.executionPayload 101)
                   (blockBuilderCacheEntry.mk (BuilderStatus.mk true false false) 100)
                   Scenario.duty)
                eq_refl) as (Hiff & Hopt & _).
  assert (Hcond : optimisticCondition (Scenario.api 100 false)
                    (Submission.mk (Scenario.payload 101 10) (Scenario.message 101 10)
                       (Scenario.executionPayload 101)
                       (blockBuilderCacheEntry.mk (BuilderStatus.mk true false false) 100)
                       Scenario.duty)).
  { unfold optimisticCondition. vm_compute. repeat split; congruence. }
  destruct (Hopt Hcond) as (Hin & Hnosim & _).
  split; [now apply Hiff|]. split; [exact Hin|exact Hnosim].
Defined.

(** ** C9 and C2: the delivered-slot gate *)

Lemma submitNewBlock_decoded api payload message executionPayload env f :
  BuilderSubmitBlockRequest.Message payload = Some message ->
  BuilderSubmitBlockRequest.ExecutionPayload payload = Some executionPayload ->
  submitNewBlock api (Decoded payload) env f
  = (do _ <- rejectDeliveredSlot message env ;
     afterDeliveredSlotGate api payload message executionPayload env) f.
Proof.
  intros Hm He.
  unfold submitNewBlock, checksBeforeSimulation, checksBeforeRandao, afterDeliveredSlotGate,
    decodeSubmission.
  rewrite Hm, He. unfold bind, ret.
  destruct (rejectDeliveredSlot message env f) as [f1 [[]|w]]; [|reflexivity].
  destruct (checkSubmission api payload message executionPayload env f1) as [f2 [sub|w]];
    [|reflexivity].
  destruct (confirmRandao api sub f2) as [f3 [[]|w]]; [|reflexivity].
  destruct (verifyBuilderSignature env f3) as [f4 [[]|w]]; reflexivity.
Qed.

Lemma rejectDeliveredSlot_unreadable message env f :
  markerUnreadable (Frame.redis f) env ->
  rejectDeliveredSlot message env f = (f, Continue tt).
Proof.
  unfold markerUnreadable, rejectDeliveredSlot, bind, get, ret.
  destruct (Redis.GetStats _ _ _) as [slotStr err]. simpl.
  intros [[e ->]|Hparse]; [reflexivity|].
  rewrite Hparse. destruct err as [[|e]|]; reflexivity.
Qed.

(** C9. When the read of the last-delivered-slot marker returns a transport
    error, or a value that does not parse as an unsigned integer,
    handleSubmitNewBlock does not reject the submission at the delivered-slot
    gate: the gate goes on without a response, and the handler is what its
    remaining stages make of the submission. *)
Theorem delivered_slot_gate_skipped_when_marker_unreadable
    api payload message executionPayload env r d :
  BuilderSubmitBlockRequest.Message payload = Some message ->
  BuilderSubmitBlockRequest.ExecutionPayload payload = Some executionPayload ->
  markerUnreadable r env ->
  rejectDeliveredSlot message env (Frame.init (Stores.mk r d []))
  = (Frame.init (Stores.mk r d []), Continue tt)
  /\ handleSubmitNewBlock api (Decoded payload) env r d
     = answer (afterDeliveredSlotGate api payload message executionPayload env
                 (Frame.init (Stores.mk r d []))).
Proof.
  intros Hm He Hu.
  assert (Hgate := rejectDeliveredSlot_unreadable message env
                     (Frame.init (Stores.mk r d [])) Hu).
  split; [exact Hgate|].
  unfold handleSubmitNewBlock.
  rewrite (submitNewBlock_decoded _ _ _ _ _ _ Hm He).
  now rewrite (bind_Continue _ _ _ _ _ Hgate).
Qed.

Lemma delivered_slot_gate_skipped_witness :
  let s := Scenario.deliveredRelay in
  let env := Scenario.env None (Some "i/o timeout"%string) in
  Redis.stats (Relay.redis s) !! Redis.RedisStatsFieldSlotLastPayloadDelivered
  = Some "101"%string
  /\ handleSubmitNewBlock (Relay.api s) (Decoded (Scenario.payload 101 7)) env
       (Relay.redis s) (Relay.db s)
     = answer (afterDeliveredSlotGate (Relay.api s) (Scenario.payload 101 7)
                 (Scenario.message 101 7) (Scenario.executionPayload 101) env
                 (Frame.init (Stores.mk (Relay.redis s) (Relay.db s) [])))
  /\ (handleSubmitNewBlock (Relay.api s) (Decoded (Scenario.payload 101 7)) env
        (Relay.redis s) (Relay.db s)).2 = WriteHeader StatusOK.
Proof.
  intros s env. split; [reflexivity|]. split.
  - apply (delivered_slot_gate_skipped_when_marker_unreadable (Relay.api s)
             (Scenario.payload 101 7) (Scenario.message 101 7)
             (Scenario.executionPayload 101) env (Relay.redis s) (Relay.db s)).
    + reflexivity.
    + reflexivity.
    + left. exists "i/o timeout"%string. reflexivity.
  - vm_compute. reflexivity.
Defined.

(** *** The marker under the events of the machine *)

Lemma checksBeforeRandao_frame api body env f0 f1 o :
  checksBeforeRandao api body env f0 = (f1, o) -> tracedFrom isCheckEffect f0 f1.
Proof.
  unfold checksBeforeRandao. intros H.
  bind_cases H as H1; apply decodeSubmission_inv in H1 as [-> _]; [|apply tracedFrom_refl].
  destruct a as [[payload message] ep].
  bind_cases H as H2; apply rejectDeliveredSlot_frame in H2 as ->; [|apply tracedFrom_refl].
  now apply checkSubmission_frame in H.
Qed.

Lemma checksBeforeSimulation_frame api body env f0 f1 o :
  checksBeforeSimulation api body env f0 = (f1, o) -> tracedFrom isCheckEffect f0 f1.
Proof.
  unfold checksBeforeSimulation. intros H.
  bind_cases H as H1; apply checksBeforeRandao_frame in H1; [|assumption].
  bind_cases H as H2; apply confirmRandao_frame in H2 as ->; [|assumption].
  bind_cases H as H3; apply verifyBuilderSignature_frame in H3 as ->; [|assumption].
  unfold ret in H. now inversion H; subst.
Qed.

Ltac case_goal :=
  repeat match goal with
         | |- context [match ?x with _ => _ end] => destruct x
         end.

Lemma simulateSubmission_stats api sub env f0 f o :
  simulateSubmission api sub env f0 = (f, o) ->
  Redis.stats (Frame.redis f) = Redis.stats (Frame.redis f0).
Proof.
  unfold simulateSubmission, simulateBlock, bind, get, modify, ret, respond.
  destruct (sufficientCollateral api sub); [intros [= <- <-]; reflexivity|].
  destruct (SubmitEnv.blockSim env) as [e|]; [destruct (decide _)|];
    cbv beta iota zeta; intros [= <- <-]; reflexivity.
Qed.

Lemma processSubmission_stats api sub env f0 f o :
  processSubmission api sub env f0 = (f, o) ->
  Redis.stats (Frame.redis f) = Redis.stats (Frame.redis f0).
Proof.
  unfold processSubmission, withDefer.
  destruct (bind _ _ f0) as [f' o'] eqn:Hb. intros [= <- <-].
  destruct (saveSubmission_frame sub env f') as (-> & _).
  bind_cases Hb as H1; apply simulateSubmission_stats in H1; [|assumption].
  apply storeSubmission_stored in Hb as (_ & -> & _). assumption.
Qed.

Lemma handleSubmitNewBlock_stats api body env r d :
  Redis.stats (Frame.redis (handleSubmitNewBlock api body env r d).1) = Redis.stats r.
Proof.
  unfold handleSubmitNewBlock, submitNewBlock.
  destruct (bind _ _ _) as [f o] eqn:Hb.
  assert (Hfst : (answer (f, o)).1 = f) by (destruct o; reflexivity). rewrite Hfst.
  bind_cases Hb as H1; apply checksBeforeSimulation_frame in H1 as (extra & -> & _).
  - now apply processSubmission_stats in Hb.
  - reflexivity.
Qed.

Lemma demoteBuilder_redis api pubkey req simError env s :
  Stores.redis (demoteBuilder api pubkey req simError env s) = Stores.redis s.
Proof.
  unfold demoteBuilder.
  destruct (Database.SetBlockBuilderStatus _ _ _ _) as [d1 e1]. simpl.
  destruct (Database.InsertBuilderDemotion _ _ _ _) as [d2 e2]. reflexivity.
Qed.

Lemma processOptimisticBlock_redis api opts env s :
  Stores.redis (processOptimisticBlock api opts env s) = Stores.redis s.
Proof.
  unfold processOptimisticBlock, simulateBlock.
  destruct (BuilderSubmitBlockRequest.Message _); [|reflexivity].
  destruct (OptimisticEnv.blockSim env) as [e|]; [|reflexivity].
  destruct (decide _); [|reflexivity].
  now rewrite demoteBuilder_redis.
Qed.

Lemma saveDeliveredPayload_stats payload proposerPubkey resp env s :
  Redis.stats (Stores.redis (saveDeliveredPayload payload proposerPubkey resp env s).1)
  = match DeliveredEnv.setStatsFail env with
    | Some _ => Redis.stats (Stores.redis s)
    | None => <[Redis.RedisStatsFieldSlotLastPayloadDelivered :=
                  Strconv.FormatUint (SignedBlindedBeaconBlock.Slot payload)]>
                (Redis.stats (Stores.redis s))
    end.
Proof.
  unfold saveDeliveredPayload, Redis.SetStats.
  destruct (DeliveredEnv.setStatsFail env); simpl; case_goal; reflexivity.
Qed.

Lemma step_markerAtLeast slot s e :
  noEarlierDelivery slot e ->
  markerAtLeast slot (Relay.redis s) -> markerAtLeast slot (Relay.redis (step s e)).
Proof.
  intros Hdel (m & Hm & Hle & Hstats). unfold markerAtLeast.
  destruct e; simpl; try (exists m; repeat split; [lia|lia|exact Hle|exact Hstats]).
  - exists m. repeat split; [lia|lia|exact Hle|]. now rewrite handleSubmitNewBlock_stats.
  - exists m. repeat split; [lia|lia|exact Hle|]. now rewrite processOptimisticBlock_redis.
  - rewrite saveDeliveredPayload_stats. simpl in Hdel.
    destruct (DeliveredEnv.setStatsFail env).
    + exists m. repeat split; [lia|lia|exact Hle|exact Hstats].
    + exists (SignedBlindedBeaconBlock.Slot payload). repeat split; [lia|lia|lia|].
      now rewrite lookup_insert_eq.
Qed.

Lemma runEvents_markerAtLeast slot evs s :
  Forall (noEarlierDelivery slot) evs ->
  markerAtLeast slot (Relay.redis s) -> markerAtLeast slot (Relay.redis (runEvents s evs)).
Proof.
  unfold runEvents. revert s. induction evs as [|e evs IH]; intros s Hall Hm; [exact Hm|].
  inversion Hall; subst. simpl. apply IH; [assumption|].
  now apply step_markerAtLeast.
Qed.

Lemma rejectDeliveredSlot_delivered slot message env f :
  markerAtLeast slot (Frame.redis f) ->
  SubmitEnv.getStatsFail env = None ->
  BidTrace.Slot message <= slot ->
  rejectDeliveredSlot message env f = (f, Return alreadyDelivered).
Proof.
  intros (m & Hm & Hle & Hstats) Hread Hslot.
  unfold rejectDeliveredSlot, bind, get, Redis.GetStats. rewrite Hread, Hstats.
  rewrite ParseUint_FormatUint by lia.
  destruct (BidTrace.Slot message <=? m) eqn:E; [reflexivity|].
  apply Z.leb_gt in E. lia.
Qed.

(** C2, as the code has it.  After the payload of slot [s] has been
    delivered and the marker write of getPayload succeeded, and as long as no
    later delivery for an earlier slot moves the marker back, every later
    submission that decodes with its message and execution payload, has a
    slot less than or equal to [s] and whose read of the marker succeeds, is
    rejected with 400 and the message "payload for this slot was already
    delivered"; the handler leaves both stores as they were and made no call
    at all, in particular no cache write. *)
Theorem delivered_slot_rejected_when_marker_read
    s0 blinded proposerPubkey resp denv evs payload message executionPayload env :
  DeliveredEnv.setStatsFail denv = None ->
  0 <= SignedBlindedBeaconBlock.Slot blinded < 2 ^ 64 ->
  Forall (noEarlierDelivery (SignedBlindedBeaconBlock.Slot blinded)) evs ->
  BuilderSubmitBlockRequest.Message payload = Some message ->
  BuilderSubmitBlockRequest.ExecutionPayload payload = Some executionPayload ->
  SubmitEnv.getStatsFail env = None ->
  BidTrace.Slot message <= SignedBlindedBeaconBlock.Slot blinded ->
  let s := runEvents (step s0 (EvSaveDeliveredPayload blinded proposerPubkey resp denv)) evs in
  handleSubmitNewBlock (Relay.api s) (Decoded payload) env (Relay.redis s) (Relay.db s)
  = (Frame.init (Stores.mk (Relay.redis s) (Relay.db s) []), alreadyDelivered).
Proof.
  intros Hset Hrange Hevs Hm He Hread Hslot s.
  assert (Hmarker : markerAtLeast (SignedBlindedBeaconBlock.Slot blinded) (Relay.redis s)).
  { apply runEvents_markerAtLeast; [exact Hevs|].
    exists (SignedBlindedBeaconBlock.Slot blinded). repeat split; try lia.
    simpl. rewrite saveDeliveredPayload_stats, Hset. now rewrite lookup_insert_eq. }
  unfold handleSubmitNewBlock.
  rewrite (submitNewBlock_decoded _ _ _ _ _ _ Hm He).
  erewrite bind_Return; [reflexivity|].
  now apply (rejectDeliveredSlot_delivered (SignedBlindedBeaconBlock.Slot blinded)).
Qed.

Lemma delivered_slot_rejected_witness :
  let s := Scenario.deliveredRelay in
  handleSubmitNewBlock (Relay.api s) (Decoded (Scenario.payload 101 7)) (Scenario.env None None)
    (Relay.redis s) (Relay.db s)
  = (Frame.init (Stores.mk (Relay.redis s) (Relay.db s) []), alreadyDelivered).
Proof.
  apply (delivered_slot_rejected_when_marker_read
           (step (Relay.mk (Scenario.api 0 false) Redis.empty Database.empty)
              (EvSubmitNewBlock (Decoded (Scenario.payload 101 5)) (Scenario.env None None)))
           (Scenario.blinded 101) "0xA"
           (GetPayloadResponse.mk VersionBellatrix (Some (Scenario.executionPayload 101)))
           Scenario.delivered [] (Scenario.payload 101 7) (Scenario.message 101 7)
           (Scenario.executionPayload 101) (Scenario.env None None)).
  - reflexivity.
  - simpl. lia.
  - constructor.
  - reflexivity.
  - reflexivity.
  - reflexivity.
  - simpl. lia.
Defined.

(** The claim C2 as stated fails: the payload of slot 101 was delivered and
    the marker holds 101, yet a submission for slot 101 whose marker read
    ends in a transport error is accepted, written to the bid store and
    becomes the top bid. *)
Lemma delivered_slot_accepted_when_marker_read_fails :
  let s := Scenario.deliveredRelay in
  let result := handleSubmitNewBlock (Relay.api s) (Decoded (Scenario.payload 101 9))
                  (Scenario.env None (Some "connection reset"%string))
                  (Relay.redis s) (Relay.db s) in
  Redis.stats (Relay.redis s) !! Redis.RedisStatsFieldSlotLastPayloadDelivered
  = Some (Strconv.FormatUint 101)
  /\ BidTrace.Slot (Scenario.message 101 9) <= 101
  /\ result.2 = WriteHeader StatusOK
  /\ result.2 <> alreadyDelivered
  /\ filter (fun e => isCacheWrite e = true) (effectsOf result.1)
     = [SaveBidTrace None; SaveExecutionPayload None; SaveLatestBuilderBid None;
        UpdateTopBid None]
  /\ Redis.bidValue <$> (Redis.bestBids (Frame.redis result.1) !! (101, "0xaa", "0xA")%string)
     = Some 9.
Proof.
  vm_compute. repeat split; try reflexivity; discriminate.
Qed.

(** ** C3: demotion *)

(** *** The demoted bit in the durable store *)

Lemma SetBlockBuilderStatus_demoted d pubkey st fail b :
  BuilderStatus.IsDemoted st = true ->
  dbDemoted d b -> dbDemoted (Database.SetBlockBuilderStatus d pubkey st fail).1 b.
Proof.
  intros Hst (e & He & Hd). unfold Database.SetBlockBuilderStatus, dbDemoted.
  destruct fail; [eauto|].
  destruct (Database.blockBuilders d !! pubkey) as [target|]; [|eauto]. simpl.
  destruct (decide _).
  - destruct (decide (pubkey = b)) as [->|Hne].
    + rewrite lookup_alter_eq, He. simpl. eauto.
    + rewrite lookup_alter_ne by assumption. eauto.
  - rewrite lookup_fmap, He. simpl. destruct (decide _); eauto.
Qed.

Lemma SetBlockBuilderStatus_sets d pubkey st e :
  Database.blockBuilders d !! pubkey = Some e ->
  BuilderStatus.IsDemoted st = true ->
  dbDemoted (Database.SetBlockBuilderStatus d pubkey st None).1 pubkey.
Proof.
  intros He Hst. unfold Database.SetBlockBuilderStatus, dbDemoted. rewrite He. simpl.
  destruct (decide _).
  - rewrite lookup_alter_eq, He. simpl. eauto.
  - rewrite lookup_fmap, He. simpl. destruct (decide _); [eauto|congruence].
Qed.

Lemma UpsertBlockBuilderEntryAfterSubmission_demoted d entry isError fail b :
  dbDemoted d b ->
  dbDemoted (Database.UpsertBlockBuilderEntryAfterSubmission d entry isError fail).1 b.
Proof.
  intros (e & He & Hd). unfold Database.UpsertBlockBuilderEntryAfterSubmission, dbDemoted.
  destruct fail; [eauto|].
  destruct (BuilderSubmitBlockRequest.Message _) as [m|]; [|eauto]. simpl.
  destruct (decide (BidTrace.BuilderPubkey m = b)) as [->|Hne].
  - rewrite lookup_insert_eq, He. eauto.
  - rewrite lookup_insert_ne by assumption. eauto.
Qed.

Lemma saveSubmission_demoted sub env f b :
  dbDemoted (Frame.db f) b -> dbDemoted (Frame.db (saveSubmission sub env f)) b.
Proof.
  intros H. unfold saveSubmission, Database.SaveBuilderBlockSubmission.
  destruct (SubmitEnv.saveSubmissionFail env); [exact H|].
  match goal with
  | |- context [Database.UpsertBlockBuilderEntryAfterSubmission ?a ?e ?i ?x] =>
      assert (Hu := UpsertBlockBuilderEntryAfterSubmission_demoted a e i x b);
      destruct (Database.UpsertBlockBuilderEntryAfterSubmission a e i x) as [d' err]
  end.
  apply Hu. exact H.
Qed.

Lemma simulateSubmission_db api sub env f0 f o :
  simulateSubmission api sub env f0 = (f, o) -> Frame.db f = Frame.db f0.
Proof.
  unfold simulateSubmission, simulateBlock, bind, get, modify, ret, respond.
  destruct (sufficientCollateral api sub); [intros [= <- <-]; reflexivity|].
  destruct (SubmitEnv.blockSim env) as [e|]; [destruct (decide _)|];
    cbv beta iota zeta; intros [= <- <-]; reflexivity.
Qed.

Lemma handleSubmitNewBlock_demoted api body env r d b :
  dbDemoted d b -> dbDemoted (Frame.db (handleSubmitNewBlock api body env r d).1) b.
Proof.
  intros H. unfold handleSubmitNewBlock, submitNewBlock.
  destruct (bind _ _ _) as [f o] eqn:Hb.
  assert (Hfst : (answer (f, o)).1 = f) by (destruct o; reflexivity). rewrite Hfst.
  bind_cases Hb as H1; apply checksBeforeSimulation_frame in H1 as (extra & -> & _);
    [|exact H].
  revert Hb. unfold processSubmission, withDefer.
  destruct (bind _ _ _) as [f' o'] eqn:Hb. intros [= <- <-].
  apply saveSubmission_demoted.
  bind_cases Hb as H1; apply simulateSubmission_db in H1.
  - apply storeSubmission_stored in Hb as (-> & _). now rewrite H1.
  - now rewrite H1.
Qed.

Lemma demoteBuilder_demoted api pubkey req simError env s b :
  dbDemoted (Stores.db s) b ->
  dbDemoted (Stores.db (demoteBuilder api pubkey req simError env s)) b.
Proof.
  intros H. unfold demoteBuilder.
  match goal with
  | |- context [Database.SetBlockBuilderStatus ?a ?p ?st ?x] =>
      assert (Hs := SetBlockBuilderStatus_demoted a p st x b eq_refl H);
      destruct (Database.SetBlockBuilderStatus a p st x) as [d1 e1]
  end.
  simpl in *. unfold Database.InsertBuilderDemotion.
  destruct (DemoteEnv.insertDemotionFail env); [exact Hs|].
  destruct (BuilderSubmitBlockRequest.Message req); exact Hs.
Qed.

Lemma processOptimisticBlock_demoted api opts env s b :
  dbDemoted (Stores.db s) b ->
  dbDemoted (Stores.db (processOptimisticBlock api opts env s)) b.
Proof.
  intros H. unfold processOptimisticBlock, simulateBlock.
  destruct (BuilderSubmitBlockRequest.Message _); [|exact H].
  destruct (OptimisticEnv.blockSim env) as [e|]; [|exact H].
  destruct (decide _); [|exact H].
  now apply demoteBuilder_demoted.
Qed.

Lemma SaveDeliveredPayload_builders d bidTrace payload fail :
  Database.blockBuilders (Database.SaveDeliveredPayload d bidTrace payload fail).1
  = Database.blockBuilders d.
Proof. unfold Database.SaveDeliveredPayload. destruct fail; reflexivity. Qed.

Lemma UpdateBuilderDemotion_builders d trace block reg fail :
  Database.blockBuilders (Database.UpdateBuilderDemotion d trace block reg fail).1
  = Database.blockBuilders d.
Proof. unfold Database.UpdateBuilderDemotion. destruct fail; reflexivity. Qed.

Lemma IncBlockBuilderStatsAfterGetPayload_demoted d pubkey fail b :
  dbDemoted d b -> dbDemoted (Database.IncBlockBuilderStatsAfterGetPayload d pubkey fail).1 b.
Proof.
  intros (e & He & Hd). unfold Database.IncBlockBuilderStatsAfterGetPayload, dbDemoted.
  destruct fail; [eauto|]. simpl.
  destruct (decide (pubkey = b)) as [->|Hne].
  - rewrite lookup_alter_eq, He. simpl. eauto.
  - rewrite lookup_alter_ne by assumption. eauto.
Qed.

Lemma dbDemoted_builders d d' b :
  Database.blockBuilders d' = Database.blockBuilders d -> dbDemoted d b -> dbDemoted d' b.
Proof. unfold dbDemoted. now intros ->. Qed.

Lemma saveDeliveredPayload_demoted payload proposerPubkey resp env s b :
  dbDemoted (Stores.db s) b ->
  dbDemoted (Stores.db (saveDeliveredPayload payload proposerPubkey resp env s).1) b.
Proof.
  intros H. unfold saveDeliveredPayload.
  destruct (Redis.SetStats _ _ _ _) as [r err]. simpl.
  destruct (Redis.GetBidTrace _ _ _ _ _) as [bidTrace err'].
  match goal with
  | |- context [Database.SaveDeliveredPayload ?d ?t ?p ?x] =>
      assert (H1 := dbDemoted_builders _ _ b (SaveDeliveredPayload_builders d t p x) H);
      destruct (Database.SaveDeliveredPayload d t p x) as [d1 e1]
  end.
  simpl in *. destruct bidTrace as [bidTrace|]; [|exact H1].
  match goal with
  | |- context [Database.IncBlockBuilderStatsAfterGetPayload ?d ?p ?x] =>
      assert (H2 := IncBlockBuilderStatsAfterGetPayload_demoted d p x b H1);
      destruct (Database.IncBlockBuilderStatsAfterGetPayload d p x) as [d2 e2]
  end.
  simpl in *.
  destruct (Database.GetBuilderDemotion _ _ _) as [entry [err2|]]; [exact H2|].
  destruct (Database.GetValidatorRegistration _ _ _) as [reg err3].
  match goal with
  | |- context [Database.UpdateBuilderDemotion ?d ?t ?k ?g ?x] =>
      assert (H3 := dbDemoted_builders _ _ b (UpdateBuilderDemotion_builders d t k g x) H2);
      destruct (Database.UpdateBuilderDemotion d t k g x) as [d3 e3]
  end.
  exact H3.
Qed.

Lemma step_dbDemoted s e b : dbDemoted (Relay.db s) b -> dbDemoted (Relay.db (step s e)) b.
Proof.
  intros H. destruct e; simpl; try exact H.
  - now apply handleSubmitNewBlock_demoted.
  - now apply processOptimisticBlock_demoted.
  - now apply saveDeliveredPayload_demoted.
Qed.

Lemma runEvents_dbDemoted evs s b :
  dbDemoted (Relay.db s) b -> dbDemoted (Relay.db (runEvents s evs)) b.
Proof.
  unfold runEvents. revert s. induction evs as [|e evs IH]; intros s H; [exact H|].
  simpl. apply IH. now apply step_dbDemoted.
Qed.

(** *** The demoted bit in the builder cache *)

Lemma refresh_demoted (l : list Database.BlockBuilderEntry.t)
    (cache : gmap string blockBuilderCacheEntry.t) b :
  (forall v, v ∈ l -> Database.BlockBuilderEntry.BuilderPubkey v = b ->
             Database.BlockBuilderEntry.IsDemoted v = true) ->
  (exists v, v ∈ l /\ Database.BlockBuilderEntry.BuilderPubkey v = b)
  \/ (exists e, cache !! b = Some e
                /\ BuilderStatus.IsDemoted (blockBuilderCacheEntry.status e) = true) ->
  exists e,
    foldl (fun c v => <[Database.BlockBuilderEntry.BuilderPubkey v := cacheEntryOf v]> c)
      cache l !! b = Some e
    /\ BuilderStatus.IsDemoted (blockBuilderCacheEntry.status e) = true.
Proof.
  revert cache. induction l as [|v l IH]; intros cache Hall Hsome.
  - destruct Hsome as [(v & Hv & _)|H]; [|exact H]. now apply elem_of_nil in Hv.
  - simpl. apply IH.
    + intros v' Hv'. apply Hall. now right.
    + destruct (decide (Database.BlockBuilderEntry.BuilderPubkey v = b)) as [Heq|Hne].
      * right. exists (cacheEntryOf v). rewrite <- Heq at 1. rewrite lookup_insert_eq.
        split; [reflexivity|]. simpl. apply Hall; [now left|exact Heq].
      * destruct Hsome as [(v' & Hv' & Hpk)|(e & He & Hd)].
        -- left. exists v'. split; [|exact Hpk].
           apply elem_of_cons in Hv' as [->|Hv']; [contradiction|exact Hv'].
        -- right. exists e. now rewrite lookup_insert_ne.
Qed.

Lemma GetBlockBuilders_elem d v :
  v ∈ (Database.GetBlockBuilders d None).1 <->
  exists row, Database.blockBuilders d !! Database.BlockBuilderEntry.BuilderPubkey v = Some row
              /\ v = Database.BlockBuilderEntry.withPubkey row
                       (Database.BlockBuilderEntry.BuilderPubkey v).
Proof.
  unfold Database.GetBlockBuilders. simpl. rewrite list_elem_of_fmap. split.
  - intros ([k row] & -> & Hin). apply elem_of_map_to_list in Hin. simpl. eauto.
  - intros (row & Hrow & Hv). exists (Database.BlockBuilderEntry.BuilderPubkey v, row).
    split; [exact Hv|]. now apply elem_of_map_to_list.
Qed.

Lemma updateOptimisticSlot_demoted api headSlot d fail b :
  dbDemoted d b ->
  fail = None \/ cacheDemoted api b ->
  cacheDemoted (updateOptimisticSlot api headSlot d fail) b.
Proof.
  intros (row & Hrow & Hd) Hor. unfold updateOptimisticSlot, cacheDemoted.
  destruct fail as [err|].
  - destruct Hor as [|H]; [discriminate|exact H].
  - change (Database.GetBlockBuilders d None)
      with ((Database.GetBlockBuilders d None).1, @None string).
    simpl RelayAPI.blockBuildersCache. apply refresh_demoted.
    + intros v Hv Hpk. apply GetBlockBuilders_elem in Hv as (row' & Hrow' & ->).
      simpl in Hpk. rewrite Hpk, Hrow in Hrow'. injection Hrow' as <-. exact Hd.
    + left. exists (Database.BlockBuilderEntry.withPubkey row b). split; [|reflexivity].
      apply GetBlockBuilders_elem. exists row. now split.
Qed.

Lemma handleRegisterValidator_cache api body r start :
  RelayAPI.blockBuildersCache (RegisterState.api (handleRegisterValidator api body r start))
  = RelayAPI.blockBuildersCache api.
Proof.
  unfold handleRegisterValidator. destruct body as [|err|elements traverseErr]; try reflexivity.
  assert (H : forall st,
             RelayAPI.blockBuildersCache
               (RegisterState.api (foldl (registerValidator r start) st elements))
             = RelayAPI.blockBuildersCache (RegisterState.api st)).
  { induction elements as [|x xs IH]; intros st; [reflexivity|].
    simpl. rewrite IH. unfold registerValidator, respondError, apiRespondError.
    repeat match goal with
           | |- context [match ?x with _ => _ end] => destruct x; simpl
           end; reflexivity. }
  destruct traverseErr; simpl; apply H.
Qed.

Lemma step_cacheDemoted s e b :
  dbDemoted (Relay.db s) b -> cacheDemoted (Relay.api s) b ->
  cacheDemoted (Relay.api (step s e)) b.
Proof.
  intros Hdb Hc. destruct e; simpl; try exact Hc.
  - unfold processNewSlot. destruct (_ <=? _); [exact Hc|].
    destruct (RelayAPI.optsBlockBuilderAPI _); exact Hc.
  - apply updateOptimisticSlot_demoted; auto.
  - rewrite updatedExpectedRandao_unfold. cbv zeta.
    repeat match goal with
           | |- context [match ?x with _ => _ end] => destruct x
           end; exact Hc.
  - unfold updateProposerDuties.
    repeat match goal with
           | |- context [match ?x with _ => _ end] => destruct x
           end; exact Hc.
  - unfold cacheDemoted. now rewrite handleRegisterValidator_cache.
  - unfold updatedExpectedRandaoGuard. destruct (_ || _); exact Hc.
  - unfold updatedExpectedRandaoAnswer.
    repeat match goal with
           | |- context [match ?x with _ => _ end] => destruct x
           end; exact Hc.
Qed.

Lemma runEvents_demoted evs s b :
  dbDemoted (Relay.db s) b -> cacheDemoted (Relay.api s) b ->
  dbDemoted (Relay.db (runEvents s evs)) b /\ cacheDemoted (Relay.api (runEvents s evs)) b.
Proof.
  unfold runEvents. revert s. induction evs as [|e evs IH]; intros s Hdb Hc; [now split|].
  simpl. apply IH; [now apply step_dbDemoted|now apply step_cacheDemoted].
Qed.

(** *** A demoted builder in the cache is simulated by the handler *)

Lemma handleSubmitNewBlock_demoted_synchronous api body env r d b :
  cacheDemoted api b -> submittedBy b body ->
  let f := (handleSubmitNewBlock api body env r d).1 in
  Frame.optimisticSubmission f = false
  /\ Forall (fun e => isOptimisticStart e = false) (effectsOf f)
  /\ forall f1 sub,
       checksBeforeSimulation api body env (Frame.init (Stores.mk r d [])) = (f1, Continue sub) ->
       In (BlockSimSend (simulationRequest sub)) (effectsOf f).
Proof.
  intros (entry & Hentry & Hdem) (payload & message & -> & Hmsg & Hpk) f. subst f.
  unfold handleSubmitNewBlock, submitNewBlock.
  destruct (bind _ _ _) as [f o] eqn:Hb.
  assert (Hfst : (answer (f, o)).1 = f) by (destruct o; reflexivity). rewrite Hfst.
  bind_cases Hb as H1.
  - destruct (checksBeforeSimulation_inv _ _ _ _ _ _ H1)
      as [(extra & Hf1 & Hextra) Hpassed].
    assert (Hc : sufficientCollateral api a = false).
    { destruct Hpassed as (Hbody & Hm & _ & He & _). injection Hbody as Hbody.
      rewrite <- Hbody, Hmsg in Hm. injection Hm as Hm. subst message.
      unfold sufficientCollateral. rewrite He. unfold lookupBuilderEntry.
      rewrite Hpk, Hentry, Hdem. simpl. now rewrite andb_false_r. }
    destruct (processSubmission_synchronous _ _ _ _ _ _ Hc Hb)
      as (Ho & (writes & audits & He & Hw & Ha & _) & _).
    assert (He1 : effectsOf f0 = extra) by (rewrite Hf1; reflexivity). rewrite He1 in He.
    split; [rewrite Ho, Hf1; reflexivity|]. split.
    + rewrite He. repeat (apply Forall_app; split).
      * revert Hextra. apply Forall_kind_excludes. kinds_disjoint.
      * repeat constructor.
      * revert Hw. apply Forall_kind_excludes. kinds_disjoint.
      * revert Ha. apply Forall_kind_excludes. kinds_disjoint.
    + intros f1' sub' H'. rewrite H1 in H'. injection H' as <- <-.
      rewrite He. apply in_or_app. right. now left.
  - pose proof (checksBeforeSimulation_frame _ _ _ _ _ _ H1) as (extra & Hf & Hextra).
    split; [rewrite Hf; reflexivity|]. split.
    + rewrite Hf. unfold effectsOf. simpl. revert Hextra.
      apply Forall_kind_excludes. kinds_disjoint.
    + intros f1 sub H'. rewrite H1 in H'. discriminate.
Qed.

Lemma processOptimisticBlock_demotes api opts env s message err :
  BuilderSubmitBlockRequest.Message
    (BuilderBlockValidationRequest.BuilderSubmitBlockRequest (blockSimOptions.req opts))
  = Some message ->
  OptimisticEnv.blockSim env = Some err -> err <> ErrBlockAlreadyKnown ->
  DemoteEnv.setStatusFail (OptimisticEnv.demote env) = None ->
  is_Some (Database.blockBuilders (Stores.db s) !! BidTrace.BuilderPubkey message) ->
  dbDemoted (Stores.db (processOptimisticBlock api opts env s)) (BidTrace.BuilderPubkey message).
Proof.
  intros Hm Hsim Hne Hset [row Hrow].
  unfold processOptimisticBlock, simulateBlock. rewrite Hm, Hsim.
  destruct (decide (err <> ErrBlockAlreadyKnown)) as [_|Hc]; [|contradiction].
  unfold demoteBuilder. rewrite Hset.
  match goal with
  | |- context [Database.SetBlockBuilderStatus ?a ?p ?st None] =>
      assert (Hs := SetBlockBuilderStatus_sets a p st row Hrow eq_refl);
      destruct (Database.SetBlockBuilderStatus a p st None) as [d1 e1]
  end.
  simpl in *. unfold Database.InsertBuilderDemotion.
  destruct (DemoteEnv.insertDemotionFail _); [exact Hs|]. rewrite Hm. exact Hs.
Qed.

(** C3, as the code has it.  When the optimistic post-processing of a
    submission of builder [b] fails its simulation and writes the demoted bit
    of [b] to the durable store, no event of the pipeline clears that bit
    again; and once updateOptimisticSlot has refreshed the builder cache from
    the store, every later submission of [b] is kept off the optimistic path
    (no optimistic goroutine is started for it, and when it reaches the
    collateral branch the handler itself sends it to the simulator), whatever
    events of the pipeline come in between. *)
Theorem demoted_builder_synchronous_after_refresh
    s opts oenv message err headSlot evs1 evs2 body env :
  BuilderSubmitBlockRequest.Message
    (BuilderBlockValidationRequest.BuilderSubmitBlockRequest (blockSimOptions.req opts))
  = Some message ->
  OptimisticEnv.blockSim oenv = Some err -> err <> ErrBlockAlreadyKnown ->
  DemoteEnv.setStatusFail (OptimisticEnv.demote oenv) = None ->
  is_Some (Database.blockBuilders (Relay.db s) !! BidTrace.BuilderPubkey message) ->
  submittedBy (BidTrace.BuilderPubkey message) body ->
  let b := BidTrace.BuilderPubkey message in
  let s1 := step s (EvProcessOptimisticBlock opts oenv) in
  let s2 := runEvents s1 evs1 in
  let s3 := step s2 (EvUpdateOptimisticSlot headSlot None) in
  let s4 := runEvents s3 evs2 in
  let f := (handleSubmitNewBlock (Relay.api s4) body env (Relay.redis s4) (Relay.db s4)).1 in
  (forall evs, dbDemoted (Relay.db (runEvents s1 evs)) b)
  /\ cacheDemoted (Relay.api s4) b
  /\ Frame.optimisticSubmission f = false
  /\ Forall (fun e => isOptimisticStart e = false) (effectsOf f)
  /\ forall f1 sub,
       checksBeforeSimulation (Relay.api s4) body env
         (Frame.init (Stores.mk (Relay.redis s4) (Relay.db s4) [])) = (f1, Continue sub) ->
       In (BlockSimSend (simulationRequest sub)) (effectsOf f).
Proof.
  intros Hm Hsim Hne Hset Hrow Hby b s1 s2 s3 s4 f.
  assert (Hd1 : dbDemoted (Relay.db s1) b).
  { subst s1. simpl.
    now apply (processOptimisticBlock_demotes (Relay.api s) opts oenv
                 (Stores.mk (Relay.redis s) (Relay.db s) []) message err). }
  assert (Hd2 : dbDemoted (Relay.db s2) b) by now apply runEvents_dbDemoted.
  assert (Hc3 : cacheDemoted (Relay.api s3) b).
  { subst s3. simpl. apply updateOptimisticSlot_demoted; auto. }
  assert (Hd3 : dbDemoted (Relay.db s3) b) by exact Hd2.
  destruct (runEvents_demoted evs2 s3 b Hd3 Hc3) as [Hd4 Hc4].
  split; [intros evs; now apply runEvents_dbDemoted|].
  split; [exact Hc4|].
  now apply handleSubmitNewBlock_demoted_synchronous with (b := b).
Qed.

Lemma demoted_builder_synchronous_witness :
  let s := Relay.mk (Scenario.api 100 false) Redis.empty (Scenario.database "100" false) in
  let opts := blockSimOptions.mk true
                (BuilderBlockValidationRequest.mk (Scenario.payload 101 10) 30000000) in
  let oenv := OptimisticEnv.mk (Some "invalid block"%string) (DemoteEnv.mk None None) in
  let s4 := step (step s (EvProcessOptimisticBlock opts oenv))
              (EvUpdateOptimisticSlot 100 None) in
  let f := (handleSubmitNewBlock (Relay.api s4) (Decoded (Scenario.payload 101 12))
              (Scenario.env None None) (Relay.redis s4) (Relay.db s4)).1 in
  Frame.optimisticSubmission f = false
  /\ In (BlockSimSend
           (blockSimOptions.mk true
              (BuilderBlockValidationRequest.mk (Scenario.payload 101 12) 30000000)))
        (effectsOf f).
Proof.
  intros s opts oenv s4 f.
  destruct (demoted_builder_synchronous_after_refresh s opts oenv (Scenario.message 101 10)
              "invalid block" 100 [] [] (Decoded (Scenario.payload 101 12))
              (Scenario.env None None))
    as (_ & _ & Hopt & _ & Hsim).
  - reflexivity.
  - reflexivity.
  - discriminate.
  - reflexivity.
  - eexists. vm_compute. reflexivity.
  - exists (Scenario.payload 101 12), (Scenario.message 101 12). repeat split.
  - split; [exact Hopt|].
    eapply (Hsim _ (Submission.mk (Scenario.payload 101 12) (Scenario.message 101 12)
                      (Scenario.executionPayload 101)
                      (blockBuilderCacheEntry.mk (BuilderStatus.mk true false true) 100)
                      Scenario.duty)).
    vm_compute. reflexivity.
Defined.

(** The claim C3 as stated fails: builder ["0xB"] (collateral 100) has an
    optimistic submission fail its simulation and the demoted bit is written
    to the durable store; the next submission of the same builder for the same
    slot still finds the bit cleared in the builder cache and is again
    processed optimistically, without a simulation by the handler. *)
Lemma demoted_builder_optimistic_before_refresh :
  let s := Relay.mk (Scenario.api 100 false) Redis.empty (Scenario.database "100" false) in
  let first := handleSubmitNewBlock (Relay.api s) (Decoded (Scenario.payload 101 10))
                 (Scenario.env None None) (Relay.redis s) (Relay.db s) in
  let opts := blockSimOptions.mk true
                (BuilderBlockValidationRequest.mk (Scenario.payload 101 10) 30000000) in
  let oenv := OptimisticEnv.mk (Some "invalid block"%string) (DemoteEnv.mk None None) in
  let s2 := runEvents s [EvSubmitNewBlock (Decoded (Scenario.payload 101 10))
                           (Scenario.env None None);
                         EvProcessOptimisticBlock opts oenv] in
  let second := handleSubmitNewBlock (Relay.api s2) (Decoded (Scenario.payload 101 12))
                  (Scenario.env None None) (Relay.redis s2) (Relay.db s2) in
  In (Go (GoProcessOptimisticBlock opts)) (effectsOf first.1)
  /\ (Database.BlockBuilderEntry.IsDemoted
        <$> (Database.blockBuilders (Relay.db s2) !! "0xB"%string)) = Some true
  /\ Frame.optimisticSubmission second.1 = true
  /\ second.2 = WriteHeader StatusOK
  /\ filter (fun e => isSimulation e || isOptimisticStart e) (effectsOf second.1)
     = [Go (GoProcessOptimisticBlock
              (blockSimOptions.mk true
                 (BuilderBlockValidationRequest.mk (Scenario.payload 101 12) 30000000)))].
Proof.
  vm_compute. repeat split; try reflexivity. left. reflexivity.
Qed.

(** The way out of demotion is the operator's: a status update with
    [demoted] not ["true"] clears the bit in the durable store. *)
Lemma operator_clears_demotion :
  let d := (handleInternalBuilderStatus "0xB" "true" "false" "false" None
              (Scenario.database "100" true)).1 in
  (Database.BlockBuilderEntry.IsDemoted <$> (Database.blockBuilders d !! "0xB"%string))
  = Some false.
Proof. vm_compute. reflexivity. Qed.

(** ** C4: the randao confirmation *)

Lemma handleSubmitNewBlock_at_randao api body env r d f1 sub :
  checksBeforeRandao api body env (Frame.init (Stores.mk r d [])) = (f1, Continue sub) ->
  handleSubmitNewBlock api body env r d
  = answer ((do _ <- confirmRandao api sub ;
             do _ <- verifyBuilderSignature env ;
             processSubmission api sub env) f1).
Proof.
  intros H. unfold handleSubmitNewBlock, submitNewBlock, checksBeforeSimulation.
  unfold bind at 1. unfold bind at 1. rewrite H.
  unfold bind, ret.
  destruct (confirmRandao api sub f1) as [f2 [[]|w]]; [|reflexivity].
  destruct (verifyBuilderSignature env f2) as [f3 [[]|w]]; reflexivity.
Qed.

(** The stage stands in front of the simulation: a submission that reaches
    it has neither been sent to the simulator nor started an optimistic
    goroutine. *)
Lemma randao_confirmation_before_simulation api body env r d f1 sub :
  checksBeforeRandao api body env (Frame.init (Stores.mk r d [])) = (f1, Continue sub) ->
  Forall (fun e => isSimulation e = false /\ isOptimisticStart e = false) (effectsOf f1).
Proof.
  intros H. apply checksBeforeRandao_frame in H as (extra & -> & Hextra).
  unfold effectsOf. simpl. eapply Forall_impl; [exact Hextra|].
  intros [[]| | | | | | | | | | | | | |]; simpl; intros; split; congruence.
Qed.

(** C4, amended.  The randao confirmation of handleSubmitNewBlock (the second
    randao check) runs after the checks of the submission and before the
    check of the builder's signature and the simulation.  For every
    submission that reaches it: if the cached expected-prev-randao slot is
    not the submission's slot, the submission is rejected with status 500 and
    the message "prev_randao is not known yet"; if the slot matches but the
    cached randao value differs from the execution payload's random field, it
    is rejected with status 400 and a message that gives both values.  In
    both cases the handler stops there, with what the checks left; and that
    has no request to the simulator and no optimistic goroutine in it. *)
Theorem randao_confirmation_rejects api body env r d f1 sub :
  checksBeforeRandao api body env (Frame.init (Stores.mk r d [])) = (f1, Continue sub) ->
  let expected := RelayAPI.expectedPrevRandao api in
  let slot := BidTrace.Slot (Submission.message sub) in
  let random := ExecutionPayload.Random (Submission.executionPayload sub) in
  let result := handleSubmitNewBlock api body env r d in
  (randaoHelper.slot expected <> slot ->
     result = (f1, RespondError StatusInternalServerError "prev_randao is not known yet"))
  /\ (randaoHelper.slot expected = slot -> randaoHelper.prevRandao expected <> random ->
        result.1 = f1 /\ statusOf result.2 = StatusBadRequest
        /\ result.2 = RespondError StatusBadRequest
                        ("incorrect prev_randao - got: " +:+ random +:+ ", expected: "
                         +:+ randaoHelper.prevRandao expected))
  /\ Forall (fun e => isSimulation e = false /\ isOptimisticStart e = false) (effectsOf f1).
Proof.
  intros H expected slot random result. subst result.
  rewrite (handleSubmitNewBlock_at_randao _ _ _ _ _ _ _ H).
  unfold bind at 1. unfold confirmRandao, respond.
  fold expected. fold slot. fold random. split; [|split].
  - intros Hne. apply Z.eqb_neq in Hne. rewrite Hne. reflexivity.
  - intros Heq Hne. apply Z.eqb_eq in Heq. rewrite Heq.
    apply String.eqb_neq in Hne. rewrite Hne. simpl. auto.
  - exact (randao_confirmation_before_simulation _ _ _ _ _ _ _ H).
Qed.

Lemma randao_confirmation_rejects_witness :
  let result := handleSubmitNewBlock (Scenario.api 0 false) (Decoded (Scenario.payload 102 5))
                  (Scenario.env None None) Redis.empty Database.empty in
  result.2 = RespondError StatusInternalServerError "prev_randao is not known yet"
  /\ Forall (fun e => isSimulation e = false /\ isOptimisticStart e = false)
       (effectsOf result.1).
Proof.
  destruct (randao_confirmation_rejects (Scenario.api 0 false)
              (Decoded (Scenario.payload 102 5)) (Scenario.env None None)
              Redis.empty Database.empty
              (Frame.emit (Go (GoUpdatedExpectedRandao 101))
                 (Frame.init (Stores.mk Redis.empty Database.empty [])))
              (Submission.mk (Scenario.payload 102 5) (Scenario.message 102 5)
                 (Scenario.executionPayload 102)
                 (blockBuilderCacheEntry.mk (BuilderStatus.mk true false false) 0)
                 Scenario.duty)
              eq_refl) as (H & _ & Hbefore).
  cbv zeta. rewrite H; [split; [reflexivity|exact Hbefore]|]. vm_compute. discriminate.
Defined.

(** The claim C4 as stated fails: it places the stage after the simulation.
    The relay knows the randao of slot 101 and the simulator would refuse
    the block.  The submission for slot 102 is rejected with "prev_randao is
    not known yet" without having been sent to the simulator, the handler
    having done no more than start the randao update; the same submission
    for slot 101 passes the stage, is sent to the simulator and is answered
    with the simulator's error. *)
Lemma randao_rejection_precedes_simulation :
  let env := Scenario.env (Some "invalid block") None in
  let rejected := handleSubmitNewBlock (Scenario.api 0 false)
                    (Decoded (Scenario.payload 102 5)) env Redis.empty Database.empty in
  let simulated := handleSubmitNewBlock (Scenario.api 0 false)
                     (Decoded (Scenario.payload 101 5)) env Redis.empty Database.empty in
  rejected.2 = RespondError StatusInternalServerError "prev_randao is not known yet"
  /\ effectsOf rejected.1 = [Go (GoUpdatedExpectedRandao 101)]
  /\ existsb isSimulation (effectsOf rejected.1) = false
  /\ existsb isSimulation (effectsOf simulated.1) = true
  /\ simulated.2 = RespondError StatusBadRequest "invalid block".
Proof.
  vm_compute. repeat split; reflexivity.
Qed.

(** ** C5: the cache writes *)

Lemma filter_kind_none (k : Effect -> bool) l :
  Forall (fun e => k e = false) l -> filter (fun e => k e = true) l = [].
Proof.
  induction 1 as [|e l He _ IH]; [reflexivity|].
  rewrite filter_cons_False by congruence. exact IH.
Qed.

Lemma filter_kind_all (k : Effect -> bool) l :
  Forall (fun e => k e = true) l -> filter (fun e => k e = true) l = l.
Proof.
  induction 1 as [|e l He _ IH]; [reflexivity|].
  rewrite filter_cons_True by assumption. now rewrite IH.
Qed.

Lemma simulateSubmission_frame api sub env f0 f o :
  simulateSubmission api sub env f0 = (f, o) ->
  Frame.redis f = Frame.redis f0
  /\ exists x, effectsOf f = effectsOf f0 ++ [x] /\ isCacheWrite x = false.
Proof.
  unfold simulateSubmission, simulateBlock, bind, get, modify, ret, respond.
  destruct (sufficientCollateral api sub).
  - intros [= <- <-]. split; [reflexivity|]. eexists. split; reflexivity.
  - destruct (SubmitEnv.blockSim env) as [e|]; [destruct (decide _)|];
      cbv beta iota zeta; intros [= <- <-]; (split; [reflexivity|]);
      eexists; split; reflexivity.
Qed.

Lemma stagesBeforeCacheWrites_frame api body env f0 f2 sub responses :
  stagesBeforeCacheWrites api body env f0 = (f2, Continue (sub, responses)) ->
  Frame.redis f2 = Frame.redis f0
  /\ exists before, effectsOf f2 = effectsOf f0 ++ before
                    /\ Forall (fun e => isCacheWrite e = false) before.
Proof.
  unfold stagesBeforeCacheWrites. intros H.
  bind_cases H as H1. apply checksBeforeSimulation_frame in H1 as (extra & -> & Hextra).
  bind_cases H as H2. apply simulateSubmission_frame in H2 as (Hr & x & He & Hx).
  bind_cases H as H3. apply ensureLatest_frame in H3 as ->.
  bind_cases H as H4. apply prepareResponses_frame in H4 as ->.
  unfold ret in H. injection H as -> _ _.
  split; [exact Hr|]. exists (extra ++ [x]). split.
  - rewrite He. unfold effectsOf. simpl. now rewrite app_assoc.
  - apply Forall_app. split; [|now constructor].
    revert Hextra. apply Forall_kind_excludes. kinds_disjoint.
Qed.

Lemma handleSubmitNewBlock_at_cacheWrites api body env r d f2 sub h p t :
  stagesBeforeCacheWrites api body env (Frame.init (Stores.mk r d []))
  = (f2, Continue (sub, (h, p, t))) ->
  handleSubmitNewBlock api body env r d
  = answer (withDefer (saveSubmission sub env)
              (do _ <- saveToRedis sub env h p t ;
               do _ <- modify (fun f => Frame.withEligibleAt f
                                          (Some (SubmitEnv.eligibleTime env))) ;
               respond (WriteHeader StatusOK)) f2).
Proof.
  unfold stagesBeforeCacheWrites. intros H.
  bind_cases H as H1. bind_cases H as H2. bind_cases H as H3. bind_cases H as H4.
  unfold ret in H. injection H as -> -> ->.
  unfold handleSubmitNewBlock, submitNewBlock.
  rewrite (bind_Continue _ _ _ _ _ H1).
  unfold processSubmission, withDefer, storeSubmission.
  rewrite (bind_Continue _ _ _ _ _ H2), (bind_Continue _ _ _ _ _ H3),
    (bind_Continue _ _ _ _ _ H4).
  reflexivity.
Qed.

Lemma saveToRedis_writes sub env h p t f2 :
  let step := saveToRedis sub env h p t f2 in
  let bid := BidTraceV2.BidTrace t in
  let message := Submission.message sub in
  effectsOf step.1 = effectsOf f2 ++ upToFirstError (cacheWritesInOrder env)
  /\ step.2 = match firstError (cacheWritesInOrder env) with
              | Some err => Return (RespondError StatusInternalServerError err)
              | None => Continue tt
              end
  /\ (SubmitEnv.saveBidTraceFail env = None ->
      Redis.bidTraces (Frame.redis step.1)
        !! (BidTrace.Slot bid, BidTrace.ProposerPubkey bid, BidTrace.BlockHash bid) = Some t)
  /\ (SubmitEnv.saveBidTraceFail env = None ->
      SubmitEnv.saveExecutionPayloadFail env = None ->
      Redis.executionPayloads (Frame.redis step.1)
        !! (BidTrace.Slot message, BidTrace.ProposerPubkey message, BidTrace.BlockHash message)
      = Some p)
  /\ (SubmitEnv.saveBidTraceFail env = None ->
      SubmitEnv.saveExecutionPayloadFail env = None ->
      SubmitEnv.saveLatestBuilderBidFail env = None ->
      exists bids,
        Redis.latestBuilderBids (Frame.redis step.1)
          !! (BidTrace.Slot message, BidTrace.ParentHash message, BidTrace.ProposerPubkey message)
        = Some bids
        /\ bids !! BidTrace.BuilderPubkey message = Some (SubmitEnv.receivedAt env, h)).
Proof.
  unfold saveToRedis, redisWrite, bind, get, modify, ret, respond, cacheWritesInOrder.
  unfold Redis.SaveBidTrace, Redis.SaveExecutionPayload, Redis.SaveLatestBuilderBid,
    Redis.UpdateTopBid.
  destruct (SubmitEnv.saveBidTraceFail env) as [e1|];
    [|destruct (SubmitEnv.saveExecutionPayloadFail env) as [e2|];
      [|destruct (SubmitEnv.saveLatestBuilderBidFail env) as [e3|];
        [|destruct (SubmitEnv.updateTopBidFail env) as [e4|]]]];
    cbn -[lookup insert]; unfold effectsOf; cbn -[lookup insert];
    rewrite <- ?app_assoc; cbn -[lookup insert].
  - repeat split; try discriminate.
  - repeat split; try discriminate. intros _. now rewrite lookup_insert_eq.
  - repeat split; try discriminate; intros; now rewrite lookup_insert_eq.
  - repeat split; try discriminate; intros; try now rewrite lookup_insert_eq.
    eexists. rewrite lookup_insert_eq. split; [reflexivity|]. now rewrite lookup_insert_eq.
  - destruct (Redis.pickTopBid _) as [[at_ top]|]; cbn -[lookup insert];
      rewrite <- ?app_assoc; cbn -[lookup insert];
      repeat split; try discriminate; intros; try now rewrite lookup_insert_eq.
    + eexists. rewrite lookup_insert_eq. split; [reflexivity|]. now rewrite lookup_insert_eq.
    + eexists. rewrite lookup_insert_eq. split; [reflexivity|]. now rewrite lookup_insert_eq.
Qed.

(** C5. For every submission that reaches the cache writes, the writes
    occur in the order bid trace, execution payload, latest builder bid,
    top-bid recomputation, up to and including the first one that returns an
    error; the handler then answers with status 500 and that error (200 when
    none fails), and what the earlier writes stored is still in the cache:
    nothing is undone. *)
Theorem cache_writes_in_order_not_undone api body env r d f2 sub h p t :
  stagesBeforeCacheWrites api body env (Frame.init (Stores.mk r d []))
  = (f2, Continue (sub, (h, p, t))) ->
  let result := handleSubmitNewBlock api body env r d in
  let bid := BidTraceV2.BidTrace t in
  let message := Submission.message sub in
  filter (fun e => isCacheWrite e = true) (effectsOf result.1)
  = upToFirstError (cacheWritesInOrder env)
  /\ result.2 = match firstError (cacheWritesInOrder env) with
                | Some err => RespondError StatusInternalServerError err
                | None => WriteHeader StatusOK
                end
  /\ (SubmitEnv.saveBidTraceFail env = None ->
      Redis.bidTraces (Frame.redis result.1)
        !! (BidTrace.Slot bid, BidTrace.ProposerPubkey bid, BidTrace.BlockHash bid) = Some t)
  /\ (SubmitEnv.saveBidTraceFail env = None ->
      SubmitEnv.saveExecutionPayloadFail env = None ->
      Redis.executionPayloads (Frame.redis result.1)
        !! (BidTrace.Slot message, BidTrace.ProposerPubkey message, BidTrace.BlockHash message)
      = Some p)
  /\ (SubmitEnv.saveBidTraceFail env = None ->
      SubmitEnv.saveExecutionPayloadFail env = None ->
      SubmitEnv.saveLatestBuilderBidFail env = None ->
      exists bids,
        Redis.latestBuilderBids (Frame.redis result.1)
          !! (BidTrace.Slot message, BidTrace.ParentHash message, BidTrace.ProposerPubkey message)
        = Some bids
        /\ bids !! BidTrace.BuilderPubkey message = Some (SubmitEnv.receivedAt env, h)).
Proof.
  intros H result bid message. subst result.
  rewrite (handleSubmitNewBlock_at_cacheWrites _ _ _ _ _ _ _ _ _ _ H).
  apply stagesBeforeCacheWrites_frame in H as (_ & before & Hbefore & Hnone).
  simpl in Hbefore.
  destruct (saveToRedis_writes sub env h p t f2) as (He & Ho & Ht & Hp & Hb).
  unfold withDefer.
  destruct (saveToRedis sub env h p t f2) as [f3 o3] eqn:Hs.
  cbn [fst snd] in He, Ho, Ht, Hp, Hb.
  assert (Hwrites : Forall (fun e => isCacheWrite e = true)
                      (upToFirstError (cacheWritesInOrder env))).
  { unfold cacheWritesInOrder. simpl.
    repeat match goal with
           | |- context [match ?x with _ => _ end] => destruct x
           end; repeat constructor. }
  assert (Hfinal : forall f' w,
             Frame.redis f' = Frame.redis f3 -> effectsOf f' = effectsOf f3 ->
             filter (fun e => isCacheWrite e = true)
               (effectsOf (answer (saveSubmission sub env f', Return w)).1)
             = upToFirstError (cacheWritesInOrder env)
             /\ Frame.redis (answer (saveSubmission sub env f', Return w)).1 = Frame.redis f3).
  { intros f' w Hr He'. unfold answer. cbn [fst].
    destruct (saveSubmission_frame sub env f') as (Hr' & _ & _ & _ & audits & Ha & Haud).
    rewrite Ha, He', He, Hbefore, Hr', Hr. split; [|reflexivity].
    rewrite !filter_app, (filter_kind_none _ before Hnone), (filter_kind_all _ _ Hwrites).
    rewrite (filter_kind_none isCacheWrite audits); [now rewrite app_nil_r|].
    revert Haud. apply Forall_kind_excludes. kinds_disjoint. }
  destruct (firstError (cacheWritesInOrder env)) as [err|]; subst o3.
  - rewrite (bind_Return _ _ _ _ _ Hs).
    destruct (Hfinal f3 (RespondError StatusInternalServerError err) eq_refl eq_refl)
      as [Hf Hr].
    split; [exact Hf|]. split; [reflexivity|]. rewrite Hr. auto.
  - rewrite (bind_Continue _ _ _ _ _ Hs). unfold bind, modify, respond.
    destruct (Hfinal (Frame.withEligibleAt f3 (Some (SubmitEnv.eligibleTime env)))
                (WriteHeader StatusOK) eq_refl eq_refl) as [Hf Hr].
    split; [exact Hf|]. split; [reflexivity|]. rewrite Hr. auto.
Qed.

Lemma cache_writes_in_order_witness :
  let env := SubmitEnv.mk 1000 None None (true, None) None None (inr "0xrelaysig"%string)
               None None (Some "redis: connection pool timeout"%string) None 1005 None None in
  let result := handleSubmitNewBlock (Scenario.api 0 false) (Decoded (Scenario.payload 101 5))
                  env Redis.empty Database.empty in
  filter (fun e => isCacheWrite e = true) (effectsOf result.1)
  = [SaveBidTrace None; SaveExecutionPayload None;
     SaveLatestBuilderBid (Some "redis: connection pool timeout"%string)]
  /\ result.2 = RespondError StatusInternalServerError "redis: connection pool timeout"
  /\ is_Some (Redis.bidTraces (Frame.redis result.1) !! (101, "0xA", "0xbb")%string)
  /\ is_Some (Redis.executionPayloads (Frame.redis result.1) !! (101, "0xA", "0xbb")%string).
Proof.
  intros env result.
  pose (sub := Submission.mk (Scenario.payload 101 5) (Scenario.message 101 5)
                 (Scenario.executionPayload 101)
                 (blockBuilderCacheEntry.mk (BuilderStatus.mk true false false) 0)
                 Scenario.duty).
  pose (h := GetHeaderResponse.mk VersionBellatrix
               (Some (SignedBuilderBid.mk (Some (BuilderBid.mk 5 "0xbb" "0xrelay"))
                        "0xrelaysig"))).
  pose (p := GetPayloadResponse.mk VersionBellatrix (Some (Scenario.executionPayload 101))).
  pose (t := BidTraceV2.mk (Scenario.message 101 5) 17 2).
  destruct (cache_writes_in_order_not_undone (Scenario.api 0 false)
              (Decoded (Scenario.payload 101 5)) env Redis.empty Database.empty
              (Frame.emit (BlockSimSend (simulationRequest sub))
                 (Frame.init (Stores.mk Redis.empty Database.empty [])))
              sub h p t eq_refl) as (Hw & Hresp & Ht & Hp & _).
  split; [exact Hw|]. split; [exact Hresp|]. split.
  - eexists. apply Ht. reflexivity.
  - eexists. apply Hp; reflexivity.
Defined.

(** ** C8: a block the simulator already knows *)

Lemma simulateBlock_already_known opts s :
  simulateBlock opts (Some ErrBlockAlreadyKnown) s = simulateBlock opts None s.
Proof.
  unfold simulateBlock.
  destruct (decide (ErrBlockAlreadyKnown <> ErrBlockAlreadyKnown)) as [Hne|_];
    [now contradiction Hne|reflexivity].
Qed.

Lemma simulateSubmission_already_known api sub env f :
  simulateSubmission api sub (SubmitEnv.withBlockSim env (Some ErrBlockAlreadyKnown)) f
  = simulateSubmission api sub (SubmitEnv.withBlockSim env None) f.
Proof.
  unfold simulateSubmission. destruct (sufficientCollateral api sub); [reflexivity|].
  unfold bind, get. cbn [SubmitEnv.blockSim SubmitEnv.withBlockSim].
  now rewrite simulateBlock_already_known.
Qed.

Lemma bind_cong {S A B} (m m' : @Handler S A) (k k' : A -> @Handler S B) s :
  m s = m' s -> (forall a s', k a s' = k' a s') -> bind m k s = bind m' k' s.
Proof.
  intros Hm Hk. unfold bind. rewrite Hm. destruct (m' s) as [s' [a|w]]; [apply Hk|reflexivity].
Qed.

(** C8. A simulator result that is an error with the message "simulation
    failed: block already known" is treated as success: simulateBlock
    returns no error, as for a simulator that reported none; the handler does
    with the submission exactly what it does when the simulator reports no
    error (so it is not rejected for it); and the optimistic goroutine leaves
    the database as it was and makes no demotion call. *)
Theorem block_already_known_is_success :
  (forall opts s,
      simulateBlock opts (Some ErrBlockAlreadyKnown) s = simulateBlock opts None s
      /\ (simulateBlock opts (Some ErrBlockAlreadyKnown) s).2 = None)
  /\ (forall api body env r d,
         handleSubmitNewBlock api body (SubmitEnv.withBlockSim env (Some ErrBlockAlreadyKnown)) r d
         = handleSubmitNewBlock api body (SubmitEnv.withBlockSim env None) r d)
  /\ (forall api opts denv s,
         let s' := processOptimisticBlock api opts
                     (OptimisticEnv.mk (Some ErrBlockAlreadyKnown) denv) s in
         s' = processOptimisticBlock api opts (OptimisticEnv.mk None denv) s
         /\ Stores.db s' = Stores.db s
         /\ filter (fun e => isDemotion e = true) (Stores.effects s')
            = filter (fun e => isDemotion e = true) (Stores.effects s)).
Proof.
  split; [|split].
  - intros opts s. rewrite simulateBlock_already_known. split; reflexivity.
  - intros api body env r d.
    unfold handleSubmitNewBlock, submitNewBlock. apply f_equal.
    apply bind_cong; [reflexivity|].
    intros sub f1. unfold processSubmission, withDefer.
    now rewrite (bind_cong
                   (simulateSubmission api sub
                      (SubmitEnv.withBlockSim env (Some ErrBlockAlreadyKnown)))
                   (simulateSubmission api sub (SubmitEnv.withBlockSim env None))
                   (fun _ => storeSubmission api sub
                               (SubmitEnv.withBlockSim env (Some ErrBlockAlreadyKnown)))
                   (fun _ => storeSubmission api sub (SubmitEnv.withBlockSim env None)) f1
                   (simulateSubmission_already_known api sub env f1)
                   (fun _ _ => eq_refl)).
  - intros api opts denv s s'. subst s'. unfold processOptimisticBlock.
    cbn [OptimisticEnv.blockSim]. rewrite simulateBlock_already_known.
    destruct (BuilderSubmitBlockRequest.Message _); [|auto].
    unfold simulateBlock. split; [reflexivity|]. split; [reflexivity|].
    cbn [Stores.effects Stores.emit]. rewrite filter_app.
    rewrite filter_cons_False by discriminate. now rewrite app_nil_r.
Qed.

(** ** C6: getHeader *)

Lemma Cmp_zero a b : (Cmp a b =? 0) = true <-> a = b.
Proof.
  unfold Cmp. destruct (Z.compare_spec a b) as [E|E|E]; split; intros H;
    try discriminate; try lia; reflexivity.
Qed.

(** C6, amended.  For every getHeader request with well-formed parameters: a
    slot strictly less than the current head slot is rejected with 400 "slot
    is too old"; otherwise, when the lookup of the best bid for (slot,
    parent_hash, proposer_pubkey) succeeds and returns no bid, or a bid whose
    value is zero, the response is the bare status 204; when the lookup fails
    (and the relay is not set to answer every getHeader with 204) the
    response is 400 with the error of the lookup, whatever is stored; and
    whatever the request, a bid with value zero is never served. *)
Theorem getHeader_204_without_positive_bid
    ErrInvalidSlot ErrInvalidPubkey ErrInvalidHash api slotStr parentHashHex
    proposerPubkeyHex r fail slot :
  Strconv.ParseUint slotStr 64 = Some slot ->
  String.length proposerPubkeyHex = 98%nat ->
  String.length parentHashHex = 66%nat ->
  let w := handleGetHeader ErrInvalidSlot ErrInvalidPubkey ErrInvalidHash api slotStr
             parentHashHex proposerPubkeyHex r fail in
  (slot < RelayAPI.headSlot api -> w = RespondError StatusBadRequest "slot is too old")
  /\ (RelayAPI.headSlot api <= slot ->
      forall bid,
        Redis.GetBestBid r slot parentHashHex proposerPubkeyHex fail = (bid, None) ->
        bid = None \/ (exists b, bid = Some b /\ Redis.bidValue b = 0) ->
        w = WriteHeader StatusNoContent)
  /\ (RelayAPI.headSlot api <= slot ->
      RelayAPI.ffForceGetHeader204 api = false ->
      forall bid err,
        Redis.GetBestBid r slot parentHashHex proposerPubkeyHex fail = (bid, Some err) ->
        w = RespondError StatusBadRequest err)
  /\ (forall b, w = RespondOK (BodyGetHeader b) -> Redis.bidValue b <> 0).
Proof.
  intros Hslot Hpk Hhash w. subst w. unfold handleGetHeader.
  rewrite Hslot, Hpk, Hhash. cbn [Z.of_nat Pos.of_succ_nat Pos.succ negb Z.eqb Pos.eqb].
  split; [|split; [|split]].
  - intros Hlt. apply Z.ltb_lt in Hlt. now rewrite Hlt.
  - intros Hge bid Hlookup Hbid. apply Z.ltb_ge in Hge. rewrite Hge, Hlookup.
    destruct (RelayAPI.ffForceGetHeader204 api); [reflexivity|].
    destruct Hbid as [->|(b & -> & Hzero)]; [reflexivity|].
    unfold Redis.bidValue in Hzero.
    destruct (GetHeaderResponse.Data b) as [data|]; [|reflexivity].
    destruct (SignedBuilderBid.Message data) as [message|]; [|reflexivity].
    rewrite Hzero. reflexivity.
  - intros Hge Hff bid err Hlookup. apply Z.ltb_ge in Hge. rewrite Hge, Hff, Hlookup.
    destruct bid; reflexivity.
  - intros b. destruct (slot <? RelayAPI.headSlot api); [discriminate|].
    destruct (RelayAPI.ffForceGetHeader204 api); [discriminate|].
    destruct (Redis.GetBestBid _ _ _ _ _) as [[bid|] [err|]]; try discriminate.
    destruct (GetHeaderResponse.Data bid) as [data|] eqn:Hdata; [|discriminate].
    destruct (SignedBuilderBid.Message data) as [message|] eqn:Hmsg; [|discriminate].
    destruct (Cmp (BuilderBid.Value message) ZeroU256 =? 0) eqn:Hcmp; [discriminate|].
    intros [= <-]. unfold Redis.bidValue. rewrite Hdata, Hmsg.
    intros Hzero. assert (Hc : (Cmp (BuilderBid.Value message) ZeroU256 =? 0) = true)
      by (apply Cmp_zero; exact Hzero).
    congruence.
Qed.

Lemma getHeader_204_witness :
  handleGetHeader "invalid slot" "invalid pubkey" "invalid hash" (Scenario.api 0 false)
    "101" Scenario.parentHashHex Scenario.proposerPubkeyHex (Scenario.cacheWithBestBid 0) None
  = WriteHeader StatusNoContent
  /\ handleGetHeader "invalid slot" "invalid pubkey" "invalid hash" (Scenario.api 0 false)
       "99" Scenario.parentHashHex Scenario.proposerPubkeyHex (Scenario.cacheWithBestBid 0) None
     = RespondError StatusBadRequest "slot is too old".
Proof.
  split.
  - destruct (getHeader_204_without_positive_bid "invalid slot" "invalid pubkey" "invalid hash"
                (Scenario.api 0 false) "101" Scenario.parentHashHex Scenario.proposerPubkeyHex
                (Scenario.cacheWithBestBid 0) None 101 eq_refl eq_refl eq_refl)
      as (_ & H & _).
    eapply H.
    + vm_compute. discriminate.
    + reflexivity.
    + right. eexists. split; reflexivity.
  - destruct (getHeader_204_without_positive_bid "invalid slot" "invalid pubkey" "invalid hash"
                (Scenario.api 0 false) "99" Scenario.parentHashHex Scenario.proposerPubkeyHex
                (Scenario.cacheWithBestBid 0) None 99 eq_refl eq_refl eq_refl)
      as (H & _).
    apply H. vm_compute. reflexivity.
Defined.

(** The claim C6 as stated fails: the parameters are well formed, the slot
    is not below the head slot, and the cache holds no bid for the tuple, or
    a bid of value zero; the lookup failing, the response is not 204 but 400
    with the error of the lookup. *)
Lemma getHeader_400_when_lookup_fails :
  let key := (101, Scenario.parentHashHex, Scenario.proposerPubkeyHex) in
  let getHeader r :=
    handleGetHeader "invalid slot" "invalid pubkey" "invalid hash" (Scenario.api 0 false)
      "101" Scenario.parentHashHex Scenario.proposerPubkeyHex r (Some "i/o timeout") in
  Strconv.ParseUint "101" 64 = Some 101
  /\ String.length Scenario.proposerPubkeyHex = 98%nat
  /\ String.length Scenario.parentHashHex = 66%nat
  /\ RelayAPI.headSlot (Scenario.api 0 false) <= 101
  /\ Redis.bestBids Redis.empty !! key = None
  /\ getHeader Redis.empty = RespondError StatusBadRequest "i/o timeout"
  /\ option_map Redis.bidValue (Redis.bestBids (Scenario.cacheWithBestBid 0) !! key) = Some 0
  /\ getHeader (Scenario.cacheWithBestBid 0) = RespondError StatusBadRequest "i/o timeout"
  /\ getHeader Redis.empty <> WriteHeader StatusNoContent.
Proof.
  vm_compute. repeat split; try reflexivity; discriminate.
Qed.

(** A positive bid is served. *)
Lemma getHeader_serves_positive_bid :
  exists bid,
    handleGetHeader "invalid slot" "invalid pubkey" "invalid hash" (Scenario.api 0 false)
      "101" Scenario.parentHashHex Scenario.proposerPubkeyHex (Scenario.cacheWithBestBid 5) None
    = RespondOK (BodyGetHeader bid)
    /\ Redis.bidValue bid = 5.
Proof. eexists. split; vm_compute; reflexivity. Qed.


(** ** C10 and C7: validator registrations *)

Lemma registerValidator_stopped r start st value :
  RegisterState.processingStoppedByError st = true ->
  registerValidator r start st value
  = RegisterState.mk (RegisterState.api st) (RegisterState.written st)
      (RegisterState.numRegTotal st + 1) (RegisterState.numRegProcessed st)
      (RegisterState.numRegActive st) (RegisterState.numRegNew st) true.
Proof. intros H. unfold registerValidator. simpl. rewrite H. reflexivity. Qed.

Lemma registerValidator_future r start st value pk timestamp :
  RegisterState.processingStoppedByError st = false ->
  parseRegistration value = inr (pk, timestamp) ->
  Time.After (Time.Unix timestamp) (Time.AddSeconds start 10) = true ->
  registerValidator r start st value
  = respondError StatusBadRequest "timestamp too far in the future"
      (RegisterState.mk (RegisterState.api st) (RegisterState.written st)
         (RegisterState.numRegTotal st + 1) (RegisterState.numRegProcessed st + 1)
         (RegisterState.numRegActive st) (RegisterState.numRegNew st) false).
Proof.
  intros Hflag Hparse Hlt. unfold registerValidator. simpl. rewrite Hflag, Hparse.
  rewrite Hlt. reflexivity.
Qed.

Lemma registerValidator_checked r start st value pk timestamp :
  RegisterState.processingStoppedByError st = false ->
  reachesTimestampCheck (RegisterState.api st) start value pk timestamp ->
  registerValidator r start st value
  = match storedTimestamp r value pk with
    | Some prevTimestamp =>
        if u64 timestamp <=? prevTimestamp then trackedActive st pk
        else
          match Registration.unmarshal value with
          | inl err =>
              respondError StatusBadRequest
                ("error unmarshalling signed validator registration: " +:+ err)
                (trackedNew st pk)
          | inr reg =>
              match Registration.verifySignature value with
              | (_, Some err) =>
                  respondError StatusBadRequest
                    ("error verifying registerValidator signature: " +:+ err)
                    (trackedNew st pk)
              | (false, None) =>
                  apiRespondError StatusBadRequest
                    ("failed to verify validator signature for "
                     +:+ RegisterValidatorRequestMessage.Pubkey
                           (SignedValidatorRegistration.Message reg))
                    (trackedNew st pk)
              | (true, None) =>
                  let st := trackedNew st pk in
                  RegisterState.mk
                    (RelayAPI.withChannels (RegisterState.api st)
                       (RelayAPI.activeValidatorC (RegisterState.api st))
                       (trySend (RelayAPI.validatorRegC (RegisterState.api st)) reg))
                    (RegisterState.written st) (RegisterState.numRegTotal st)
                    (RegisterState.numRegProcessed st) (RegisterState.numRegActive st)
                    (RegisterState.numRegNew st) (RegisterState.processingStoppedByError st)
              end
          end
    | None =>
        match Registration.unmarshal value with
        | inl err =>
            respondError StatusBadRequest
              ("error unmarshalling signed validator registration: " +:+ err)
              (trackedNew st pk)
        | inr reg =>
            match Registration.verifySignature value with
            | (_, Some err) =>
                respondError StatusBadRequest
                  ("error verifying registerValidator signature: " +:+ err)
                  (trackedNew st pk)
            | (false, None) =>
                apiRespondError StatusBadRequest
                  ("failed to verify validator signature for "
                   +:+ RegisterValidatorRequestMessage.Pubkey
                         (SignedValidatorRegistration.Message reg))
                  (trackedNew st pk)
            | (true, None) =>
                let st := trackedNew st pk in
                RegisterState.mk
                  (RelayAPI.withChannels (RegisterState.api st)
                     (RelayAPI.activeValidatorC (RegisterState.api st))
                     (trySend (RelayAPI.validatorRegC (RegisterState.api st)) reg))
                  (RegisterState.written st) (RegisterState.numRegTotal st)
                  (RegisterState.numRegProcessed st) (RegisterState.numRegActive st)
                  (RegisterState.numRegNew st) (RegisterState.processingStoppedByError st)
            end
        end
    end.
Proof.
  intros Hflag (Hparse & Hle & Hknown).
  unfold registerValidator, storedTimestamp, trackedNew, trackedActive. simpl.
  rewrite Hflag, Hparse.
  rewrite Hle.
  rewrite bool_decide_eq_true_2 by exact Hknown. simpl.
  destruct (Redis.GetValidatorRegistrationTimestamp _ _ _) as [prev [err|]].
  - destruct (Registration.unmarshal value) as [e|reg]; [reflexivity|].
    destruct (Registration.verifySignature value) as [[|] [e|]]; reflexivity.
  - destruct (u64 timestamp <=? prev); [reflexivity|].
    destruct (Registration.unmarshal value) as [e|reg]; [reflexivity|].
    destruct (Registration.verifySignature value) as [[|] [e|]]; reflexivity.
Qed.

Lemma registerValidator_known r start st value :
  RelayAPI.knownValidators (RegisterState.api (registerValidator r start st value))
  = RelayAPI.knownValidators (RegisterState.api st).
Proof.
  unfold registerValidator, respondError, apiRespondError.
  repeat match goal with
         | |- context [match ?x with _ => _ end] => destruct x; simpl
         end; reflexivity.
Qed.

Lemma registerValidator_processed r start st value :
  RegisterState.processingStoppedByError st = false ->
  RegisterState.numRegProcessed (registerValidator r start st value)
  = RegisterState.numRegProcessed st + 1.
Proof.
  intros Hflag. unfold registerValidator, respondError, apiRespondError. simpl.
  rewrite Hflag.
  repeat match goal with
         | |- context [match ?x with _ => _ end] => destruct x; simpl
         end; reflexivity.
Qed.

Lemma registerValidator_accepted r start st value reg :
  RegisterState.processingStoppedByError st = false ->
  acceptedAs (RegisterState.api st) r start value reg ->
  let st' := registerValidator r start st value in
  RegisterState.processingStoppedByError st' = false
  /\ RegisterState.written st' = RegisterState.written st
  /\ RegisterState.numRegProcessed st' = RegisterState.numRegProcessed st + 1
  /\ RelayAPI.validatorRegC (RegisterState.api st')
     = trySend (RelayAPI.validatorRegC (RegisterState.api st)) reg.
Proof.
  intros Hflag (pk & timestamp & (Hreach & Hnew & Hdec) & Hsig) st'. subst st'.
  rewrite (registerValidator_checked _ _ _ _ _ _ Hflag Hreach), Hdec, Hsig.
  destruct (storedTimestamp r value pk) as [prev|].
  - apply Z.leb_gt in Hnew. rewrite Hnew. simpl. auto.
  - simpl. auto.
Qed.

Lemma acceptedAs_known api api' r start value reg :
  RelayAPI.knownValidators api' = RelayAPI.knownValidators api ->
  acceptedAs api r start value reg -> acceptedAs api' r start value reg.
Proof.
  intros Hk (pk & ts & ((Hp & Hle & Hin) & Hnew & Hdec) & Hsig).
  exists pk, ts. unfold reachesVerification, reachesTimestampCheck. rewrite Hk. auto.
Qed.

Lemma registerValidator_all_accepted api r start post regs :
  Forall2 (acceptedAs api r start) post regs ->
  forall st,
    RelayAPI.knownValidators (RegisterState.api st) = RelayAPI.knownValidators api ->
    RegisterState.processingStoppedByError st = false ->
    let st' := foldl (registerValidator r start) st post in
    RegisterState.processingStoppedByError st' = false
    /\ RegisterState.written st' = RegisterState.written st
    /\ RegisterState.numRegProcessed st' = RegisterState.numRegProcessed st + lengthZ post
    /\ RelayAPI.validatorRegC (RegisterState.api st')
       = foldl trySend (RelayAPI.validatorRegC (RegisterState.api st)) regs.
Proof.
  induction 1 as [|value reg post regs Hacc _ IH]; intros st Hk Hflag.
  - simpl. unfold lengthZ. simpl. repeat split; [exact Hflag | lia].
  - simpl.
    destruct (registerValidator_accepted r start st value reg Hflag
                (acceptedAs_known _ _ _ _ _ _ Hk Hacc)) as (Hf & Hw & Hn & Hc).
    destruct (IH (registerValidator r start st value)) as (Hf' & Hw' & Hn' & Hc').
    + now rewrite registerValidator_known.
    + exact Hf.
    + rewrite Hf', Hw', Hn', Hc', Hw, Hn, Hc. repeat split.
      unfold lengthZ. simpl length. lia.
Qed.

Lemma foldl_registerValidator_known r start elements st :
  RelayAPI.knownValidators (RegisterState.api (foldl (registerValidator r start) st elements))
  = RelayAPI.knownValidators (RegisterState.api st).
Proof.
  revert st. induction elements as [|x xs IH]; intros st; [reflexivity|].
  simpl. now rewrite IH, registerValidator_known.
Qed.

(** C10. When the signature check of an element of a registration batch
    answers false without an error, the handler writes a 400 response for
    the element and leaves the processing-stopped flag as it was, cleared.
    The element is not enqueued; every following element is still processed
    (it is counted as processed, and a following run of valid registrations
    is verified and enqueued one by one), and after the iteration the status
    200 is still written, behind the 400. *)
Theorem failed_signature_does_not_stop_processing
    api r start pre value post pk timestamp reg regs :
  let st := foldl (registerValidator r start) (RegisterState.init api) pre in
  RegisterState.processingStoppedByError st = false ->
  reachesVerification (RegisterState.api st) r start value pk timestamp reg ->
  Registration.verifySignature value = (false, None) ->
  Forall2 (acceptedAs api r start) post regs ->
  let st1 := registerValidator r start st value in
  let final := handleRegisterValidator api (RegistrationArray (pre ++ value :: post) None)
                 r start in
  RegisterState.written st1
  = RegisterState.written st
    ++ [RespondError StatusBadRequest
          ("failed to verify validator signature for "
           +:+ RegisterValidatorRequestMessage.Pubkey (SignedValidatorRegistration.Message reg))]
  /\ RegisterState.processingStoppedByError st1 = false
  /\ RelayAPI.validatorRegC (RegisterState.api st1)
     = RelayAPI.validatorRegC (RegisterState.api st)
  /\ (forall next, RegisterState.numRegProcessed (registerValidator r start st1 next)
                   = RegisterState.numRegProcessed st1 + 1)
  /\ RegisterState.numRegProcessed final
     = RegisterState.numRegProcessed st + 1 + lengthZ post
  /\ RelayAPI.validatorRegC (RegisterState.api final)
     = foldl trySend (RelayAPI.validatorRegC (RegisterState.api st)) regs
  /\ RegisterState.written final = RegisterState.written st1 ++ [WriteHeader StatusOK]
  /\ RegisterState.processingStoppedByError final = false.
Proof.
  intros st Hflag (Hreach & Hnew & Hdec) Hsig Hpost st1 final.
  assert (Hst1 : st1 = apiRespondError StatusBadRequest
                         ("failed to verify validator signature for "
                          +:+ RegisterValidatorRequestMessage.Pubkey
                                (SignedValidatorRegistration.Message reg))
                         (trackedNew st pk)).
  { subst st1. rewrite (registerValidator_checked _ _ _ _ _ _ Hflag Hreach), Hdec, Hsig.
    destruct (storedTimestamp r value pk) as [prev|]; [|reflexivity].
    apply Z.leb_gt in Hnew. now rewrite Hnew. }
  assert (Hflag1 : RegisterState.processingStoppedByError st1 = false)
    by (rewrite Hst1; exact Hflag).
  assert (Hk1 : RelayAPI.knownValidators (RegisterState.api st1) = RelayAPI.knownValidators api).
  { subst st1 st. now rewrite registerValidator_known, foldl_registerValidator_known. }
  destruct (registerValidator_all_accepted api r start post regs Hpost st1 Hk1 Hflag1)
    as (Hf & Hw & Hn & Hc).
  assert (Hfinal : final
                   = let st2 := foldl (registerValidator r start) st1 post in
                     RegisterState.mk (RegisterState.api st2)
                       (RegisterState.written st2 ++ [WriteHeader StatusOK])
                       (RegisterState.numRegTotal st2) (RegisterState.numRegProcessed st2)
                       (RegisterState.numRegActive st2) (RegisterState.numRegNew st2)
                       (RegisterState.processingStoppedByError st2)).
  { subst final st1 st. unfold handleRegisterValidator. rewrite foldl_app. reflexivity. }
  split; [rewrite Hst1; reflexivity|]. split; [exact Hflag1|].
  split; [rewrite Hst1; reflexivity|].
  split; [intros next; now apply registerValidator_processed|].
  rewrite Hfinal. cbn [RegisterState.numRegProcessed RegisterState.api RegisterState.written
                         RegisterState.processingStoppedByError].
  rewrite Hn, Hc, Hw, Hf. repeat split.
  - rewrite Hst1. simpl. lia.
  - rewrite Hst1. reflexivity.
Qed.

Lemma failed_signature_does_not_stop_processing_witness :
  let bad := Registration.mk (inr "0xA") (inr "100") (inr Scenario.registration) None
               (false, None) in
  let good := Registration.mk (inr "0xA") (inr "101") (inr Scenario.registration) None
                (true, None) in
  let final := handleRegisterValidator (Scenario.api 0 false)
                 (RegistrationArray [bad; good] None) Redis.empty Scenario.now in
  RegisterState.written final
  = [RespondError StatusBadRequest "failed to verify validator signature for 0xA";
     WriteHeader StatusOK]
  /\ RelayAPI.validatorRegC (RegisterState.api final) = [Scenario.registration]
  /\ RegisterState.numRegProcessed final = 2
  /\ RegisterState.processingStoppedByError final = false.
Proof.
  intros bad good final.
  assert (Hreach : reachesVerification (Scenario.api 0 false) Redis.empty Scenario.now bad
                     "0xA" 100 Scenario.registration).
  { repeat split. }
  assert (Hpost : Forall2 (acceptedAs (Scenario.api 0 false) Redis.empty Scenario.now)
                    [good] [Scenario.registration]).
  { constructor; [|constructor]. exists "0xA"%string, 101. repeat split. }
  destruct (failed_signature_does_not_stop_processing (Scenario.api 0 false) Redis.empty
              Scenario.now [] bad [good] "0xA" 100 Scenario.registration
              [Scenario.registration] eq_refl Hreach eq_refl Hpost)
    as (Hw1 & _ & _ & _ & Hn & Hc & Hw & Hf).
  split; [|split; [|split]].
  - etransitivity; [exact Hw|]. rewrite Hw1. reflexivity.
  - etransitivity; [exact Hc|]. reflexivity.
  - etransitivity; [exact Hn|]. reflexivity.
  - exact Hf.
Defined.

Lemma representable_bounds timestamp :
  representable timestamp ->
  - 2 ^ 63 <= timestamp + Time.unixToInternal <= Time.maxInt64.
Proof.
  unfold representable, Time.int64, Time.maxInt64. intros H.
  pose proof (Z.mod_pos_bound (timestamp + Time.unixToInternal + 2 ^ 63) (2 ^ 64)). lia.
Qed.

Lemma After_Unix start timestamp :
  representable timestamp -> 0 <= Time.nsec start ->
  Time.After (Time.Unix timestamp) (Time.AddSeconds start 10) = true
  <-> tooFarInFuture start timestamp.
Proof.
  intros Hrep Hnsec. pose proof (representable_bounds _ Hrep) as Hb.
  unfold Time.After, Time.Unix, Time.AddSeconds, tooFarInFuture. cbn [Time.sec Time.nsec].
  rewrite Hrep.
  replace (Time.nsec start <? 0) with false by (symmetry; apply Z.ltb_ge; exact Hnsec).
  rewrite andb_false_r, orb_false_r, Z.ltb_lt.
  destruct (Time.sec start + 10 <=? Time.maxInt64) eqn:Hsat; [lia|].
  apply Z.leb_gt in Hsat. lia.
Qed.

Lemma registerValidator_enqueued r start st value pk timestamp :
  RegisterState.processingStoppedByError st = false ->
  parseRegistration value = inr (pk, timestamp) ->
  enqueuedBy r start st value ->
  match storedTimestamp r value pk with
  | Some prevTimestamp => prevTimestamp < u64 timestamp
  | None => True
  end.
Proof.
  intros Hflag Hparse. unfold enqueuedBy, registerValidator, storedTimestamp.
  simpl. rewrite Hflag, Hparse.
  destruct (Time.After _ _); [intros H; now elim H|].
  destruct (negb _); [intros H; now elim H|].
  destruct (Redis.GetValidatorRegistrationTimestamp r pk (Registration.getTimestampFail value))
    as [prev [e|]]; [trivial|].
  destruct (u64 timestamp <=? prev) eqn:Hle; [intros H; now elim H|].
  intros _. now apply Z.leb_gt in Hle.
Qed.

(** C7, amended.  For an element of a registration batch that is processed
    (no earlier element stopped the processing), whose public key and
    timestamp fields parse, and whose timestamp [time.Unix] holds without
    wrapping (the timestamp plus 62135596800 is within the int64 range), the
    time the request started being processed having a nanosecond part that
    is not negative: if the timestamp is more than 10 seconds after that
    time, the element is rejected with 400 "timestamp too far in the future"
    and the processing stops; otherwise, if the public key is a known
    validator, the stored registration timestamp was read, and the timestamp
    is not negative and not greater than the stored one, the element is
    skipped: it is counted and its public key sent to the active-validator
    channel, but nothing is written, decoded, verified or enqueued.  And when
    the element enqueues a registration for persistence, its timestamp field
    as the handler parsed it ([message.timestamp], not the timestamp of the
    decoded registration that is enqueued), if not negative, is greater than
    the stored timestamp, unless the stored one could not be read. *)
Theorem registration_timestamp_checks r start st value pk timestamp :
  RegisterState.processingStoppedByError st = false ->
  parseRegistration value = inr (pk, timestamp) ->
  representable timestamp ->
  0 <= Time.nsec start ->
  (tooFarInFuture start timestamp ->
   registerValidator r start st value
   = respondError StatusBadRequest "timestamp too far in the future"
       (RegisterState.mk (RegisterState.api st) (RegisterState.written st)
          (RegisterState.numRegTotal st + 1) (RegisterState.numRegProcessed st + 1)
          (RegisterState.numRegActive st) (RegisterState.numRegNew st) false))
  /\ (forall prevTimestamp,
        ~ tooFarInFuture start timestamp ->
        pk ∈ RelayAPI.knownValidators (RegisterState.api st) ->
        storedTimestamp r value pk = Some prevTimestamp ->
        0 <= timestamp <= prevTimestamp ->
        registerValidator r start st value = trackedActive st pk
        /\ ~ enqueuedBy r start st value)
  /\ (enqueuedBy r start st value ->
      0 <= timestamp ->
      match storedTimestamp r value pk with
      | Some prevTimestamp => prevTimestamp < timestamp
      | None => True
      end).
Proof.
  intros Hflag Hparse Hrep Hnsec.
  pose proof (After_Unix start timestamp Hrep Hnsec) as Hafter.
  pose proof (representable_bounds _ Hrep) as Hb.
  assert (Hu64 : 0 <= timestamp -> u64 timestamp = timestamp).
  { intros H0. unfold u64. apply Z.mod_small. unfold Time.maxInt64, Time.unixToInternal in Hb.
    lia. }
  split; [|split].
  - intros Hfar. apply (registerValidator_future r start st value pk timestamp Hflag Hparse).
    now apply Hafter.
  - intros prev Hnear Hknown Hstored [H0 Hle].
    assert (Heq : registerValidator r start st value = trackedActive st pk).
    { rewrite (registerValidator_checked r start st value pk timestamp Hflag).
      - rewrite Hstored, (Hu64 H0).
        replace (timestamp <=? prev) with true by (symmetry; now apply Z.leb_le).
        reflexivity.
      - split; [exact Hparse|]. split; [|exact Hknown].
        apply not_true_is_false. intros H. now apply Hnear, Hafter. }
    split; [exact Heq|]. unfold enqueuedBy. rewrite Heq. intros H. now apply H.
  - intros Henq H0.
    pose proof (registerValidator_enqueued r start st value pk timestamp Hflag Hparse Henq)
      as Hnew.
    destruct (storedTimestamp r value pk); [|exact I]. now rewrite (Hu64 H0) in Hnew.
Qed.

Lemma registration_timestamp_checks_witness :
  let value := Registration.mk (inr "0xA") (inr "1600000000") (inr Scenario.registration)
                 None (true, None) in
  let st := RegisterState.init (Scenario.api 0 false) in
  storedTimestamp Scenario.cacheWithRegistration value "0xA" = Some 1600000000
  /\ registerValidator Scenario.cacheWithRegistration Scenario.now st value
     = trackedActive st "0xA"
  /\ ~ enqueuedBy Scenario.cacheWithRegistration Scenario.now st value.
Proof.
  intros value st. split; [reflexivity|].
  destruct (registration_timestamp_checks Scenario.cacheWithRegistration Scenario.now st value
              "0xA" 1600000000 eq_refl eq_refl eq_refl) as (_ & Hskip & _).
  - simpl. lia.
  - apply (Hskip 1600000000).
    + unfold tooFarInFuture. simpl. lia.
    + reflexivity.
    + reflexivity.
    + lia.
Defined.

(** The claim C7 as stated fails: the stored registration timestamp of
    ["0xA"] is 1 600 000 000 and the element's timestamp is one second
    older, yet, the read of the stored timestamp failing, the element is
    decoded, verified and enqueued for persistence. *)
Lemma older_registration_enqueued_when_read_fails :
  let value := Registration.mk (inr "0xA") (inr "1599999999") (inr Scenario.registration)
                 (Some "i/o timeout") (true, None) in
  let st := RegisterState.init (Scenario.api 0 false) in
  let st' := registerValidator Scenario.cacheWithRegistration Scenario.now st value in
  parseRegistration value = inr ("0xA"%string, 1599999999)
  /\ Redis.validatorRegistrationTimestamps Scenario.cacheWithRegistration !! "0xA"%string
     = Some 1600000000
  /\ 1599999999 <= 1600000000
  /\ RelayAPI.validatorRegC (RegisterState.api st') = [Scenario.registration]
  /\ RegisterState.numRegNew st' = 1
  /\ enqueuedBy Scenario.cacheWithRegistration Scenario.now st value.
Proof.
  vm_compute. repeat split; try reflexivity; discriminate.
Qed.

(** Why the amended statement asks for a timestamp that is not negative and
    that [time.Unix] holds: a negative timestamp is compared with the stored
    one as a uint64, and so is never the older one; a timestamp near the end
    of the int64 range wraps in [time.Unix], and so is not found to lie in
    the future. *)
Lemma negative_timestamp_not_skipped :
  let value := Registration.mk (inr "0xA") (inr "-1") (inr Scenario.registration)
                 None (true, None) in
  let st := RegisterState.init (Scenario.api 0 false) in
  let st' := registerValidator Scenario.cacheWithRegistration Scenario.now st value in
  parseRegistration value = inr ("0xA"%string, -1)
  /\ storedTimestamp Scenario.cacheWithRegistration value "0xA" = Some 1600000000
  /\ RelayAPI.validatorRegC (RegisterState.api st') = [Scenario.registration].
Proof.
  vm_compute. repeat split; reflexivity.
Qed.

Lemma wrapped_timestamp_not_rejected :
  let value := Registration.mk (inr "0xA") (inr "9223372036854775807")
                 (inr Scenario.registration) None (true, None) in
  let st := RegisterState.init (Scenario.api 0 false) in
  let st' := registerValidator Scenario.cacheWithRegistration Scenario.now st value in
  parseRegistration value = inr ("0xA"%string, 9223372036854775807)
  /\ tooFarInFuture Scenario.now 9223372036854775807
  /\ RegisterState.written st' = []
  /\ RelayAPI.validatorRegC (RegisterState.api st') = [Scenario.registration].
Proof.
  vm_compute. repeat split; reflexivity.
Qed.

(** * Further properties of the service *)

(** ** The in-memory state under the events of the machine *)

Lemma registerValidator_channels_only r start st value :
  RelayAPI.withChannels (RegisterState.api (registerValidator r start st value)) [] []
  = RelayAPI.withChannels (RegisterState.api st) [] [].
Proof.
  unfold registerValidator, respondError, apiRespondError.
  repeat match goal with
         | |- context [match ?x with _ => _ end] => destruct x; simpl
         end; reflexivity.
Qed.

Lemma handleRegisterValidator_channels_only api body r start :
  RelayAPI.withChannels (RegisterState.api (handleRegisterValidator api body r start)) [] []
  = RelayAPI.withChannels api [] [].
Proof.
  unfold handleRegisterValidator. destruct body as [|err|elements traverseErr]; try reflexivity.
  assert (H : forall st,
             RelayAPI.withChannels
               (RegisterState.api (foldl (registerValidator r start) st elements)) [] []
             = RelayAPI.withChannels (RegisterState.api st) [] []).
  { induction elements as [|x xs IH]; intros st; [reflexivity|].
    simpl. rewrite IH. apply registerValidator_channels_only. }
  destruct traverseErr; simpl; apply H.
Qed.

Lemma updatedExpectedRandao_slot api slot randao :
  randaoHelper.slot (RelayAPI.expectedPrevRandao api)
  <= randaoHelper.slot (RelayAPI.expectedPrevRandao (updatedExpectedRandao api slot randao)).
Proof.
  rewrite updatedExpectedRandao_unfold. cbv zeta.
  destruct (_ || _); [lia|]. destruct randao as [err|value]; [simpl; lia|].
  destruct (_ <=? _) eqn:Hle; simpl; [|lia]. now apply Z.leb_le in Hle.
Qed.

Lemma updatedExpectedRandaoGuard_randao api slot :
  RelayAPI.expectedPrevRandao (updatedExpectedRandaoGuard api slot).1
  = RelayAPI.expectedPrevRandao api.
Proof. unfold updatedExpectedRandaoGuard. destruct (_ || _); reflexivity. Qed.

Lemma updatedExpectedRandaoGuard_headSlot api slot :
  RelayAPI.headSlot (updatedExpectedRandaoGuard api slot).1 = RelayAPI.headSlot api.
Proof. unfold updatedExpectedRandaoGuard. destruct (_ || _); reflexivity. Qed.

Lemma updatedExpectedRandaoAnswer_headSlot api slot randao :
  RelayAPI.headSlot (updatedExpectedRandaoAnswer api slot randao) = RelayAPI.headSlot api.
Proof.
  unfold updatedExpectedRandaoAnswer. destruct randao as [err|value]; [reflexivity|].
  destruct (_ <=? _); reflexivity.
Qed.

Lemma updatedExpectedRandaoAnswer_slot api slot randao :
  randaoHelper.slot (RelayAPI.expectedPrevRandao api)
  <= randaoHelper.slot (RelayAPI.expectedPrevRandao (updatedExpectedRandaoAnswer api slot randao)).
Proof.
  unfold updatedExpectedRandaoAnswer. destruct randao as [err|value]; [simpl; lia|].
  destruct (_ <=? _) eqn:Hle; simpl; [|lia]. now apply Z.leb_le in Hle.
Qed.

(** The head slot of an instance never decreases, whatever the instance
    does: head events that are not above it are dropped by [processNewSlot],
    and nothing else writes it. *)
Theorem head_slot_never_decreases s evs :
  RelayAPI.headSlot (Relay.api s) <= RelayAPI.headSlot (Relay.api (runEvents s evs)).
Proof.
  unfold runEvents. revert s. induction evs as [|e evs IH]; intros s; [simpl; lia|].
  simpl. etransitivity; [|apply IH].
  destruct e; simpl; try lia.
  - unfold processNewSlot. destruct (headSlot <=? _) eqn:Hle; [simpl; lia|].
    apply Z.leb_gt in Hle. destruct (RelayAPI.optsBlockBuilderAPI _); simpl; lia.
  - unfold updateOptimisticSlot. destruct (Database.GetBlockBuilders _ _) as [l [err|]];
      simpl; lia.
  - rewrite updatedExpectedRandao_unfold. cbv zeta.
    repeat match goal with
           | |- context [match ?x with _ => _ end] => destruct x
           end; simpl; lia.
  - unfold updateProposerDuties.
    repeat match goal with
           | |- context [match ?x with _ => _ end] => destruct x
           end; simpl; lia.
  - pose proof (handleRegisterValidator_channels_only (Relay.api s) body (Relay.redis s) start)
      as H.
    apply (f_equal RelayAPI.headSlot) in H. simpl in H. lia.
  - rewrite updatedExpectedRandaoGuard_headSlot. lia.
  - rewrite updatedExpectedRandaoAnswer_headSlot. lia.
Qed.

(** The slot of the expected prev_randao never decreases: a randao that
    arrives for an older slot than the one held is dropped, and so is a
    failed query. *)
Theorem expected_randao_slot_never_decreases s evs :
  randaoHelper.slot (RelayAPI.expectedPrevRandao (Relay.api s))
  <= randaoHelper.slot (RelayAPI.expectedPrevRandao (Relay.api (runEvents s evs))).
Proof.
  unfold runEvents. revert s. induction evs as [|e evs IH]; intros s; [simpl; lia|].
  simpl. etransitivity; [|apply IH].
  destruct e; simpl; try lia.
  - unfold processNewSlot. destruct (headSlot <=? _); [simpl; lia|].
    destruct (RelayAPI.optsBlockBuilderAPI _); simpl; lia.
  - unfold updateOptimisticSlot. destruct (Database.GetBlockBuilders _ _) as [l [err|]];
      simpl; lia.
  - apply updatedExpectedRandao_slot.
  - unfold updateProposerDuties.
    repeat match goal with
           | |- context [match ?x with _ => _ end] => destruct x
           end; simpl; lia.
  - pose proof (handleRegisterValidator_channels_only (Relay.api s) body (Relay.redis s) start)
      as H.
    apply (f_equal (fun a => randaoHelper.slot (RelayAPI.expectedPrevRandao a))) in H.
    simpl in H. lia.
  - rewrite updatedExpectedRandaoGuard_randao. lia.
  - apply updatedExpectedRandaoAnswer_slot.
Qed.

(** A randao query that was answered is not made again for its slot or an
    earlier one: the second call finds the slot known or marked as being
    updated, and leaves the state as it is. *)
Theorem answered_randao_query_not_repeated api slot slot' value randao :
  slot' <= slot ->
  updatedExpectedRandao (updatedExpectedRandao api slot (inr value)) slot' randao
  = updatedExpectedRandao api slot (inr value).
Proof.
  intros Hle. rewrite (updatedExpectedRandao_unfold api slot). cbv zeta.
  destruct ((slot <? _) || (slot <=? _)) eqn:Habort.
  - rewrite updatedExpectedRandao_unfold. cbv zeta.
    replace ((slot' <? _) || (slot' <=? _)) with true; [reflexivity|].
    symmetry. apply orb_true_iff. apply orb_true_iff in Habort as [H|H].
    + left. apply Z.ltb_lt in H. apply Z.ltb_lt. lia.
    + right. apply Z.leb_le in H. apply Z.leb_le. lia.
  - assert (Hup : forall h,
               updatedExpectedRandao (RelayAPI.withRandao api h slot) slot' randao
               = RelayAPI.withRandao api h slot).
    { intros h. rewrite updatedExpectedRandao_unfold. cbv zeta. simpl.
      replace (slot' <=? slot) with true by (symmetry; now apply Z.leb_le).
      now rewrite orb_true_r. }
    destruct (randaoHelper.slot _ <=? u64 _); apply Hup.
Qed.

Lemma answered_randao_query_not_repeated_witness :
  let api := Scenario.api 0 false in
  updatedExpectedRandao (updatedExpectedRandao api 101 (inr "0xnext"%string)) 101
    (inr "0xother"%string)
  = updatedExpectedRandao api 101 (inr "0xnext"%string)
  /\ RelayAPI.expectedPrevRandao (updatedExpectedRandao api 101 (inr "0xnext"%string))
     = randaoHelper.mk 102 "0xnext".
Proof.
  split; [|reflexivity].
  apply (answered_randao_query_not_repeated (Scenario.api 0 false) 101 101). lia.
Defined.

(** The randao that the beacon node returns for a slot is the one expected of
    submissions for the next slot, unless a later one is held when the answer
    arrives.  [api] is the state the second critical section of the update
    finds, whatever ran since the first.  If the slot of the expected randao
    is then not above [slot + 1], the answer is taken: the final randao check
    of the submission handler lets a submission through exactly when it is
    for [slot + 1] and its payload carries that randao.  If it is above, the
    answer is dropped and the state left as it is. *)
Theorem randao_of_slot_expected_for_next_slot api slot value sub f :
  0 <= slot -> slot + 1 < 2 ^ 64 ->
  let api' := updatedExpectedRandaoAnswer api slot (inr value) in
  (randaoHelper.slot (RelayAPI.expectedPrevRandao api) <= slot + 1 ->
   RelayAPI.expectedPrevRandao api' = randaoHelper.mk (slot + 1) value
   /\ (confirmRandao api' sub f = (f, Continue tt)
       <-> BidTrace.Slot (Submission.message sub) = slot + 1
           /\ ExecutionPayload.Random (Submission.executionPayload sub) = value))
  /\ (slot + 1 < randaoHelper.slot (RelayAPI.expectedPrevRandao api) -> api' = api).
Proof.
  intros H0 Hmax api'. subst api'. unfold updatedExpectedRandaoAnswer.
  rewrite (u64_small (slot + 1)) by lia. split.
  - intros Hlatest.
    replace (randaoHelper.slot (RelayAPI.expectedPrevRandao api) <=? slot + 1) with true
      by (symmetry; apply Z.leb_le; lia).
    split; [reflexivity|].
    unfold confirmRandao, respond, ret.
    cbn [RelayAPI.expectedPrevRandao RelayAPI.withRandao randaoHelper.slot
         randaoHelper.prevRandao].
    split.
    + destruct (negb (slot + 1 =? _)) eqn:Hslot; [discriminate|].
      destruct (negb (String.eqb value _)) eqn:Hrand; [discriminate|].
      intros _. apply negb_false_iff, Z.eqb_eq in Hslot.
      apply negb_false_iff, String.eqb_eq in Hrand. split; congruence.
    + intros [-> ->]. rewrite Z.eqb_refl, String.eqb_refl. reflexivity.
  - intros Hlater.
    replace (randaoHelper.slot (RelayAPI.expectedPrevRandao api) <=? slot + 1) with false
      by (symmetry; apply Z.leb_gt; lia).
    reflexivity.
Qed.

(** Two updates that overlap: the update for slot 101 passes its first
    critical section, the update for slot 102 runs to its end, and then the
    beacon node answers the query for slot 101.  The randao of slot 102,
    expected for slot 103, stays; without the update in between the answer
    for slot 101 is the randao expected for slot 102. *)
Lemma randao_of_slot_expected_for_next_slot_witness :
  let sub := Submission.mk (Scenario.payload 102 5) (Scenario.message 102 5)
               (Scenario.executionPayload 102)
               (lookupBuilderEntry (Scenario.api 0 false) "0xB") Scenario.duty in
  let f := Frame.init (Stores.mk Redis.empty Database.empty []) in
  let s := Relay.mk (Scenario.api 0 false) Redis.empty Database.empty in
  let alone := Relay.api (runEvents s [EvUpdatedExpectedRandaoGuard 101]) in
  let overlapped :=
    Relay.api (runEvents s [EvUpdatedExpectedRandaoGuard 101;
                            EvUpdatedExpectedRandao 102 (inr "0xB"%string)]) in
  RelayAPI.expectedPrevRandao (updatedExpectedRandaoAnswer alone 101 (inr "0xA"%string))
  = randaoHelper.mk 102 "0xA"
  /\ RelayAPI.expectedPrevRandao
       (updatedExpectedRandaoAnswer overlapped 101 (inr "0xA"%string))
     = randaoHelper.mk 103 "0xB".
Proof.
  intros sub f s alone overlapped. split.
  - destruct (randao_of_slot_expected_for_next_slot alone 101 "0xA" sub f) as [H _];
      [lia|lia|].
    apply H. simpl. lia.
  - destruct (randao_of_slot_expected_for_next_slot overlapped 101 "0xA" sub f) as [_ H];
      [lia|lia|].
    rewrite H; [reflexivity|]. vm_compute. reflexivity.
Defined.

(** ** Maps rebuilt from a list *)

Lemma foldl_insert_lookup `{Countable K} {V A} (key : A -> K) (val : A -> V)
    (l : list A) (m : gmap K V) (k : K) :
  foldl (fun m x => <[key x := val x]> m) m l !! k
  = match last (filter (fun x => key x = k) l) with
    | Some x => Some (val x)
    | None => m !! k
    end.
Proof.
  induction l as [|x l IH] using rev_ind; [reflexivity|].
  rewrite foldl_app, filter_app. simpl.
  destruct (decide (key x = k)) as [Heq|Hne].
  - rewrite filter_cons_True, filter_nil by exact Heq.
    rewrite last_snoc, <- Heq. apply lookup_insert_eq.
  - rewrite filter_cons_False, filter_nil, app_nil_r by exact Hne.
    rewrite lookup_insert_ne by exact Hne. exact IH.
Qed.

(** An update of the proposer duties that is due (the head slot is a
    multiple of 8, or 8 slots have passed since the last update) and whose
    read succeeds rebuilds the map from the duties read: a slot has a duty
    afterwards exactly when the list has one for it, the last one listed for
    the slot, and what the map held before is gone. *)
Theorem proposer_duties_rebuilt_from_list api headSlot duties slot :
  headSlot mod 8 = 0 \/ 8 <= u64 (headSlot - RelayAPI.proposerDutiesSlot api) ->
  let api' := updateProposerDuties api headSlot (inr duties) in
  RelayAPI.proposerDutiesMap api' !! slot
  = snd <$> last (filter (fun duty => duty.1 = slot) duties)
  /\ RelayAPI.proposerDutiesSlot api' = headSlot.
Proof.
  intros Hdue. unfold updateProposerDuties.
  replace (negb (headSlot mod 8 =? 0) && (u64 (headSlot - _) <? 8)) with false.
  - simpl. split; [|reflexivity].
    rewrite (foldl_insert_lookup fst snd duties ∅ slot).
    destruct (last _); [reflexivity|]. apply lookup_empty.
  - symmetry. apply andb_false_iff. destruct Hdue as [H|H].
    + left. apply negb_false_iff. now apply Z.eqb_eq.
    + right. apply Z.ltb_ge. exact H.
Qed.

Lemma proposer_duties_rebuilt_from_list_witness :
  let api' := updateProposerDuties (Scenario.api 0 false) 104
                (inr [(105, Scenario.duty); (106, Scenario.duty)]) in
  RelayAPI.proposerDutiesMap api' !! 105 = Some Scenario.duty
  /\ RelayAPI.proposerDutiesMap api' !! 101 = None
  /\ RelayAPI.proposerDutiesSlot api' = 104.
Proof.
  assert (Hdue : 104 mod 8 = 0
                 \/ 8 <= u64 (104 - RelayAPI.proposerDutiesSlot (Scenario.api 0 false)))
    by (left; reflexivity).
  destruct (proposer_duties_rebuilt_from_list (Scenario.api 0 false) 104
              [(105, Scenario.duty); (106, Scenario.duty)] 105 Hdue) as [H105 Hslot].
  destruct (proposer_duties_rebuilt_from_list (Scenario.api 0 false) 104
              [(105, Scenario.duty); (106, Scenario.duty)] 101 Hdue) as [H101 _].
  split; [exact H105|]. split; [exact H101|exact Hslot].
Defined.

(** A refresh of the builder cache that reads the builders leaves every
    builder read with the status bits and the collateral of its row (the
    last row listed for the public key; collateral zero when the column does
    not parse), and every other entry of the cache as it was: no entry is
    ever dropped. *)
Theorem builder_cache_refreshed_from_rows api headSlot d fail builders pubkey :
  Database.GetBlockBuilders d fail = (builders, None) ->
  RelayAPI.blockBuildersCache (updateOptimisticSlot api headSlot d fail) !! pubkey
  = match last (filter (fun v => Database.BlockBuilderEntry.BuilderPubkey v = pubkey)
                  builders) with
    | Some v => Some (cacheEntryOf v)
    | None => RelayAPI.blockBuildersCache api !! pubkey
    end.
Proof.
  intros Hread. unfold updateOptimisticSlot. rewrite Hread. simpl.
  apply (foldl_insert_lookup Database.BlockBuilderEntry.BuilderPubkey cacheEntryOf).
Qed.

Lemma builder_cache_refreshed_from_rows_witness :
  let d := Scenario.database "12" true in
  let api' := updateOptimisticSlot (Scenario.api 100 false) 101 d None in
  RelayAPI.blockBuildersCache api' !! "0xB"%string
  = Some (blockBuilderCacheEntry.mk (BuilderStatus.mk true false true) 12).
Proof.
  intros d api'. subst api'.
  rewrite (builder_cache_refreshed_from_rows (Scenario.api 100 false) 101 d None
             (Database.GetBlockBuilders d None).1 "0xB" eq_refl).
  vm_compute. reflexivity.
Defined.

(** ** The registration handler: counters, channels, stopping *)

Lemma registerValidator_counters r start st value :
  0 <= RegisterState.numRegNew st <= RegisterState.numRegActive st ->
  RegisterState.numRegActive st <= RegisterState.numRegProcessed st
  <= RegisterState.numRegTotal st ->
  let st' := registerValidator r start st value in
  RegisterState.numRegTotal st' = RegisterState.numRegTotal st + 1
  /\ 0 <= RegisterState.numRegNew st' <= RegisterState.numRegActive st'
  /\ RegisterState.numRegActive st' <= RegisterState.numRegProcessed st'
     <= RegisterState.numRegTotal st'.
Proof.
  intros H1 H2. unfold registerValidator, respondError, apiRespondError.
  repeat match goal with
         | |- context [match ?x with _ => _ end] => destruct x; simpl
         end; lia.
Qed.

(** The counters the registration handler logs are consistent for every
    batch: every element of the array is counted in the total, and
    new <= active <= processed <= total. *)
Theorem registration_counters_consistent api elements traverseErr r start :
  let final := handleRegisterValidator api (RegistrationArray elements traverseErr) r start in
  RegisterState.numRegTotal final = lengthZ elements
  /\ 0 <= RegisterState.numRegNew final <= RegisterState.numRegActive final
  /\ RegisterState.numRegActive final <= RegisterState.numRegProcessed final
     <= RegisterState.numRegTotal final.
Proof.
  assert (H : forall st,
             0 <= RegisterState.numRegNew st <= RegisterState.numRegActive st ->
             RegisterState.numRegActive st <= RegisterState.numRegProcessed st
             <= RegisterState.numRegTotal st ->
             let st' := foldl (registerValidator r start) st elements in
             RegisterState.numRegTotal st' = RegisterState.numRegTotal st + lengthZ elements
             /\ 0 <= RegisterState.numRegNew st' <= RegisterState.numRegActive st'
             /\ RegisterState.numRegActive st' <= RegisterState.numRegProcessed st'
                <= RegisterState.numRegTotal st').
  { induction elements as [|x xs IH]; intros st H1 H2.
    - unfold lengthZ. simpl. repeat split; lia.
    - simpl.
      destruct (registerValidator_counters r start st x H1 H2) as (Ht & H1' & H2').
      destruct (IH _ H1' H2') as (Ht' & H1'' & H2'').
      rewrite Ht' in *. rewrite Ht in *. unfold lengthZ in *. simpl length.
      repeat split; lia. }
  intros final. subst final. unfold handleRegisterValidator.
  destruct (H (RegisterState.init api)) as (Ht & H1 & H2); [simpl; lia|simpl; lia|].
  simpl in Ht. destruct traverseErr; simpl; repeat split; lia.
Qed.

Lemma foldl_registerValidator_stopped r start rest st :
  RegisterState.processingStoppedByError st = true ->
  foldl (registerValidator r start) st rest
  = RegisterState.mk (RegisterState.api st) (RegisterState.written st)
      (RegisterState.numRegTotal st + lengthZ rest) (RegisterState.numRegProcessed st)
      (RegisterState.numRegActive st) (RegisterState.numRegNew st) true.
Proof.
  revert st. induction rest as [|x xs IH]; intros st Hflag.
  - unfold lengthZ. simpl. rewrite Z.add_0_r. destruct st. simpl in *. now subst.
  - simpl. rewrite (registerValidator_stopped _ _ _ _ Hflag), IH by reflexivity.
    simpl. f_equal. unfold lengthZ. simpl length. lia.
Qed.

(** Once an element of a batch is rejected through the handler's own
    [respondError], no later element is processed: the elements behind it
    are only counted, nothing more is written for them and nothing more is
    sent to either channel; the handler still ends with the status 200
    behind the error it wrote. *)
Theorem rejected_registration_stops_batch api r start pre value post :
  let st := foldl (registerValidator r start) (RegisterState.init api) pre in
  let st1 := registerValidator r start st value in
  RegisterState.processingStoppedByError st1 = true ->
  let final := handleRegisterValidator api (RegistrationArray (pre ++ value :: post) None)
                 r start in
  RegisterState.api final = RegisterState.api st1
  /\ RegisterState.written final = RegisterState.written st1 ++ [WriteHeader StatusOK]
  /\ RegisterState.numRegProcessed final = RegisterState.numRegProcessed st1
  /\ RegisterState.numRegTotal final = RegisterState.numRegTotal st1 + lengthZ post.
Proof.
  intros st st1 Hflag final. subst final. unfold handleRegisterValidator.
  rewrite foldl_app. simpl. fold st. fold st1.
  rewrite (foldl_registerValidator_stopped r start post st1 Hflag). simpl.
  repeat split.
Qed.

Lemma rejected_registration_stops_batch_witness :
  let unknown := Registration.mk (inr "0xC") (inr "1600000000") (inr Scenario.registration)
                   None (true, None) in
  let good := Registration.mk (inr "0xA") (inr "1600000000") (inr Scenario.registration)
                None (true, None) in
  let final := handleRegisterValidator (Scenario.api 0 false)
                 (RegistrationArray [unknown; good] None) Redis.empty Scenario.now in
  RegisterState.written final
  = [RespondError StatusBadRequest "not a known validator: 0xC"; WriteHeader StatusOK]
  /\ RelayAPI.validatorRegC (RegisterState.api final) = []
  /\ RelayAPI.activeValidatorC (RegisterState.api final) = []
  /\ RegisterState.numRegProcessed final = 1
  /\ RegisterState.numRegTotal final = 2.
Proof.
  intros unknown good final.
  destruct (rejected_registration_stops_batch (Scenario.api 0 false) Redis.empty Scenario.now
              [] unknown [good] eq_refl) as (Hapi & Hw & Hp & Ht).
  split; [etransitivity; [exact Hw|reflexivity]|].
  split; [etransitivity; [exact (f_equal RelayAPI.validatorRegC Hapi)|reflexivity]|].
  split; [etransitivity; [exact (f_equal RelayAPI.activeValidatorC Hapi)|reflexivity]|].
  split; [etransitivity; [exact Hp|reflexivity]|].
  etransitivity; [exact Ht|reflexivity].
Defined.

Lemma trySend_bound {A} (c : list A) (x : A) :
  lengthZ c <= 450000 -> lengthZ (trySend c x) <= 450000.
Proof.
  unfold trySend. destruct (lengthZ c <? 450000) eqn:Hlt; [|trivial].
  apply Z.ltb_lt in Hlt. unfold lengthZ in *. rewrite length_app. simpl. lia.
Qed.

Lemma trySend_prefix {A} (c : list A) (x : A) : c `prefix_of` trySend c x.
Proof.
  unfold trySend. destruct (lengthZ c <? 450000); [now apply prefix_app_r|reflexivity].
Qed.

Lemma registerValidator_channels r start st value :
  let st' := registerValidator r start st value in
  (RelayAPI.activeValidatorC (RegisterState.api st')
   = RelayAPI.activeValidatorC (RegisterState.api st)
   \/ exists pk, RelayAPI.activeValidatorC (RegisterState.api st')
                 = trySend (RelayAPI.activeValidatorC (RegisterState.api st)) pk)
  /\ (RelayAPI.validatorRegC (RegisterState.api st')
      = RelayAPI.validatorRegC (RegisterState.api st)
      \/ exists reg, RelayAPI.validatorRegC (RegisterState.api st')
                     = trySend (RelayAPI.validatorRegC (RegisterState.api st)) reg).
Proof.
  unfold registerValidator, respondError, apiRespondError.
  repeat match goal with
         | |- context [match ?x with _ => _ end] => destruct x; simpl
         end; split; eauto.
Qed.

(** The registration handler never fills a channel beyond its capacity of
    450 000 and never takes anything out of one: what the two channels held
    when the request arrived is a prefix of what they hold when it is
    answered. *)
Theorem registration_channels_bounded api body r start :
  lengthZ (RelayAPI.activeValidatorC api) <= 450000 ->
  lengthZ (RelayAPI.validatorRegC api) <= 450000 ->
  let api' := RegisterState.api (handleRegisterValidator api body r start) in
  lengthZ (RelayAPI.activeValidatorC api') <= 450000
  /\ lengthZ (RelayAPI.validatorRegC api') <= 450000
  /\ RelayAPI.activeValidatorC api `prefix_of` RelayAPI.activeValidatorC api'
  /\ RelayAPI.validatorRegC api `prefix_of` RelayAPI.validatorRegC api'.
Proof.
  intros Ha Hr.
  assert (H : forall elements st,
             lengthZ (RelayAPI.activeValidatorC (RegisterState.api st)) <= 450000 ->
             lengthZ (RelayAPI.validatorRegC (RegisterState.api st)) <= 450000 ->
             let api' := RegisterState.api (foldl (registerValidator r start) st elements) in
             lengthZ (RelayAPI.activeValidatorC api') <= 450000
             /\ lengthZ (RelayAPI.validatorRegC api') <= 450000
             /\ RelayAPI.activeValidatorC (RegisterState.api st)
                `prefix_of` RelayAPI.activeValidatorC api'
             /\ RelayAPI.validatorRegC (RegisterState.api st)
                `prefix_of` RelayAPI.validatorRegC api').
  { induction elements as [|x xs IH]; intros st H1 H2; [now simpl|].
    simpl. destruct (registerValidator_channels r start st x) as [Hact Hreg].
    destruct (IH (registerValidator r start st x)) as (B1 & B2 & P1 & P2).
    - destruct Hact as [->|[pk ->]]; [exact H1|now apply trySend_bound].
    - destruct Hreg as [->|[reg ->]]; [exact H2|now apply trySend_bound].
    - split; [exact B1|]. split; [exact B2|]. split.
      + etransitivity; [|exact P1].
        destruct Hact as [->|[pk ->]]; [reflexivity|apply trySend_prefix].
      + etransitivity; [|exact P2].
        destruct Hreg as [->|[reg ->]]; [reflexivity|apply trySend_prefix]. }
  unfold handleRegisterValidator. destruct body as [|err|elements traverseErr].
  - now simpl.
  - now simpl.
  - destruct traverseErr; simpl; apply (H elements (RegisterState.init api) Ha Hr).
Qed.

Lemma registration_channels_bounded_witness :
  let good := Registration.mk (inr "0xA") (inr "1600000000") (inr Scenario.registration)
                None (true, None) in
  let api' := RegisterState.api
                (handleRegisterValidator (Scenario.api 0 false)
                   (RegistrationArray [good] None) Redis.empty Scenario.now) in
  lengthZ (RelayAPI.activeValidatorC api') <= 450000
  /\ lengthZ (RelayAPI.validatorRegC api') <= 450000.
Proof.
  intros good api'.
  destruct (registration_channels_bounded (Scenario.api 0 false)
              (RegistrationArray [good] None) Redis.empty Scenario.now)
    as (B1 & B2 & _ & _).
  - unfold lengthZ. simpl. lia.
  - unfold lengthZ. simpl. lia.
  - split; [exact B1|exact B2].
Defined.

(** A processed element whose fields parse, which is not too far in the
    future and whose public key is a known validator has its public key sent
    to the active-validator channel, whatever the stored timestamp, the
    decoder and the signature check answer: the validator is tracked as
    active before the registration is verified. *)
Theorem validator_tracked_active_before_verification r start st value pk timestamp :
  RegisterState.processingStoppedByError st = false ->
  reachesTimestampCheck (RegisterState.api st) start value pk timestamp ->
  let st' := registerValidator r start st value in
  RelayAPI.activeValidatorC (RegisterState.api st')
  = trySend (RelayAPI.activeValidatorC (RegisterState.api st)) pk
  /\ RegisterState.numRegActive st' = RegisterState.numRegActive st + 1.
Proof.
  intros Hflag Hreach st'. subst st'.
  rewrite (registerValidator_checked r start st value pk timestamp Hflag Hreach).
  unfold respondError, apiRespondError, trackedNew, trackedActive.
  repeat match goal with
         | |- context [match ?x with _ => _ end] => destruct x; simpl
         end; split; reflexivity.
Qed.

Lemma validator_tracked_active_before_verification_witness :
  let forged := Registration.mk (inr "0xA") (inr "1600000000") (inr Scenario.registration)
                  None (false, None) in
  let st' := registerValidator Redis.empty Scenario.now
               (RegisterState.init (Scenario.api 0 false)) forged in
  RelayAPI.activeValidatorC (RegisterState.api st') = ["0xA"%string]
  /\ RelayAPI.validatorRegC (RegisterState.api st') = [].
Proof.
  intros forged st'. split; [|reflexivity].
  assert (Hreach : reachesTimestampCheck
                     (RegisterState.api (RegisterState.init (Scenario.api 0 false)))
                     Scenario.now forged "0xA" 1600000000) by (repeat split).
  destruct (validator_tracked_active_before_verification Redis.empty Scenario.now
              (RegisterState.init (Scenario.api 0 false)) forged "0xA" 1600000000
              eq_refl Hreach) as [H _].
  exact H.
Defined.

(** ** Submissions: what is stored, and when *)

Lemma answer_frame (x : Frame.t * Outcome unit) : (answer x).1 = x.1.
Proof. destruct x as [f [[]|w]]; reflexivity. Qed.

Lemma simulateSubmission_started api sub env f0 f o :
  simulateSubmission api sub env f0 = (f, o) ->
  Frame.eligibleAt f = Frame.eligibleAt f0
  /\ exists x, effectsOf f = effectsOf f0 ++ [x] /\ simulationStarted x = true.
Proof.
  unfold simulateSubmission, simulateBlock, bind, get, modify, ret, respond.
  destruct (sufficientCollateral api sub).
  - intros [= <- <-]. split; [reflexivity|]. eexists. split; reflexivity.
  - destruct (SubmitEnv.blockSim env) as [e|]; [destruct (decide _)|];
      cbv beta iota zeta; intros [= <- <-]; (split; [reflexivity|]);
      eexists; split; reflexivity.
Qed.

Lemma redisWrite_eligibleAt op event f0 f1 o :
  redisWrite op event f0 = (f1, o) ->
  Frame.eligibleAt f1 = Frame.eligibleAt f0
  /\ (o = Continue tt \/ exists e, o = Return (RespondError StatusInternalServerError e)).
Proof.
  intros H. apply redisWrite_inv in H as [-> ->]. split; [reflexivity|].
  destruct (op (Frame.redis f0)).2; eauto.
Qed.

Lemma saveToRedis_eligibleAt sub env h p t f0 f1 o :
  saveToRedis sub env h p t f0 = (f1, o) ->
  Frame.eligibleAt f1 = Frame.eligibleAt f0
  /\ (o = Continue tt \/ exists e, o = Return (RespondError StatusInternalServerError e)).
Proof.
  unfold saveToRedis. intros H.
  bind_cases H as H1; apply redisWrite_eligibleAt in H1 as [E1 O1];
    [|split; [exact E1|destruct O1 as [[=]|O1]; right; exact O1]].
  bind_cases H as H2; apply redisWrite_eligibleAt in H2 as [E2 O2];
    [|split; [congruence|destruct O2 as [[=]|O2]; right; exact O2]].
  bind_cases H as H3; apply redisWrite_eligibleAt in H3 as [E3 O3];
    [|split; [congruence|destruct O3 as [[=]|O3]; right; exact O3]].
  apply redisWrite_eligibleAt in H as [E4 O4]. split; [congruence|exact O4].
Qed.

Lemma storeSubmission_eligibleAt api sub env f0 f1 o :
  storeSubmission api sub env f0 = (f1, o) ->
  (o = Return (WriteHeader StatusOK)
   /\ Frame.eligibleAt f1 = Some (SubmitEnv.eligibleTime env))
  \/ (exists code msg, o = Return (RespondError code msg)
                       /\ Frame.eligibleAt f1 = Frame.eligibleAt f0).
Proof.
  unfold storeSubmission. intros H.
  bind_cases H as H1.
  2:{ right. unfold ensureLatest, bind, get, respond, ret in H1.
      case_handler; eauto. }
  apply ensureLatest_frame in H1 as ->.
  bind_cases H as H2.
  2:{ right. unfold prepareResponses, respond, ret in H2. case_handler; eauto. }
  apply prepareResponses_frame in H2 as ->.
  destruct a0 as [[h p] t].
  bind_cases H as H3; apply saveToRedis_eligibleAt in H3 as [E3 O3].
  2:{ right. destruct O3 as [[=]|[e [= ->]]]. eauto. }
  bind_cases H as H4; unfold modify in H4; inversion H4; subst; clear H4.
  unfold respond in H. inversion H; subst; clear H.
  left. split; reflexivity.
Qed.

Lemma saveSubmission_audits sub env f :
  exists err rest,
    effectsOf (saveSubmission sub env f)
    = effectsOf f ++ SaveBuilderBlockSubmission (Frame.optimisticSubmission f) err :: rest
    /\ match err with
       | Some _ => rest = []
       | None => exists e, rest = [UpsertBlockBuilderEntryAfterSubmission
                                     (bool_decide (Frame.simErr f <> None)) e]
       end.
Proof.
  unfold saveSubmission.
  destruct (Database.SaveBuilderBlockSubmission _ _ _ _ _ _ _) as [d [err|entry]].
  - exists (Some err), []. split; reflexivity.
  - match goal with
    | |- context [Database.UpsertBlockBuilderEntryAfterSubmission ?a ?b ?c ?d] =>
        destruct (Database.UpsertBlockBuilderEntryAfterSubmission a b c d) as [d' err]
    end.
    exists None. eexists. split.
    + unfold effectsOf. simpl. rewrite <- app_assoc. reflexivity.
    + eexists. reflexivity.
Qed.

(** What the handler does behind the checks: the simulation is started, then
    come cache writes, and the deferred audit write sees the frame they
    leave. *)
Lemma handleSubmitNewBlock_behind_checks api body env r d f1 sub :
  checksBeforeSimulation api body env (Frame.init (Stores.mk r d [])) = (f1, Continue sub) ->
  exists f' o x writes,
    handleSubmitNewBlock api body env r d = answer (saveSubmission sub env f', o)
    /\ effectsOf f' = effectsOf f1 ++ x :: writes
    /\ simulationStarted x = true
    /\ Forall (fun e => isCacheWrite e = true) writes
    /\ ((o = Return (WriteHeader StatusOK)
         /\ Frame.eligibleAt f' = Some (SubmitEnv.eligibleTime env))
        \/ (exists code msg, o = Return (RespondError code msg)
                             /\ Frame.eligibleAt f' = None)).
Proof.
  intros Hchecks. rewrite (handleSubmitNewBlock_reached _ _ _ _ _ _ _ Hchecks).
  assert (Hel : Frame.eligibleAt f1 = None).
  { apply checksBeforeSimulation_frame in Hchecks as (extra & -> & _). reflexivity. }
  unfold processSubmission, withDefer.
  destruct ((do _ <- simulateSubmission api sub env ; storeSubmission api sub env) f1)
    as [f' o] eqn:Hbody.
  exists f', o. bind_cases Hbody as Hsim.
  - apply simulateSubmission_started in Hsim as (Hel1 & x & Hx & Hstarted).
    pose proof (storeSubmission_stored _ _ _ _ _ _ Hbody) as (_ & _ & _ & _ & writes & Hw & Hall).
    apply storeSubmission_eligibleAt in Hbody as Hend.
    exists x, writes. split; [reflexivity|]. split.
    + rewrite Hw, Hx. now rewrite <- app_assoc.
    + split; [exact Hstarted|]. split; [exact Hall|].
      destruct Hend as [Hok|(code & msg & Ho & He)]; [left; exact Hok|right].
      exists code, msg. split; [exact Ho|congruence].
  - pose proof Hsim as Hsim'.
    apply simulateSubmission_started in Hsim as (Hel1 & x & Hx & Hstarted).
    exists x, []. split; [reflexivity|]. split; [exact Hx|].
    split; [exact Hstarted|]. split; [constructor|]. right.
    unfold simulateSubmission, simulateBlock, bind, get, modify, ret, respond in Hsim'.
    destruct (sufficientCollateral api sub); [discriminate|].
    destruct (SubmitEnv.blockSim env) as [e|]; [destruct (decide _)|];
      cbv beta iota zeta in Hsim'; try discriminate.
    injection Hsim' as _ <-. exists StatusBadRequest, e. split; [reflexivity|congruence].
Qed.

Lemma handleSubmitNewBlock_rejected api body env r d f1 w :
  checksBeforeSimulation api body env (Frame.init (Stores.mk r d [])) = (f1, Return w) ->
  handleSubmitNewBlock api body env r d = (f1, w)
  /\ Frame.redis f1 = r /\ Frame.db f1 = d
  /\ Forall (fun e => isCheckEffect e = true) (effectsOf f1).
Proof.
  intros Hchecks. split.
  - unfold handleSubmitNewBlock, submitNewBlock.
    now rewrite (bind_Return _ _ _ _ _ Hchecks).
  - apply checksBeforeSimulation_frame in Hchecks as (extra & -> & Hall).
    repeat split. exact Hall.
Qed.

(** A submission whose simulation is not started (neither by the handler
    nor as a goroutine) leaves no trace in either store: the cache and the
    database are as they were, not even the audit row is written, and all the
    handler did outside is to sleep or to ask for a randao update. *)
Theorem unsimulated_submission_leaves_no_trace api body env r d :
  let result := handleSubmitNewBlock api body env r d in
  Forall (fun e => simulationStarted e = false) (effectsOf result.1) ->
  Frame.redis result.1 = r
  /\ Frame.db result.1 = d
  /\ Forall (fun e => isCheckEffect e = true) (effectsOf result.1).
Proof.
  intros result Hnone. subst result.
  destruct (checksBeforeSimulation api body env (Frame.init (Stores.mk r d [])))
    as [f1 [sub|w]] eqn:Hchecks.
  - exfalso.
    destruct (handleSubmitNewBlock_behind_checks _ _ _ _ _ _ _ Hchecks)
      as (f' & o & x & writes & Hres & He & Hx & _).
    rewrite Hres, answer_frame in Hnone. cbn [fst] in Hnone.
    destruct (saveSubmission_frame sub env f') as (_ & _ & _ & _ & audits & Ha & _).
    rewrite Ha, He in Hnone.
    apply Forall_app in Hnone as [Hnone _]. apply Forall_app in Hnone as [_ Hnone].
    inversion Hnone; subst. congruence.
  - destruct (handleSubmitNewBlock_rejected _ _ _ _ _ _ _ Hchecks) as (-> & H).
    exact H.
Qed.

Lemma unsimulated_submission_leaves_no_trace_witness :
  let result := handleSubmitNewBlock (Scenario.api 0 false) (Decoded (Scenario.payload 100 5))
                  (Scenario.env None None) Redis.empty (Scenario.database "0" false) in
  result.2 = RespondError StatusBadRequest "could not find slot duty"
  /\ Frame.redis result.1 = Redis.empty
  /\ Frame.db result.1 = Scenario.database "0" false.
Proof.
  intros result. split; [reflexivity|].
  destruct (unsimulated_submission_leaves_no_trace (Scenario.api 0 false)
              (Decoded (Scenario.payload 100 5)) (Scenario.env None None) Redis.empty
              (Scenario.database "0" false)) as (Hr & Hd & _).
  - vm_compute. repeat constructor.
  - split; [exact Hr|exact Hd].
Defined.

(** A submission whose simulation is started is audited exactly once, at the
    end and whatever happened after the start (failed simulation, stale
    submission, failed cache write): the last calls of the handler are the
    save of the audit row and, when the row was saved, the update of the
    builder's counters; no audit write comes earlier. *)
Theorem simulated_submission_audited_once api body env r d :
  let result := handleSubmitNewBlock api body env r d in
  Exists (fun e => simulationStarted e = true) (effectsOf result.1) ->
  exists before err rest,
    effectsOf result.1
    = before ++ SaveBuilderBlockSubmission (Frame.optimisticSubmission result.1) err :: rest
    /\ Forall (fun e => isAuditWrite e = false) before
    /\ match err with
       | Some _ => rest = []
       | None => exists isError e, rest = [UpsertBlockBuilderEntryAfterSubmission isError e]
       end.
Proof.
  intros result Hsome. subst result.
  destruct (checksBeforeSimulation api body env (Frame.init (Stores.mk r d [])))
    as [f1 [sub|w]] eqn:Hchecks.
  - destruct (handleSubmitNewBlock_behind_checks _ _ _ _ _ _ _ Hchecks)
      as (f' & o & x & writes & Hres & He & Hx & Hw & _).
    rewrite Hres, answer_frame. cbn [fst].
    destruct (saveSubmission_audits sub env f') as (err & rest & Ha & Hrest).
    destruct (saveSubmission_frame sub env f') as (_ & _ & Hopt & _).
    exists (effectsOf f'), err, rest. rewrite Hopt. split; [exact Ha|]. split.
    + rewrite He. apply Forall_app. split.
      * apply checksBeforeSimulation_frame in Hchecks as (extra & -> & Hall).
        unfold effectsOf. simpl. revert Hall. apply Forall_kind_excludes. kinds_disjoint.
      * constructor.
        -- unfold simulationStarted in Hx. destruct x as [[]| | | | | | | | | | | | | |];
             simpl in *; congruence.
        -- revert Hw. apply Forall_kind_excludes. kinds_disjoint.
    + destruct err; [exact Hrest|]. destruct Hrest as [e ->]. eauto.
  - exfalso. destruct (handleSubmitNewBlock_rejected _ _ _ _ _ _ _ Hchecks) as (Hres & _ & _ & Hall).
    rewrite Hres in Hsome. cbn [fst] in Hsome.
    apply Exists_exists in Hsome as (e & Hin & He).
    rewrite Forall_forall in Hall. specialize (Hall e Hin).
    unfold simulationStarted in He. destruct e as [[]| | | | | | | | | | | | | |];
      simpl in *; congruence.
Qed.

Lemma simulated_submission_audited_once_witness :
  let result := handleSubmitNewBlock (Scenario.api 0 false) (Decoded (Scenario.payload 101 5))
                  (Scenario.env (Some "invalid block"%string) None) Redis.empty
                  (Scenario.database "0" false) in
  exists before err rest,
    effectsOf result.1
    = before ++ SaveBuilderBlockSubmission (Frame.optimisticSubmission result.1) err :: rest
    /\ Forall (fun e => isAuditWrite e = false) before
    /\ result.2 = RespondError StatusBadRequest "invalid block".
Proof.
  intros result.
  destruct (simulated_submission_audited_once (Scenario.api 0 false)
              (Decoded (Scenario.payload 101 5))
              (Scenario.env (Some "invalid block"%string) None) Redis.empty
              (Scenario.database "0" false)) as (before & err & rest & He & Hb & _).
  - vm_compute. repeat first [apply Exists_cons_hd; reflexivity | apply Exists_cons_tl].
  - exists before, err, rest. split; [exact He|]. split; [exact Hb|reflexivity].
Defined.

(** Behind the checks the handler answers 200 exactly when it has stamped
    the bid as eligible: the eligible-at time that the deferred audit write
    captures is set when the four cache writes went through and the status
    200 is written, and is left unset by every error answer. *)
Theorem bid_eligible_iff_accepted api body env r d :
  let result := handleSubmitNewBlock api body env r d in
  Exists (fun e => simulationStarted e = true) (effectsOf result.1) ->
  (result.2 = WriteHeader StatusOK
   /\ Frame.eligibleAt result.1 = Some (SubmitEnv.eligibleTime env))
  \/ (exists code msg, result.2 = RespondError code msg
                       /\ Frame.eligibleAt result.1 = None).
Proof.
  intros result Hsome. subst result.
  destruct (checksBeforeSimulation api body env (Frame.init (Stores.mk r d [])))
    as [f1 [sub|w]] eqn:Hchecks.
  - destruct (handleSubmitNewBlock_behind_checks _ _ _ _ _ _ _ Hchecks)
      as (f' & o & x & writes & Hres & _ & _ & _ & Hend).
    rewrite Hres.
    destruct (saveSubmission_frame sub env f') as (_ & _ & _ & Hel & _).
    destruct Hend as [[-> He]|(code & msg & -> & He)]; simpl.
    + left. split; [reflexivity|]. now rewrite Hel.
    + right. exists code, msg. split; [reflexivity|]. now rewrite Hel.
  - exfalso. destruct (handleSubmitNewBlock_rejected _ _ _ _ _ _ _ Hchecks) as (Hres & _ & _ & Hall).
    rewrite Hres in Hsome. cbn [fst] in Hsome.
    apply Exists_exists in Hsome as (e & Hin & He).
    rewrite Forall_forall in Hall. specialize (Hall e Hin).
    unfold simulationStarted in He. destruct e as [[]| | | | | | | | | | | | | |];
      simpl in *; congruence.
Qed.

Lemma bid_eligible_iff_accepted_witness :
  let result := handleSubmitNewBlock (Scenario.api 0 false) (Decoded (Scenario.payload 101 5))
                  (Scenario.env None None) Redis.empty (Scenario.database "0" false) in
  result.2 = WriteHeader StatusOK
  /\ Frame.eligibleAt result.1 = Some (SubmitEnv.eligibleTime (Scenario.env None None)).
Proof.
  intros result.
  destruct (bid_eligible_iff_accepted (Scenario.api 0 false)
              (Decoded (Scenario.payload 101 5)) (Scenario.env None None) Redis.empty
              (Scenario.database "0" false)) as [H|(code & msg & H & _)].
  - vm_compute. repeat first [apply Exists_cons_hd; reflexivity | apply Exists_cons_tl].
  - exact H.
  - exfalso. vm_compute in H. discriminate H.
Defined.

(** *** The gates in front of the simulation *)

Lemma decodeSubmission_response body f0 f1 w :
  decodeSubmission body f0 = (f1, Return w) ->
  exists msg, w = RespondError StatusBadRequest msg.
Proof.
  unfold decodeSubmission, respond, ret. intros H.
  destruct body; case_handler; eauto.
Qed.

Lemma rejectDeliveredSlot_response message env f0 f1 w :
  rejectDeliveredSlot message env f0 = (f1, Return w) ->
  w = RespondError StatusBadRequest "payload for this slot was already delivered".
Proof.
  unfold rejectDeliveredSlot, bind, get, respond, ret. intros H.
  case_handler; reflexivity.
Qed.

Lemma effectsOf_emit e f : effectsOf (Frame.emit e f) = effectsOf f ++ [e].
Proof. reflexivity. Qed.

Lemma checkSubmission_refused api payload message executionPayload env f0 f1 o :
  refusedByStatus api (BidTrace.BuilderPubkey message) ->
  checkSubmission api payload message executionPayload env f0 = (f1, o) ->
  (exists msg, o = Return (RespondError StatusBadRequest msg))
  \/ (o = Return (WriteHeader StatusOK) /\ last (effectsOf f1) = Some (Sleep 200)).
Proof.
  unfold refusedByStatus, checkSubmission, bind, modify, respond, ret. intros Href H.
  destruct (negb (ExecutionPayload.Timestamp executionPayload =? _));
    [injection H as <- <-; eauto|].
  destruct (randaoHelper.slot _ <? _); cbv beta iota zeta in H;
    (destruct (RelayAPI.proposerDutiesMap api !! _) as [slotDuty|];
     [|injection H as <- <-; eauto]);
    (destruct (negb (String.eqb _ _)); [injection H as <- <-; eauto|]);
    (destruct (BuilderStatus.IsBlacklisted _) eqn:Hblack;
     [injection H as <- <-; right; split; [reflexivity|];
      rewrite effectsOf_emit; apply last_snoc|]);
    (destruct Href as [Hb|[Hff Hprio]]; [congruence|]);
    rewrite Hff, Hprio in H; cbv beta iota zeta in H; simpl in H;
    injection H as <- <-; right; (split; [reflexivity|]);
    rewrite effectsOf_emit; apply last_snoc.
Qed.

(** A submission of a builder that is blacklisted in the builder cache, or
    that is low-prio while low-prio builders are disabled, is never
    simulated and never stored: it is answered with a 400 of an earlier
    check, or with a bare 200 after a sleep of 200 ms, and the cache and the
    database stay as they were. *)
Theorem refused_builder_never_simulated api payload message env r d :
  BuilderSubmitBlockRequest.Message payload = Some message ->
  refusedByStatus api (BidTrace.BuilderPubkey message) ->
  let result := handleSubmitNewBlock api (Decoded payload) env r d in
  Forall (fun e => simulationStarted e = false) (effectsOf result.1)
  /\ Frame.redis result.1 = r
  /\ Frame.db result.1 = d
  /\ ((exists msg, result.2 = RespondError StatusBadRequest msg)
      \/ (result.2 = WriteHeader StatusOK /\ last (effectsOf result.1) = Some (Sleep 200))).
Proof.
  intros Hmsg Href result. subst result.
  set (f0 := Frame.init (Stores.mk r d [])).
  assert (Hchecks : exists f1 w,
             checksBeforeRandao api (Decoded payload) env f0 = (f1, Return w)
             /\ ((exists msg, w = RespondError StatusBadRequest msg)
                 \/ (w = WriteHeader StatusOK /\ last (effectsOf f1) = Some (Sleep 200)))).
  { destruct (checksBeforeRandao api (Decoded payload) env f0) as [f1 o] eqn:H.
    exists f1. pose proof H as H'. unfold checksBeforeRandao in H.
    bind_cases H as H1.
    - destruct a as [[payload' message'] ep].
      apply decodeSubmission_inv in H1 as [-> H1].
      destruct (H1 _ _ _ eq_refl) as ([= <-] & Hm & _).
      assert (message' = message) as -> by congruence.
      bind_cases H as H2.
      + apply (checkSubmission_refused _ _ _ _ _ _ _ _ Href) in H as [(msg & ->)|[-> Hl]];
          eexists; (split; [reflexivity|]); eauto.
      + apply rejectDeliveredSlot_response in H2 as ->.
        eexists. split; [reflexivity|]. eauto.
    - apply decodeSubmission_response in H1 as (msg & ->).
      eexists. split; [reflexivity|]. eauto. }
  destruct Hchecks as (f1 & w & Hchecks & Hw).
  assert (Hsim : checksBeforeSimulation api (Decoded payload) env f0 = (f1, Return w)).
  { unfold checksBeforeSimulation. now rewrite (bind_Return _ _ _ _ _ Hchecks). }
  destruct (handleSubmitNewBlock_rejected _ _ _ _ _ _ _ Hsim) as (-> & Hr & Hd & Hall).
  cbn [fst snd]. split; [|split; [exact Hr|split; [exact Hd|exact Hw]]].
  revert Hall. apply Forall_kind_excludes.
  intros e; destruct e as [[]| | | | | | | | | | | | | |]; unfold simulationStarted; simpl;
    congruence.
Qed.

Lemma refused_builder_never_simulated_witness :
  let api := RelayAPI.withBlockBuildersCache (Scenario.api 0 false)
               (<["0xB"%string :=
                    blockBuilderCacheEntry.mk (BuilderStatus.mk true true false) 100]> ∅) in
  let result := handleSubmitNewBlock api (Decoded (Scenario.payload 101 5))
                  (Scenario.env None None) Redis.empty (Scenario.database "100" false) in
  result.2 = WriteHeader StatusOK
  /\ effectsOf result.1 = [Sleep 200]
  /\ Frame.redis result.1 = Redis.empty
  /\ Frame.db result.1 = Scenario.database "100" false.
Proof.
  intros api result.
  assert (Hmsg : BuilderSubmitBlockRequest.Message (Scenario.payload 101 5)
                 = Some (Scenario.message 101 5)) by reflexivity.
  assert (Href : refusedByStatus api (BidTrace.BuilderPubkey (Scenario.message 101 5)))
    by (left; reflexivity).
  destruct (refused_builder_never_simulated api (Scenario.payload 101 5)
              (Scenario.message 101 5) (Scenario.env None None) Redis.empty
              (Scenario.database "100" false) Hmsg Href) as (_ & Hr & Hd & _).
  split; [reflexivity|]. split; [reflexivity|]. split; [exact Hr|exact Hd].
Defined.

Lemma checkSubmission_passed api payload message executionPayload env f0 f1 sub :
  checkSubmission api payload message executionPayload env f0 = (f1, Continue sub) ->
  ExecutionPayload.Timestamp executionPayload
  = u64 (RelayAPI.genesisTime api + u64 (BidTrace.Slot message * 12))
  /\ RegisterValidatorRequestMessage.FeeRecipient (Submission.slotDuty sub)
     = BidTrace.ProposerFeeRecipient message
  /\ ~ refusedByStatus api (BidTrace.BuilderPubkey message)
  /\ RelayAPI.headSlot api < BidTrace.Slot message
  /\ BidTrace.Value message <> 0
  /\ ExecutionPayload.Transactions executionPayload <> []
  /\ SubmitEnv.sanityCheck env = None.
Proof.
  unfold refusedByStatus, checkSubmission, bind, modify, respond, ret. intros H.
  destruct (negb (ExecutionPayload.Timestamp executionPayload =? _)) eqn:Hts;
    [discriminate|].
  apply negb_false_iff, Z.eqb_eq in Hts.
  destruct (randaoHelper.slot _ <? _); cbv beta iota zeta in H.
  all: destruct (RelayAPI.proposerDutiesMap api !! BidTrace.Slot message) as [slotDuty|];
    [|discriminate].
  all: destruct (negb (String.eqb _ _)) eqn:Hfee; [discriminate|].
  all: apply negb_false_iff, String.eqb_eq in Hfee.
  all: destruct (BuilderStatus.IsBlacklisted _) eqn:Hblack; [discriminate|].
  all: destruct (RelayAPI.ffDisableLowPrioBuilders api && _) eqn:Hlow; [discriminate|].
  all: destruct (BidTrace.Slot message <=? RelayAPI.headSlot api) eqn:Hpast; [discriminate|].
  all: apply Z.leb_gt in Hpast.
  all: destruct ((Cmp _ _ =? 0) || _) eqn:Hzero; [discriminate|].
  all: apply orb_false_iff in Hzero as [Hvalue Htx].
  all: destruct (SubmitEnv.sanityCheck env); [discriminate|].
  all: injection H as _ <-; cbn [Submission.slotDuty].
  all: split; [exact Hts|]; split; [exact Hfee|]; split;
    [intros [Hb|[Hff Hprio]]; [congruence|]; rewrite Hff, Hprio in Hlow; discriminate|].
  all: split; [exact Hpast|]; split;
    [intros Hv; assert (Hc : (Cmp (BidTrace.Value message) ZeroU256 =? 0) = true)
       by (apply Cmp_zero; exact Hv); congruence|].
  all: split; [|reflexivity]; intros Hnil; rewrite Hnil in Htx; discriminate.
Qed.

(** The simulation of a submission is started only behind every check: the
    body decodes with its message and execution payload, the timestamp is
    the one of the slot, the slot has a proposer duty with the submission's
    fee recipient, the builder is not refused by its status, the slot is
    above the head slot, the value is not zero and there are transactions,
    the sanity check passes, the expected prev_randao is known for the slot
    and equals the payload's, and the builder's signature verifies. *)
Theorem simulated_submission_passed_every_check api body env r d :
  let result := handleSubmitNewBlock api body env r d in
  Exists (fun e => simulationStarted e = true) (effectsOf result.1) ->
  exists payload message executionPayload slotDuty,
    body = Decoded payload
    /\ BuilderSubmitBlockRequest.Message payload = Some message
    /\ BuilderSubmitBlockRequest.ExecutionPayload payload = Some executionPayload
    /\ ExecutionPayload.Timestamp executionPayload
       = u64 (RelayAPI.genesisTime api + u64 (BidTrace.Slot message * 12))
    /\ RelayAPI.proposerDutiesMap api !! BidTrace.Slot message = Some slotDuty
    /\ RegisterValidatorRequestMessage.FeeRecipient slotDuty
       = BidTrace.ProposerFeeRecipient message
    /\ ~ refusedByStatus api (BidTrace.BuilderPubkey message)
    /\ RelayAPI.headSlot api < BidTrace.Slot message
    /\ BidTrace.Value message <> 0
    /\ ExecutionPayload.Transactions executionPayload <> []
    /\ SubmitEnv.sanityCheck env = None
    /\ RelayAPI.expectedPrevRandao api
       = randaoHelper.mk (BidTrace.Slot message) (ExecutionPayload.Random executionPayload)
    /\ SubmitEnv.verifySignature env = (true, None).
Proof.
  intros result Hsome. subst result.
  set (f0 := Frame.init (Stores.mk r d [])) in *.
  destruct (checksBeforeSimulation api body env f0) as [f3 [sub|w]] eqn:Hchecks.
  2:{ exfalso.
      destruct (handleSubmitNewBlock_rejected _ _ _ _ _ _ _ Hchecks) as (Hres & _ & _ & Hall).
      rewrite Hres in Hsome. cbn [fst] in Hsome.
      apply Exists_exists in Hsome as (e & Hin & He).
      rewrite Forall_forall in Hall. specialize (Hall e Hin).
      unfold simulationStarted in He. destruct e as [[]| | | | | | | | | | | | | |];
        simpl in *; congruence. }
  clear Hsome. unfold checksBeforeSimulation in Hchecks.
  bind_cases Hchecks as Hrandao. rename a into sub'.
  bind_cases Hchecks as Hconfirm. bind_cases Hchecks as Hsig.
  unfold ret in Hchecks. injection Hchecks as _ <-.
  unfold checksBeforeRandao in Hrandao.
  bind_cases Hrandao as Hdecode.
  match type of Hdecode with
  | _ = (_, Continue ?x) => destruct x as [[payload message] executionPayload]
  end.
  apply decodeSubmission_inv in Hdecode as [-> Hdecode].
  destruct (Hdecode _ _ _ eq_refl) as (-> & Hm & Hep).
  bind_cases Hrandao as Hgate. apply rejectDeliveredSlot_frame in Hgate as ->.
  pose proof (checkSubmission_passed _ _ _ _ _ _ _ _ Hrandao)
    as (Hts & Hfee & Href & Hpast & Hvalue & Htx & Hsanity).
  apply checkSubmission_inv in Hrandao as [Hsub Hduty].
  exists payload, message, executionPayload, (Submission.slotDuty sub').
  repeat (split; [first [assumption|reflexivity]|]).
  rewrite Hsub in Hconfirm. unfold confirmRandao, respond, ret in Hconfirm.
  cbn [Submission.message Submission.executionPayload] in Hconfirm.
  destruct (negb (randaoHelper.slot (RelayAPI.expectedPrevRandao api) =? _)) eqn:Hslot;
    [discriminate|].
  destruct (negb (String.eqb _ _)) eqn:Hrand; [discriminate|].
  apply negb_false_iff, Z.eqb_eq in Hslot. apply negb_false_iff, String.eqb_eq in Hrand.
  split.
  - destruct (RelayAPI.expectedPrevRandao api) as [slot prev]. simpl in *. congruence.
  - unfold verifyBuilderSignature, respond, ret in Hsig.
    destruct (SubmitEnv.verifySignature env) as [ok [err|]].
    + rewrite bool_decide_eq_true_2, orb_true_r in Hsig by discriminate. discriminate.
    + rewrite bool_decide_eq_false_2 in Hsig by (intros Hn; now apply Hn).
      destruct ok; [reflexivity|discriminate].
Qed.

Lemma simulated_submission_passed_every_check_witness :
  let result := handleSubmitNewBlock (Scenario.api 0 false) (Decoded (Scenario.payload 101 5))
                  (Scenario.env None None) Redis.empty (Scenario.database "0" false) in
  exists message,
    BuilderSubmitBlockRequest.Message (Scenario.payload 101 5) = Some message
    /\ RelayAPI.headSlot (Scenario.api 0 false) < BidTrace.Slot message
    /\ BidTrace.Value message <> 0.
Proof.
  intros result.
  destruct (simulated_submission_passed_every_check (Scenario.api 0 false)
              (Decoded (Scenario.payload 101 5)) (Scenario.env None None) Redis.empty
              (Scenario.database "0" false))
    as (payload & message & ep & duty & Hbody & Hm & _ & _ & _ & _ & _ & Hhead & Hvalue & _).
  - vm_compute. repeat first [apply Exists_cons_hd; reflexivity | apply Exists_cons_tl].
  - exists message. injection Hbody as <-. split; [exact Hm|]. split; [exact Hhead|exact Hvalue].
Defined.

(** ** getHeader and getPayload *)

(** A getHeader request is answered with a bid only when the slot is a
    decimal uint64 not below the head slot, the public key is 98 and the
    parent hash 66 characters long, bids are not switched off by the
    force-204 flag, and the bid is the one the best-bid lookup returns for
    exactly this slot, parent hash and proposer. *)
Theorem getHeader_serves_only_stored_best_bid
    ErrInvalidSlot ErrInvalidPubkey ErrInvalidHash api slotStr parentHashHex
    proposerPubkeyHex r fail body :
  handleGetHeader ErrInvalidSlot ErrInvalidPubkey ErrInvalidHash api slotStr parentHashHex
    proposerPubkeyHex r fail = RespondOK body ->
  exists slot bid,
    body = BodyGetHeader bid
    /\ Strconv.ParseUint slotStr 64 = Some slot
    /\ String.length proposerPubkeyHex = 98%nat
    /\ String.length parentHashHex = 66%nat
    /\ RelayAPI.headSlot api <= slot
    /\ RelayAPI.ffForceGetHeader204 api = false
    /\ Redis.GetBestBid r slot parentHashHex proposerPubkeyHex fail = (Some bid, None).
Proof.
  unfold handleGetHeader. intros H.
  destruct (Strconv.ParseUint slotStr 64) as [slot|]; [|discriminate].
  destruct (negb (Z.of_nat (String.length proposerPubkeyHex) =? 98)) eqn:Hpk; [discriminate|].
  destruct (negb (Z.of_nat (String.length parentHashHex) =? 66)) eqn:Hhash; [discriminate|].
  destruct (slot <? RelayAPI.headSlot api) eqn:Hold; [discriminate|].
  destruct (RelayAPI.ffForceGetHeader204 api) eqn:Hff; [discriminate|].
  destruct (Redis.GetBestBid r slot parentHashHex proposerPubkeyHex fail)
    as [[bid|] [err|]] eqn:Hbid; try discriminate.
  destruct (GetHeaderResponse.Data bid) as [data|]; [|discriminate].
  destruct (SignedBuilderBid.Message data) as [message|]; [|discriminate].
  destruct (Cmp (BuilderBid.Value message) ZeroU256 =? 0); [discriminate|].
  injection H as <-. exists slot, bid.
  apply negb_false_iff, Z.eqb_eq in Hpk. apply negb_false_iff, Z.eqb_eq in Hhash.
  apply Z.ltb_ge in Hold.
  repeat split; try reflexivity; try assumption; lia.
Qed.

Lemma getHeader_serves_only_stored_best_bid_witness :
  exists bid,
    Redis.GetBestBid (Scenario.cacheWithBestBid 5) 101 Scenario.parentHashHex
      Scenario.proposerPubkeyHex None = (Some bid, None)
    /\ Redis.bidValue bid = 5.
Proof.
  destruct (getHeader_serves_only_stored_best_bid "invalid slot" "invalid pubkey"
              "invalid hash" (Scenario.api 0 false) "101" Scenario.parentHashHex
              Scenario.proposerPubkeyHex (Scenario.cacheWithBestBid 5) None
              (BodyGetHeader
                 (GetHeaderResponse.mk VersionBellatrix
                    (Some (SignedBuilderBid.mk (Some (BuilderBid.mk 5 "0xbb" "0xrelay"))
                             "0xrelaysig")))))
    as (slot & bid & Hbody & Hslot & _ & _ & _ & _ & Hbid).
  - vm_compute. reflexivity.
  - injection Hslot as <-. injection Hbody as <-. eexists. split; [exact Hbid|reflexivity].
Defined.

(** getPayload marks a payload as delivered and publishes the block only for
    the request it answers with the payload: a request answered with a
    payload is one whose block has all its parts, for the payload found under
    the slot, the block hash and the public key the proposer index stands
    for, after the proposer's signature verified; the two goroutines are
    started for it, unless the response found has no payload data, on which
    the handler panics after it has written the response.  Every other
    request ends without a goroutine: answered with 400, or, the block
    lacking its message, body or payload header, in a panic with no response
    written. *)
Theorem getPayload_delivers_only_what_it_serves api body env r :
  let result := handleGetPayload api body env r in
  let goroutines :=
    filter (fun e => isGoroutine e = true) (GetPayloadResult.effects result) in
  (forall resp,
      GetPayloadResult.written result = Some (RespondOK (BodyGetPayload resp)) ->
      exists payload proposerPubkey,
        body = GetPayloadDecoded payload
        /\ RelayAPI.knownValidatorsByIndex api !! SignedBlindedBeaconBlock.ProposerIndex payload
           = Some proposerPubkey
        /\ GetPayloadEnv.verifySignature env = (true, None)
        /\ (GetGetPayloadResponse r (SignedBlindedBeaconBlock.Slot payload) proposerPubkey
              (SignedBlindedBeaconBlock.HeaderBlockHash payload)
              (GetPayloadEnv.getPayloadFail1 env) = (Some resp, None)
            \/ GetGetPayloadResponse r (SignedBlindedBeaconBlock.Slot payload) proposerPubkey
                 (SignedBlindedBeaconBlock.HeaderBlockHash payload)
                 (GetPayloadEnv.getPayloadFail2 env) = (Some resp, None))
        /\ match GetPayloadResponse.Data resp with
           | Some _ =>
               GetPayloadResult.panicked result = false
               /\ goroutines = [Go (GoSaveDeliveredPayload payload proposerPubkey resp);
                                Go (GoPublishBlock payload resp)]
           | None => GetPayloadResult.panicked result = true /\ goroutines = []
           end)
  /\ ((forall resp,
         GetPayloadResult.written result <> Some (RespondOK (BodyGetPayload resp))) ->
      goroutines = []
      /\ ((exists msg,
              GetPayloadResult.written result = Some (RespondError StatusBadRequest msg)
              /\ GetPayloadResult.panicked result = false)
          \/ (body = GetPayloadNilParts
              /\ GetPayloadResult.written result = None
              /\ GetPayloadResult.panicked result = true))).
Proof.
  intros result goroutines. subst goroutines result. unfold handleGetPayload.
  destruct body as [err| |payload].
  { split; [discriminate|intros _; split; [reflexivity|left; eauto]]. }
  { split; [discriminate|intros _; split; [reflexivity|right; auto]]. }
  destruct (RelayAPI.knownValidatorsByIndex api !! _) as [proposerPubkey|] eqn:Hindex;
    [|split; [discriminate|intros _; split; [reflexivity|left; eauto]]].
  destruct (GetPayloadEnv.hexToPubkey env);
    [split; [discriminate|intros _; split; [reflexivity|left; eauto]]|].
  destruct (GetPayloadEnv.verifySignature env) as [ok [verr|]].
  { rewrite bool_decide_eq_true_2, orb_true_r by discriminate.
    split; [discriminate|intros _; split; [reflexivity|left; eauto]]. }
  rewrite bool_decide_eq_false_2 by (intros Hn; now apply Hn).
  destruct ok; cbn [negb orb];
    [|split; [discriminate|intros _; split; [reflexivity|left; eauto]]].
  destruct (GetGetPayloadResponse r _ proposerPubkey _ (GetPayloadEnv.getPayloadFail1 env))
    as [[resp1|] [e1|]] eqn:H1;
    try (destruct (GetGetPayloadResponse r _ proposerPubkey _
                     (GetPayloadEnv.getPayloadFail2 env)) as [[resp2|] [e2|]] eqn:H2);
    repeat match goal with
           | |- context [GetPayloadResponse.Data ?x] =>
               destruct (GetPayloadResponse.Data x) eqn:?
           end;
    cbn [GetPayloadResult.written GetPayloadResult.effects GetPayloadResult.panicked];
    (split;
     [ try discriminate;
       intros resp [= <-]; exists payload, proposerPubkey;
       repeat match goal with
              | H : GetPayloadResponse.Data _ = _ |- _ => rewrite H
              end;
       repeat split; eauto
     | first [ solve [intros Hno; exfalso; eapply Hno; reflexivity]
             | intros _; split; [reflexivity|left; eauto] ] ]).
Qed.

Lemma getPayload_delivers_only_what_it_serves_witness :
  let served := GetPayloadResponse.mk VersionBellatrix (Some (Scenario.executionPayload 101)) in
  let r := Redis.mk ∅ ∅ (<[(101, "0xA", "0xbb")%string := served]> ∅) ∅ ∅ ∅ in
  let env := GetPayloadEnv.mk None (true, None) None None in
  let result := handleGetPayload (Scenario.api 0 false)
                  (GetPayloadDecoded (Scenario.blinded 101)) env r in
  let empty := handleGetPayload (Scenario.api 0 false) GetPayloadNilParts env r in
  GetPayloadResult.written result = Some (RespondOK (BodyGetPayload served))
  /\ filter (fun e => isGoroutine e = true) (GetPayloadResult.effects result)
     = [Go (GoSaveDeliveredPayload (Scenario.blinded 101) "0xA" served);
        Go (GoPublishBlock (Scenario.blinded 101) served)]
  /\ GetPayloadResult.written empty = None
  /\ GetPayloadResult.panicked empty = true
  /\ filter (fun e => isGoroutine e = true) (GetPayloadResult.effects empty) = [].
Proof.
  intros served r env result empty.
  destruct (getPayload_delivers_only_what_it_serves (Scenario.api 0 false)
              (GetPayloadDecoded (Scenario.blinded 101)) env r) as [Hserved _].
  destruct (Hserved served eq_refl) as (payload & pk & Hbody & Hpk & _ & _ & _ & Hgo).
  injection Hbody as <-. injection Hpk as <-.
  destruct (getPayload_delivers_only_what_it_serves (Scenario.api 0 false)
              GetPayloadNilParts env r) as [_ Hother].
  destruct Hother as [Hnone _]; [discriminate|].
  split; [reflexivity|]. split; [exact Hgo|].
  split; [reflexivity|]. split; [reflexivity|exact Hnone].
Defined.

(** ** Demotion *)

(** An optimistic simulation that fails with an error other than "block
    already known" demotes the builder: after the request to the simulator
    the goroutine makes exactly two database calls, the status write and then
    the entry in the demotions log, the second also when the first failed.
    The status written has the demoted bit set and the high-prio and
    blacklisted bits of the builder cache (cleared for a builder that is not
    in the cache), not those of the builder's row; the shared cache is not
    touched. *)
Theorem failed_optimistic_simulation_demotes api opts env s message err :
  BuilderSubmitBlockRequest.Message
    (BuilderBlockValidationRequest.BuilderSubmitBlockRequest (blockSimOptions.req opts))
  = Some message ->
  OptimisticEnv.blockSim env = Some err ->
  err <> ErrBlockAlreadyKnown ->
  let s' := processOptimisticBlock api opts env s in
  let cached := blockBuilderCacheEntry.status
                  (lookupBuilderEntry api (BidTrace.BuilderPubkey message)) in
  exists err1 err2,
    Stores.effects s'
    = Stores.effects s
      ++ [BlockSimSend opts;
          SetBlockBuilderStatus (BidTrace.BuilderPubkey message)
            (BuilderStatus.mk (BuilderStatus.IsHighPrio cached)
               (BuilderStatus.IsBlacklisted cached) true) err1;
          InsertBuilderDemotion err2]
    /\ (DemoteEnv.setStatusFail (OptimisticEnv.demote env) = None
        \/ err1 = DemoteEnv.setStatusFail (OptimisticEnv.demote env))
    /\ Stores.redis s' = Stores.redis s.
Proof.
  intros Hm Hsim Hne s' cached. subst s' cached.
  unfold processOptimisticBlock, simulateBlock. rewrite Hm, Hsim.
  destruct (decide (err <> ErrBlockAlreadyKnown)) as [_|Hc]; [|contradiction].
  unfold demoteBuilder, lookupBuilderEntry.
  destruct (RelayAPI.blockBuildersCache api !! BidTrace.BuilderPubkey message) as [entry|];
    cbv beta iota zeta;
    match goal with
    | |- context [Database.SetBlockBuilderStatus ?a ?p ?st ?f] =>
        assert (Hfail : f = None \/ (Database.SetBlockBuilderStatus a p st f).2 = f)
          by (destruct f; [right; reflexivity|left; reflexivity]);
        destruct (Database.SetBlockBuilderStatus a p st f) as [d1 e1]
    end;
    match goal with
    | |- context [Database.InsertBuilderDemotion ?a ?b ?c ?f] =>
        destruct (Database.InsertBuilderDemotion a b c f) as [d2 e2]
    end;
    exists e1, e2; cbn [Stores.effects Stores.emit Stores.withDB Stores.redis Stores.db];
    (split; [now rewrite <- !app_assoc|]); (split; [exact Hfail|reflexivity]).
Qed.

Lemma failed_optimistic_simulation_demotes_witness :
  let opts := simulationRequest
                (Submission.mk (Scenario.payload 101 5) (Scenario.message 101 5)
                   (Scenario.executionPayload 101)
                   (lookupBuilderEntry (Scenario.api 100 false) "0xB") Scenario.duty) in
  let s' := processOptimisticBlock (Scenario.api 100 false) opts
              (OptimisticEnv.mk (Some "invalid block"%string) (DemoteEnv.mk None None))
              (Stores.mk Redis.empty (Scenario.database "100" false) []) in
  Stores.effects s'
  = [BlockSimSend opts;
     SetBlockBuilderStatus "0xB" (BuilderStatus.mk true false true) None;
     InsertBuilderDemotion None].
Proof.
  intros opts s'.
  destruct (failed_optimistic_simulation_demotes (Scenario.api 100 false) opts
              (OptimisticEnv.mk (Some "invalid block"%string) (DemoteEnv.mk None None))
              (Stores.mk Redis.empty (Scenario.database "100" false) [])
              (Scenario.message 101 5) "invalid block" eq_refl eq_refl)
    as (err1 & err2 & He & _ & _).
  - vm_compute. discriminate.
  - reflexivity.
Defined.

(** ** The data API: the queries put to the database *)

Lemma ParseUint_range s bitSize n :
  Strconv.ParseUint s bitSize = Some n -> 0 <= n < 2 ^ bitSize.
Proof.
  unfold Strconv.ParseUint, Strconv.parseDigits.
  destruct (decide (s = EmptyString)); [discriminate|].
  destruct (NilEmpty.uint_of_string s) as [u|]; [|discriminate].
  destruct (Z.of_N (N.of_uint u) <? 2 ^ bitSize) eqn:Hlt; [|discriminate].
  intros [= <-]. apply Z.ltb_lt in Hlt. lia.
Qed.

Ltac step_inv H :=
  unfold bind, get, modify, respond, ret in H;
  repeat match type of H with
         | context [match ?x with _ => _ end] => destruct x eqn:?
         end;
  try discriminate H; injection H as <-.

Lemma deliveredPayloadsFilters_query hashErr keyErr args f0 f :
  deliveredPayloadsQuery f0 ->
  GetPayloadsFilters.Limit f0 = 200 ->
  GetPayloadsFilters.Slot f0 = 0 ->
  GetPayloadsFilters.Cursor f0 = 0 ->
  deliveredPayloadsFilters hashErr keyErr args f0 = (f, Continue tt) ->
  deliveredPayloadsQuery f.
Proof.
  unfold deliveredPayloadsQuery, deliveredPayloadsFilters.
  intros (Hlimit & _ & Horder) Hl Hs Hc H.
  bind_cases H as H1. bind_cases H as H2. bind_cases H as H3. bind_cases H as H4.
  bind_cases H as H5. bind_cases H as H6.
  assert (S1 : GetPayloadsFilters.Limit f1 = GetPayloadsFilters.Limit f0
               /\ (GetPayloadsFilters.Slot f1 = 0 \/ GetPayloadsFilters.Cursor f1 = 0)
               /\ GetPayloadsFilters.OrderByValue f1 = GetPayloadsFilters.OrderByValue f0).
  { clear -H1 Hs Hc. step_inv H1; simpl; auto. }
  assert (S2 : GetPayloadsFilters.Limit f2 = GetPayloadsFilters.Limit f1
               /\ GetPayloadsFilters.Slot f2 = GetPayloadsFilters.Slot f1
               /\ GetPayloadsFilters.Cursor f2 = GetPayloadsFilters.Cursor f1
               /\ GetPayloadsFilters.OrderByValue f2 = GetPayloadsFilters.OrderByValue f1).
  { clear -H2. step_inv H2; simpl; auto. }
  assert (S3 : GetPayloadsFilters.Limit f3 = GetPayloadsFilters.Limit f2
               /\ GetPayloadsFilters.Slot f3 = GetPayloadsFilters.Slot f2
               /\ GetPayloadsFilters.Cursor f3 = GetPayloadsFilters.Cursor f2
               /\ GetPayloadsFilters.OrderByValue f3 = GetPayloadsFilters.OrderByValue f2).
  { clear -H3. step_inv H3; simpl; auto. }
  assert (S4 : GetPayloadsFilters.Limit f4 = GetPayloadsFilters.Limit f3
               /\ GetPayloadsFilters.Slot f4 = GetPayloadsFilters.Slot f3
               /\ GetPayloadsFilters.Cursor f4 = GetPayloadsFilters.Cursor f3
               /\ GetPayloadsFilters.OrderByValue f4 = GetPayloadsFilters.OrderByValue f3).
  { clear -H4. step_inv H4; simpl; auto. }
  assert (S5 : GetPayloadsFilters.Limit f5 = GetPayloadsFilters.Limit f4
               /\ GetPayloadsFilters.Slot f5 = GetPayloadsFilters.Slot f4
               /\ GetPayloadsFilters.Cursor f5 = GetPayloadsFilters.Cursor f4
               /\ GetPayloadsFilters.OrderByValue f5 = GetPayloadsFilters.OrderByValue f4).
  { clear -H5. step_inv H5; simpl; auto. }
  assert (S6 : 0 <= GetPayloadsFilters.Limit f5 ->
               0 <= GetPayloadsFilters.Limit f6 <= GetPayloadsFilters.Limit f5
               /\ GetPayloadsFilters.Slot f6 = GetPayloadsFilters.Slot f5
               /\ GetPayloadsFilters.Cursor f6 = GetPayloadsFilters.Cursor f5
               /\ GetPayloadsFilters.OrderByValue f6 = GetPayloadsFilters.OrderByValue f5).
  { clear -H6. intros H0. step_inv H6; simpl; repeat split;
      repeat match goal with
             | Hp : Strconv.ParseUint _ _ = Some _ |- _ => apply ParseUint_range in Hp
             | Hlt : (_ <? _) = false |- _ => apply Z.ltb_ge in Hlt
             end; lia. }
  assert (S7 : GetPayloadsFilters.Limit f = GetPayloadsFilters.Limit f6
               /\ GetPayloadsFilters.Slot f = GetPayloadsFilters.Slot f6
               /\ GetPayloadsFilters.Cursor f = GetPayloadsFilters.Cursor f6
               /\ (GetPayloadsFilters.OrderByValue f = GetPayloadsFilters.OrderByValue f6
                   \/ GetPayloadsFilters.OrderByValue f = 1
                   \/ GetPayloadsFilters.OrderByValue f = -1)).
  { clear -H. step_inv H; simpl; repeat split; auto. }
  destruct S1 as (L1 & SC1 & O1), S2 as (L2 & Sl2 & C2 & O2), S3 as (L3 & Sl3 & C3 & O3),
    S4 as (L4 & Sl4 & C4 & O4), S5 as (L5 & Sl5 & C5 & O5), S7 as (L7 & Sl7 & C7 & O7).
  destruct S6 as (L6 & Sl6 & C6 & O6); [lia|].
  split; [lia|]. split; [|lia].
  destruct SC1 as [Hz|Hz]; [left|right]; congruence.
Qed.

Ltac step_err H :=
  unfold bind, get, modify, respond, ret in H;
  repeat match type of H with
         | context [match ?x with _ => _ end] => destruct x eqn:?
         end;
  try discriminate H; inversion H; subst; eauto.

Lemma deliveredPayloadsFilters_error hashErr keyErr args f0 f w :
  deliveredPayloadsFilters hashErr keyErr args f0 = (f, Return w) ->
  exists msg, w = RespondError StatusBadRequest msg.
Proof.
  unfold deliveredPayloadsFilters. intros H.
  apply bind_inv in H as [(s1 & [] & _ & H)|(w1 & H1 & [= ->])]; [|step_err H1].
  apply bind_inv in H as [(s2 & [] & _ & H)|(w2 & H2 & [= ->])]; [|step_err H2].
  apply bind_inv in H as [(s3 & [] & _ & H)|(w3 & H3 & [= ->])]; [|step_err H3].
  apply bind_inv in H as [(s4 & [] & _ & H)|(w4 & H4 & [= ->])]; [|step_err H4].
  apply bind_inv in H as [(s5 & [] & _ & H)|(w5 & H5 & [= ->])]; [|step_err H5].
  apply bind_inv in H as [(s6 & [] & _ & H)|(w6 & H6 & [= ->])]; [|step_err H6].
  step_err H.
Qed.

(** The delivered-payloads endpoint queries the database at most once, with
    filters that the query arguments alone determine, and only with a limit
    between 0 and 200 and not with both a slot and a cursor; otherwise it
    answers 400 without a query.  A database failure is answered with
    500. *)
Theorem delivered_payloads_query_bounded
    hashErr keyErr (Entry JSON : Type) (toJSON : Entry -> JSON) args :
  (exists msg, forall db,
      handleDataProposerPayloadDelivered hashErr keyErr Entry JSON toJSON args db
      = inl (RespondError StatusBadRequest msg))
  \/ (exists filters,
        deliveredPayloadsQuery filters
        /\ forall db,
            handleDataProposerPayloadDelivered hashErr keyErr Entry JSON toJSON args db
            = match db filters with
              | inl err => inl (RespondError StatusInternalServerError err)
              | inr rows => inr (toJSON <$> rows)
              end).
Proof.
  unfold handleDataProposerPayloadDelivered.
  destruct (deliveredPayloadsFilters hashErr keyErr args
              (GetPayloadsFilters.mk 0 0 200 EmptyString 0 EmptyString EmptyString 0))
    as [f [[]|w]] eqn:H.
  - right. exists f. split; [|reflexivity].
    refine (deliveredPayloadsFilters_query hashErr keyErr args
              (GetPayloadsFilters.mk 0 0 200 EmptyString 0 EmptyString EmptyString 0) f
              _ eq_refl eq_refl eq_refl H).
    unfold deliveredPayloadsQuery. simpl. lia.
  - left. destruct (deliveredPayloadsFilters_error _ _ _ _ _ _ H) as [msg ->].
    exists msg. reflexivity.
Qed.

Lemma builderSubmissionsFilters_error hashErr keyErr args f0 f w :
  builderSubmissionsFilters hashErr keyErr args f0 = (f, Return w) ->
  exists msg, w = RespondError StatusBadRequest msg.
Proof.
  unfold builderSubmissionsFilters. intros H.
  apply bind_inv in H as [(s1 & [] & _ & H)|(w1 & H1 & [= ->])]; [|step_err H1].
  apply bind_inv in H as [(s2 & [] & _ & H)|(w2 & H2 & [= ->])]; [|step_err H2].
  apply bind_inv in H as [(s3 & [] & _ & H)|(w3 & H3 & [= ->])]; [|step_err H3].
  apply bind_inv in H as [(s4 & [] & _ & H)|(w4 & H4 & [= ->])]; [|step_err H4].
  apply bind_inv in H as [(s5 & [] & _ & H)|(w5 & H5 & [= ->])]; [|step_err H5].
  step_err H.
Qed.

Lemma builderSubmissionsFilters_query hashErr keyErr args f0 f :
  GetBuilderSubmissionsFilters.Limit f0 = 500 ->
  builderSubmissionsFilters hashErr keyErr args f0 = (f, Continue tt) ->
  builderSubmissionsQuery f.
Proof.
  unfold builderSubmissionsQuery, builderSubmissionsFilters. intros Hl H.
  bind_cases H as H1. bind_cases H as H2. bind_cases H as H3. bind_cases H as H4.
  bind_cases H as H5.
  assert (S1 : GetBuilderSubmissionsFilters.Limit f1 = GetBuilderSubmissionsFilters.Limit f0).
  { clear -H1. step_inv H1; reflexivity. }
  assert (S2 : GetBuilderSubmissionsFilters.Limit f2 = GetBuilderSubmissionsFilters.Limit f1).
  { clear -H2. step_inv H2; reflexivity. }
  assert (S3 : GetBuilderSubmissionsFilters.Limit f3 = GetBuilderSubmissionsFilters.Limit f2).
  { clear -H3. step_inv H3; reflexivity. }
  assert (S4 : GetBuilderSubmissionsFilters.Limit f4 = GetBuilderSubmissionsFilters.Limit f3).
  { clear -H4. step_inv H4; reflexivity. }
  assert (S5 : GetBuilderSubmissionsFilters.Limit f5 = GetBuilderSubmissionsFilters.Limit f4).
  { clear -H5. step_inv H5; reflexivity. }
  assert (Hl5 : GetBuilderSubmissionsFilters.Limit f5 = 500) by congruence.
  clear -H Hl5. unfold bind, get, modify, respond, ret in H.
  destruct ((GetBuilderSubmissionsFilters.Slot f5 =? 0)
            && String.eqb (GetBuilderSubmissionsFilters.BlockHash f5) EmptyString
            && (GetBuilderSubmissionsFilters.BlockNumber f5 =? 0)
            && String.eqb (GetBuilderSubmissionsFilters.BuilderPubkey f5) EmptyString)
    eqn:Hnone; [discriminate|].
  assert (Hany : GetBuilderSubmissionsFilters.Slot f5 <> 0
                 \/ GetBuilderSubmissionsFilters.BlockHash f5 <> EmptyString
                 \/ GetBuilderSubmissionsFilters.BlockNumber f5 <> 0
                 \/ GetBuilderSubmissionsFilters.BuilderPubkey f5 <> EmptyString).
  { apply andb_false_iff in Hnone as [Hnone|Hnone];
      [apply andb_false_iff in Hnone as [Hnone|Hnone];
       [apply andb_false_iff in Hnone as [Hnone|Hnone]|]|].
    - left. now apply Z.eqb_neq.
    - right. left. now apply String.eqb_neq.
    - right. right. left. now apply Z.eqb_neq.
    - right. right. right. now apply String.eqb_neq. }
  destruct (given args "limit").
  - destruct (Strconv.ParseUint (Values.Get args "limit") 64) as [limit|] eqn:Hp;
      [|discriminate].
    destruct (GetBuilderSubmissionsFilters.Limit f5 <? limit) eqn:Hlt; [discriminate|].
    injection H as <-. apply ParseUint_range in Hp. apply Z.ltb_ge in Hlt.
    simpl. split; [lia|exact Hany].
  - injection H as <-. split; [lia|exact Hany].
Qed.

(** The bids-received endpoint queries the database at most once, with
    filters that the query arguments alone determine, and only with a limit
    between 0 and 500 and with at least one of slot, block hash, block number
    and builder public key set (a slot or block number of 0 counts as not
    set); otherwise it answers 400 without a query. *)
Theorem builder_submissions_query_bounded
    hashErr keyErr (Row JSON : Type) (toJSON : Row -> JSON) args :
  (exists msg, forall db,
      handleDataBuilderBidsReceived hashErr keyErr Row JSON toJSON args db
      = inl (RespondError StatusBadRequest msg))
  \/ (exists filters,
        builderSubmissionsQuery filters
        /\ forall db,
            handleDataBuilderBidsReceived hashErr keyErr Row JSON toJSON args db
            = match db filters with
              | inl err => inl (RespondError StatusInternalServerError err)
              | inr rows => inr (toJSON <$> rows)
              end).
Proof.
  unfold handleDataBuilderBidsReceived.
  destruct (builderSubmissionsFilters hashErr keyErr args
              (GetBuilderSubmissionsFilters.mk 0 500 EmptyString 0 EmptyString))
    as [f [[]|w]] eqn:H.
  - right. exists f. split; [|reflexivity].
    exact (builderSubmissionsFilters_query hashErr keyErr args
             (GetBuilderSubmissionsFilters.mk 0 500 EmptyString 0 EmptyString) f eq_refl H).
  - left. destruct (builderSubmissionsFilters_error _ _ _ _ _ _ H) as [msg ->].
    exists msg. reflexivity.
Qed.

(** ** Package common: the profile line *)

Lemma string_of_uint_no_comma (d : Decimal.uint) a b :
  NilEmpty.string_of_uint d <> a +:+ "," +:+ b.
Proof.
  revert a. induction d; intros a H; simpl in H;
    (destruct a as [|c a]; simpl in H; [discriminate|]; injection H as _ H; eapply IHd; eassumption)
    || (destruct a; discriminate).
Qed.

Lemma FormatUint_no_comma n a b : Strconv.FormatUint n <> a +:+ "," +:+ b.
Proof. apply string_of_uint_no_comma. Qed.

Lemma FormatUint_inj m n : 0 <= m -> 0 <= n -> Strconv.FormatUint m = Strconv.FormatUint n -> m = n.
Proof.
  intros Hm Hn H. apply (f_equal Strconv.parseDigits) in H.
  rewrite !parseDigits_FormatUint in H by assumption. congruence.
Qed.

Lemma split_at_comma s1 s2 r1 r2 :
  (forall a b, s1 <> a +:+ "," +:+ b) ->
  (forall a b, s2 <> a +:+ "," +:+ b) ->
  s1 +:+ "," +:+ r1 = s2 +:+ "," +:+ r2 ->
  s1 = s2 /\ r1 = r2.
Proof.
  revert s2. induction s1 as [|c s1 IH]; intros s2 H1 H2 H.
  - destruct s2 as [|c' s2]; cbn in H.
    + injection H as H. now split.
    + injection H as Hc _. subst c'. exfalso. apply (H2 EmptyString s2). reflexivity.
  - destruct s2 as [|c' s2]; cbn in H.
    + injection H as Hc _. subst c. exfalso. apply (H1 EmptyString s1). reflexivity.
    + injection H as Hc H. subst c'. destruct (IH s2) as [Hs Hr].
      * intros a b ->. apply (H1 (String c a) b). reflexivity.
      * intros a b ->. apply (H2 (String c a) b). reflexivity.
      * exact H.
      * subst. now split.
Qed.

Lemma FormatUint_field m n r1 r2 :
  0 <= m -> 0 <= n ->
  Strconv.FormatUint m +:+ "," +:+ r1 = Strconv.FormatUint n +:+ "," +:+ r2 ->
  m = n /\ r1 = r2.
Proof.
  intros Hm Hn H.
  apply split_at_comma in H as [H ->]; try (intros a b; apply FormatUint_no_comma).
  split; [now apply FormatUint_inj|reflexivity].
Qed.

(** The profile line determines the profile: two profiles with uint64 fields
    that differ in some duration print differently, so no duration is lost
    or mixed up in the text. *)
Theorem profile_string_injective p q :
  Profile.valid p -> Profile.valid q -> p <> q -> Profile.String p <> Profile.String q.
Proof.
  intros Hp Hq Hne H. apply Hne. revert Hp Hq H. clear Hne.
  unfold Profile.valid, Profile.String. intros Hp Hq H.
  destruct p as [p1 p2 p3 p4 p5 p6 p7 p8 p9 p10], q as [q1 q2 q3 q4 q5 q6 q7 q8 q9 q10].
  cbn [Profile.Unzip Profile.Decode Profile.CacheRead Profile.RandaoLock1 Profile.DutiesLock
         Profile.Checks Profile.RandaoLock2 Profile.Simulation Profile.RedisUpdate
         Profile.Submission] in *.
  repeat match goal with
         | Hall : Forall _ (_ :: _) |- _ =>
             let Hx := fresh "Hx" in apply Forall_cons in Hall as [Hx Hall]
         end.
  apply FormatUint_field in H as [-> H]; [|lia|lia].
  apply FormatUint_field in H as [-> H]; [|lia|lia].
  apply FormatUint_field in H as [-> H]; [|lia|lia].
  apply FormatUint_field in H as [-> H]; [|lia|lia].
  apply FormatUint_field in H as [-> H]; [|lia|lia].
  apply FormatUint_field in H as [-> H]; [|lia|lia].
  apply FormatUint_field in H as [-> H]; [|lia|lia].
  apply FormatUint_field in H as [-> H]; [|lia|lia].
  apply FormatUint_field in H as [-> H]; [|lia|lia].
  apply FormatUint_inj in H as ->; [reflexivity|lia|lia].
Qed.

Lemma profile_string_injective_witness :
  let p := Profile.mk 41 44 45 46 47 48 49 50 51 52 in
  let q := Profile.mk 4 144 45 46 47 48 49 50 51 52 in
  Profile.String p = "41,44,45,46,47,48,49,50,51,52"%string
  /\ Profile.String p <> Profile.String q.
Proof.
  intros p q. split; [reflexivity|].
  apply (profile_string_injective p q).
  - unfold Profile.valid. simpl. repeat constructor; lia.
  - unfold Profile.valid. simpl. repeat constructor; lia.
  - discriminate.
Defined.

(** ** Construction and shutdown *)

(** [NewRelayAPI] never replaces a relay public key that the shared config
    already holds.  With the builder API enabled it succeeds only when the
    config holds its own public key or none, writes its key in the second
    case alone, and refuses to start with the mismatch error when another
    key is there; with the builder API disabled it writes nothing. *)
Theorem relay_pubkey_never_replaced opts env :
  let result := NewRelayAPI opts env in
  (result.2 <> [] ->
   StartupEnv.getRelayConfig env = (EmptyString, None)
   /\ exists sk pk, RelayAPIOpts.SecretKey opts = Some sk
                    /\ StartupEnv.publicKeyOf env sk = inr pk
                    /\ result.2 = [pk])
  /\ (forall api,
         result.1 = inr api -> RelayAPIOpts.BlockBuilderAPI opts = true ->
         exists sk, RelayAPIOpts.SecretKey opts = Some sk
                    /\ StartupEnv.publicKeyOf env sk = inr (RelayAPI.publicKey api)
                    /\ (StartupEnv.getRelayConfig env = (RelayAPI.publicKey api, None)
                        /\ result.2 = []
                        \/ StartupEnv.getRelayConfig env = (EmptyString, None)
                           /\ result.2 = [RelayAPI.publicKey api]))
  /\ (forall sk pk stored,
         RelayAPIOpts.Log opts = true -> RelayAPIOpts.BeaconClient opts = true ->
         is_Some (RelayAPIOpts.Datastore opts) ->
         RelayAPIOpts.BlockBuilderAPI opts = true ->
         RelayAPIOpts.SecretKey opts = Some sk ->
         StartupEnv.publicKeyOf env sk = inr pk ->
         StartupEnv.getRelayConfig env = (stored, None) ->
         stored <> EmptyString -> stored <> pk ->
         result = (inl (ErrRelayPubkeyMismatch pk stored), []))
  /\ (RelayAPIOpts.BlockBuilderAPI opts = false -> result.2 = []).
Proof.
  intros result. subst result. unfold NewRelayAPI.
  split; [|split; [|split]].
  - destruct (negb (RelayAPIOpts.Log opts)); [now intros H|].
    destruct (negb (RelayAPIOpts.BeaconClient opts)); [now intros H|].
    destruct (RelayAPIOpts.Datastore opts) as [[known byIndex]|]; [|now intros H].
    destruct (RelayAPIOpts.BlockBuilderAPI opts); [|now intros H].
    destruct (RelayAPIOpts.SecretKey opts) as [sk|]; [|now intros H].
    destruct (StartupEnv.publicKeyOf env sk) as [err|pk] eqn:Hpk; [now intros H|].
    destruct (StartupEnv.getRelayConfig env) as [stored [err|]]; [now intros H|].
    destruct (String.eqb stored EmptyString) eqn:Hempty.
    + apply String.eqb_eq in Hempty as ->.
      destruct (StartupEnv.setRelayConfigFail env); intros _; (split; [reflexivity|]);
        exists sk, pk; auto.
    + destruct (negb (String.eqb stored pk)); now intros H.
  - intros api.
    destruct (negb (RelayAPIOpts.Log opts)); [discriminate|].
    destruct (negb (RelayAPIOpts.BeaconClient opts)); [discriminate|].
    destruct (RelayAPIOpts.Datastore opts) as [[known byIndex]|]; [|discriminate].
    destruct (RelayAPIOpts.BlockBuilderAPI opts); [|discriminate].
    destruct (RelayAPIOpts.SecretKey opts) as [sk|]; [|discriminate].
    destruct (StartupEnv.publicKeyOf env sk) as [err|pk] eqn:Hpk; [discriminate|].
    destruct (StartupEnv.getRelayConfig env) as [stored [err|]]; [discriminate|].
    destruct (String.eqb stored EmptyString) eqn:Hempty.
    + apply String.eqb_eq in Hempty as ->.
      destruct (StartupEnv.setRelayConfigFail env); [discriminate|].
      intros [= <-] _. exists sk. simpl. auto.
    + destruct (negb (String.eqb stored pk)) eqn:Hsame; [discriminate|].
      apply negb_false_iff, String.eqb_eq in Hsame as ->.
      intros [= <-] _. exists sk. simpl. auto.
  - intros sk pk stored -> -> [[known byIndex] ->] -> -> -> -> Hne Hdiff. simpl.
    apply String.eqb_neq in Hne, Hdiff. now rewrite Hne, Hdiff.
  - intros ->.
    destruct (negb (RelayAPIOpts.Log opts)); [reflexivity|].
    destruct (negb (RelayAPIOpts.BeaconClient opts)); [reflexivity|].
    destruct (RelayAPIOpts.Datastore opts) as [[known byIndex]|]; reflexivity.
Qed.

Lemma relay_pubkey_never_replaced_witness :
  let opts := RelayAPIOpts.mk true true (Some (∅, ∅)) (Some "secret"%string)
                true true false false false in
  let env := StartupEnv.mk (fun _ => inr "0xnew"%string) ("0xold"%string, None) None
               (fun _ => EmptyString) in
  NewRelayAPI opts env = (inl (ErrRelayPubkeyMismatch "0xnew" "0xold"), []).
Proof.
  intros opts env.
  destruct (relay_pubkey_never_replaced opts env) as (_ & _ & Hmismatch & _).
  apply (Hmismatch "secret"%string "0xnew"%string "0xold"%string); try reflexivity.
  - eexists. reflexivity.
  - discriminate.
  - discriminate.
Defined.

Lemma handleGetHeader_forced_204
    ErrInvalidSlot ErrInvalidPubkey ErrInvalidHash api slotStr parentHashHex
    proposerPubkeyHex r fail :
  RelayAPI.ffForceGetHeader204 api = true ->
  let w := handleGetHeader ErrInvalidSlot ErrInvalidPubkey ErrInvalidHash api slotStr
             parentHashHex proposerPubkeyHex r fail in
  w = WriteHeader StatusNoContent \/ exists msg, w = RespondError StatusBadRequest msg.
Proof.
  intros Hff w. subst w. unfold handleGetHeader. rewrite Hff.
  repeat match goal with
         | |- context [match ?x with _ => _ end] => destruct x
         end; eauto.
Qed.

(** After [StopServer], an instance that runs the proposer API serves no
    more bids: whatever the cache holds, every getHeader request is answered
    with 204, or with the 400 of a malformed or outdated request. *)
Theorem stopped_relay_serves_no_bids
    ErrInvalidSlot ErrInvalidPubkey ErrInvalidHash opts api slotStr parentHashHex
    proposerPubkeyHex r fail :
  RelayAPIOpts.ProposerAPI opts = true ->
  let w := handleGetHeader ErrInvalidSlot ErrInvalidPubkey ErrInvalidHash
             (StopServer opts api).1 slotStr parentHashHex proposerPubkeyHex r fail in
  w = WriteHeader StatusNoContent \/ exists msg, w = RespondError StatusBadRequest msg.
Proof.
  intros Hproposer. apply handleGetHeader_forced_204.
  unfold StopServer. now rewrite Hproposer.
Qed.

Lemma stopped_relay_serves_no_bids_witness :
  let opts := RelayAPIOpts.mk true true (Some (∅, ∅)) None true false false false false in
  handleGetHeader "invalid slot" "invalid pubkey" "invalid hash"
    (StopServer opts (Scenario.api 0 false)).1 "101" Scenario.parentHashHex
    Scenario.proposerPubkeyHex (Scenario.cacheWithBestBid 5) None
  = WriteHeader StatusNoContent.
Proof.
  intros opts.
  destruct (stopped_relay_serves_no_bids "invalid slot" "invalid pubkey" "invalid hash"
              opts (Scenario.api 0 false) "101" Scenario.parentHashHex
              Scenario.proposerPubkeyHex (Scenario.cacheWithBestBid 5) None eq_refl)
    as [H|[msg H]].
  - exact H.
  - exfalso. vm_compute in H. discriminate H.
Defined.
